(** * The deadline-compliance correlator of [tracker/utils.py]

    A shallow embedding of the fetchers, the assignment reconstructor, the
    compliance correlator and the deadline arithmetic, with the parts of
    [requests], [datetime] and [dateutil.relativedelta] they rely on.

    Decoded JSON is an inductive type; a Python [dict] is an association
    list in insertion order; exceptions are an error monad; the upstream
    service and the clock are a [World] passed explicitly. *)

From Stdlib Require Import ZArith List String Ascii Bool Lia.
From Stdlib Require Import DecimalString.
Import ListNotations.
Open Scope string_scope.
Open Scope Z_scope.

(** ** Python values produced by [response.json()]

    JSON numbers are integers here: none of the fields the tracker reads
    ([state], [assignee], [login], [draft], [pull_request], [events_url],
    [event], [created_at], [due_on]) is a float in the tracker API. *)

#[warnings="-register-all"]
Inductive json : Type :=
| JNull
| JBool (b : bool)
| JInt (z : Z)
| JStr (s : string)
| JList (l : list json)
| JDict (d : list (string * json)).

Definition dict : Type := list (string * json).

(** ** Exceptions *)

Inductive request_error : Type :=
| ConnectionError
| Timeout
| InvalidURL
| HTTPError
| JSONDecodeError.

Inductive exn : Type :=
| RequestException (e : request_error)
| AttributeError
| TypeError
| ValueError
| RecursionError
(** [urllib3.exceptions.LocationParseError], which is not a
    [RequestException] *)
| LocationParseError
(** not a Python exception: the bound given to the month-adjustment loop
    of [relativedelta] was reached *)
| LoopBound.

Inductive result (A : Type) : Type :=
| Ok (a : A)
| Raise (e : exn).

Arguments Ok {A} a.
Arguments Raise {A} e.

Definition bind {A B : Type} (r : result A) (k : A -> result B) : result B :=
  match r with
  | Ok a => k a
  | Raise e => Raise e
  end.

Notation "x <- e ;; k" := (bind e (fun x => k))
  (at level 61, e at next level, right associativity).

(** [try: body  except requests.exceptions.RequestException: log] followed
    by the function's trailing [return fallback]. *)
Definition except_RequestException {A : Type} (body : result A) (fallback : A)
  : result A :=
  match body with
  | Raise (RequestException _) => Ok fallback
  | other => other
  end.

(** ** Dictionaries *)

Fixpoint dict_get (k : string) (d : dict) : option json :=
  match d with
  | [] => None
  | (k', v) :: d' => if String.eqb k k' then Some v else dict_get k d'
  end.

(** [d[k] = v]: an existing key keeps its position. *)
Fixpoint dict_set (k : string) (v : json) (d : dict) : dict :=
  match d with
  | [] => [(k, v)]
  | (k', v') :: d' =>
      if String.eqb k k' then (k, v) :: d' else (k', v') :: dict_set k v d'
  end.

Definition dict_keys (d : dict) : list string := map fst d.

(** ** Operations on Python values *)

(** [bool(v)] *)
Definition truthy (v : json) : bool :=
  match v with
  | JNull => false
  | JBool b => b
  | JInt z => negb (z =? 0)
  | JStr s => negb (String.eqb s EmptyString)
  | JList l => match l with [] => false | _ => true end
  | JDict d => match d with [] => false | _ => true end
  end.

(** [v.get(k, default)]: only a dict has [get]. *)
Definition py_get (v : json) (k : string) (default : json) : result json :=
  match v with
  | JDict d => match dict_get k d with
               | Some x => Ok x
               | None => Ok default
               end
  | _ => Raise AttributeError
  end.

(** [v[k] = x] for a string key. *)
Definition py_setitem (v : json) (k : string) (x : json) : result json :=
  match v with
  | JDict d => Ok (JDict (dict_set k x d))
  | _ => Raise TypeError
  end.

(** [v == s] for a string literal [s]. *)
Definition py_eq_str (v : json) (s : string) : bool :=
  match v with
  | JStr t => String.eqb t s
  | _ => false
  end.

(** [a == b] *)
Fixpoint py_eqb (a b : json) {struct a} : bool :=
  match a, b with
  | JNull, JNull => true
  | JBool x, JBool y => Bool.eqb x y
  | JBool x, JInt y => Z.b2z x =? y
  | JInt x, JBool y => x =? Z.b2z y
  | JInt x, JInt y => x =? y
  | JStr x, JStr y => String.eqb x y
  | JList l1, JList l2 =>
      (fix go (l1 l2 : list json) {struct l1} : bool :=
         match l1, l2 with
         | [], [] => true
         | x :: l1', y :: l2' => py_eqb x y && go l1' l2'
         | _, _ => false
         end) l1 l2
  | JDict d1, JDict d2 =>
      Nat.eqb (List.length d1) (List.length d2) &&
      (fix go (d : dict) {struct d} : bool :=
         match d with
         | [] => true
         | (k, v) :: d' =>
             match dict_get k d2 with
             | Some v' => py_eqb v v'
             | None => false
             end && go d'
         end) d1
  | _, _ => false
  end.

(** [x in l] for a list [l] *)
Definition py_in (x : json) (l : list json) : bool := existsb (py_eqb x) l.

(** [v >= 1] *)
Definition py_ge_1 (v : json) : result bool :=
  match v with
  | JInt z => Ok (1 <=? z)
  | JBool b => Ok b
  | _ => Raise TypeError
  end.

Fixpoint chars (s : string) : list json :=
  match s with
  | EmptyString => []
  | String c s' => JStr (String c EmptyString) :: chars s'
  end.

(** [for x in v]: the items of a list, the keys of a dict, the characters
    of a string. *)
Definition py_iter (v : json) : result (list json) :=
  match v with
  | JList l => Ok l
  | JDict d => Ok (map (fun kv => JStr (fst kv)) d)
  | JStr s => Ok (chars s)
  | _ => Raise TypeError
  end.

(** [list(filter(p, l))] with a predicate that may raise *)
Fixpoint filterM {A : Type} (p : A -> result bool) (l : list A)
  : result (list A) :=
  match l with
  | [] => Ok []
  | x :: l' =>
      b <- p x ;;
      rest <- filterM p l' ;;
      Ok (if b then x :: rest else rest)
  end.

(** ** The transport: [requests] *)

(** What [response.json()] makes of the body of a response.  [json.loads]
    raises [JSONDecodeError] where the text stops being JSON, and
    [requests] turns that one into its own [JSONDecodeError]; what else
    the decoder raises on its way through the text is let through: a
    [ValueError] for an integer literal of more digits than [int]
    converts (4300 unless configured otherwise), a [RecursionError] for
    nesting beyond the recursion limit. *)
Inductive body : Type :=
| Json (v : json)
| NotJson
| IntegerTooLong
| TooDeep.

(** What [requests.get] does with a request.  It raises a
    [RequestException] ([RequestFailed]: no connection, a timeout, a URL
    without a scheme or a host, ...), or it lets through the
    [LocationParseError] of [urllib3] for a host with an empty or
    over-long label such as [http://a..b/x] ([HostRejected]), or it
    returns a response. *)
Inductive http_outcome : Type :=
| RequestFailed (e : request_error)
| HostRejected
| Response (status_code : Z) (body : body).

(** A naive datetime, or an aware one in UTC. *)
Record datetime : Type := mkDatetime {
  year : Z;
  month : Z;
  day : Z;
  hour : Z;
  minute : Z;
  second : Z;
  microsecond : Z
}.

(** What the service and the clock give back.  [http_get url params] is the
    outcome of [requests.get(url, headers=HEADERS, params=params)], the
    same for the whole of a pass, whatever [requests] does with the URL
    (a URL it refuses is a [RequestFailed] here); [now k] is the reading
    of [datetime.now()] while the correlator processes the issue at
    position [k]. *)
Record World : Type := mkWorld {
  http_get : string -> list (string * string) -> http_outcome;
  now : nat -> datetime
}.

(** [requests.get]: a URL that is not a string is rendered with [str],
    has no [http] scheme and is refused with a [RequestException] before
    anything is sent. *)
Definition requests_get (w : World) (url : json) (params : list (string * string))
  : result (Z * body) :=
  match url with
  | JStr u =>
      match http_get w u params with
      | RequestFailed e => Raise (RequestException e)
      | HostRejected => Raise LocationParseError
      | Response status body => Ok (status, body)
      end
  | _ => Raise (RequestException InvalidURL)
  end.

(** [response.raise_for_status()]: an [HTTPError] for a client error
    (4xx) or a server error (5xx). *)
Definition raise_for_status (resp : Z * body) : result unit :=
  let status := fst resp in
  if (400 <=? status) && (status <? 600)
  then Raise (RequestException HTTPError)
  else Ok tt.

(** [response.json()]: the [JSONDecodeError] of the decoder comes out
    as [requests.exceptions.JSONDecodeError], a [RequestException] (as
    of requests 2.27); its other exceptions come out as they are. *)
Definition response_json (resp : Z * body) : result json :=
  match snd resp with
  | Json v => Ok v
  | NotJson => Raise (RequestException JSONDecodeError)
  | IntegerTooLong => Raise ValueError
  | TooDeep => Raise RecursionError
  end.

(** ** Assignment reconstructor (utils.py, lines 63-95) *)

(** One turn of the loop of lines 86-89 on the [defaultdict]. *)
Definition assignment_step (assignment_info : dict) (event : json)
  : result dict :=
  kind <- py_get event "event" JNull ;;
  if py_eq_str kind "assigned" then
    assignee <- py_get event "assignee" (JDict []) ;;
    login <- py_get assignee "login" (JStr EmptyString) ;;
    let assignment_info := dict_set "assignee" login assignment_info in
    created_at <- py_get event "created_at" (JStr EmptyString) ;;
    Ok (dict_set "assigned_at" created_at assignment_info)
  else Ok assignment_info.

Fixpoint assignment_loop (assignment_info : dict) (events : list json)
  : result dict :=
  match events with
  | [] => Ok assignment_info
  | event :: events' =>
      assignment_info' <- assignment_step assignment_info event ;;
      assignment_loop assignment_info' events'
  end.

(** Lines 84-91 on the decoded body. *)
Definition reconstruct_assignment (events : json) : result dict :=
  evs <- py_iter events ;;
  assignment_loop [] evs.

Definition check_issue_assignment_events (w : World) (issue : json)
  : result dict :=
  except_RequestException
    (events_url <- py_get issue "events_url" (JStr EmptyString) ;;
     resp <- requests_get w events_url [] ;;
     _ <- raise_for_status resp ;;
     events <- response_json resp ;;
     reconstruct_assignment events)
    [].

(** ** Fetchers (utils.py, lines 98-151) *)

(** The predicate of lines 116-119; [and] evaluates left to right and
    stops at the first falsy operand. *)
Definition is_open_and_assigned (issue : json) : result bool :=
  state <- py_get issue "state" JNull ;;
  if py_eq_str state "open" then
    assignee <- py_get issue "assignee" JNull ;;
    if truthy assignee then
      draft <- py_get issue "draft" JNull ;;
      if negb (truthy draft) then
        pull_request <- py_get issue "pull_request" JNull ;;
        Ok (negb (truthy pull_request))
      else Ok false
    else Ok false
  else Ok false.

Definition get_all_open_and_assigned_issues (w : World) (url : string)
  : result (list json) :=
  except_RequestException
    (resp <- requests_get w (JStr url) [] ;;
     _ <- raise_for_status resp ;;
     issues <- response_json resp ;;
     items <- py_iter issues ;;
     filterM is_open_and_assigned items)
    [].

Definition get_all_open_pull_requests (w : World) (url : string)
  : result json :=
  except_RequestException
    (resp <- requests_get w (JStr url) [("state", "open")] ;;
     _ <- raise_for_status resp ;;
     response_json resp)
    (JList []).

(** ** [datetime] and [timedelta] *)

Definition is_leap (y : Z) : bool :=
  (y mod 4 =? 0) && (negb (y mod 100 =? 0) || (y mod 400 =? 0)).

(** [calendar.monthrange(y, m)[1]] *)
Definition days_in_month (y m : Z) : Z :=
  if m =? 2 then (if is_leap y then 29 else 28)
  else if (m =? 4) || (m =? 6) || (m =? 9) || (m =? 11) then 30
  else 31.

Definition days_before_year (y : Z) : Z :=
  let p := y - 1 in p * 365 + p / 4 - p / 100 + p / 400.

Definition days_before_month (y m : Z) : Z :=
  match m with
  | 1 => 0 | 2 => 31 | 3 => 59 | 4 => 90 | 5 => 120 | 6 => 151
  | 7 => 181 | 8 => 212 | 9 => 243 | 10 => 273 | 11 => 304 | _ => 334
  end + (if (2 <? m) && is_leap y then 1 else 0).

Definition toordinal (d : datetime) : Z :=
  days_before_year (year d) + days_before_month (year d) (month d) + day d.

Definition in_range (lo x hi : Z) : bool := (lo <=? x) && (x <=? hi).

(** The values a [datetime] object can hold. *)
Definition valid_datetime (d : datetime) : bool :=
  in_range 1 (year d) 9999 && in_range 1 (month d) 12 &&
  in_range 1 (day d) (days_in_month (year d) (month d)) &&
  in_range 0 (hour d) 23 && in_range 0 (minute d) 59 &&
  in_range 0 (second d) 59 && in_range 0 (microsecond d) 999999.

Definition fields (d : datetime) : list Z :=
  [year d; month d; day d; hour d; minute d; second d; microsecond d].

Fixpoint lex_ltb (a b : list Z) : bool :=
  match a, b with
  | x :: a', y :: b' => (x <? y) || ((x =? y) && lex_ltb a' b')
  | _, _ => false
  end.

(** [a < b] on naive datetimes, or on two aware ones in UTC *)
Definition datetime_ltb (a b : datetime) : bool := lex_ltb (fields a) (fields b).

Record timedelta : Type := mkTimedelta {
  td_days : Z;
  td_seconds : Z;
  td_microseconds : Z
}.

(** [timedelta(days, seconds, microseconds)]: normalised so that
    [0 <= seconds < 86400] and [0 <= microseconds < 1000000]. *)
Definition new_timedelta (days seconds microseconds : Z) : timedelta :=
  let seconds := seconds + microseconds / 1000000 in
  let microseconds := microseconds mod 1000000 in
  let days := days + seconds / 86400 in
  let seconds := seconds mod 86400 in
  mkTimedelta days seconds microseconds.

(** [a - b] *)
Definition datetime_sub (a b : datetime) : timedelta :=
  new_timedelta (toordinal a - toordinal b)
    ((second a + minute a * 60 + hour a * 3600)
     - (second b + minute b * 60 + hour b * 3600))
    (microsecond a - microsecond b).

(** ** [dateutil.relativedelta.relativedelta(dt1, dt2)]

    Only the relative fields: [leapdays] is 0 and the absolute fields are
    [None] in a delta built from two datetimes. *)

Record relativedelta_t : Type := mkRelativedelta {
  rd_years : Z;
  rd_months : Z;
  rd_days : Z;
  rd_hours : Z;
  rd_minutes : Z;
  rd_seconds : Z;
  rd_microseconds : Z
}.

Definition sign (x : Z) : Z := if x <? 0 then -1 else 1.

(** The pattern of [_fix] and [_set_months]:
    [if abs(lo) > limit: s = sign(lo); div, mod = divmod(lo * s, base);
     lo = mod * s; hi += div * s]. *)
Definition carry (lo hi limit base : Z) : Z * Z :=
  if limit <? Z.abs lo then
    let s := sign lo in
    (((lo * s) mod base) * s, hi + ((lo * s) / base) * s)
  else (lo, hi).

(** [_set_months]: the pair (years, months) *)
Definition set_months (months : Z) : Z * Z :=
  let (m, y) := carry months 0 11 12 in (y, m).

(** The year and month of [__add__]: [year = other.year + self.years],
    and when [self.months] is not 0, [month += self.months] brought back
    into 1..12 by one year. *)
Definition shifted_year_month (ym : Z * Z) (y0 m0 : Z) : Z * Z :=
  let (years, months) := ym in
  let y := y0 + years in
  if months =? 0 then (y, m0)
  else
    let m := m0 + months in
    if 12 <? m then (y + 1, m - 12)
    else if m <? 1 then (y - 1, m + 12)
    else (y, m).

(** [self.__radd__(dt2)] while only [years] and [months] are set:
    shift the month, clamp the day to the length of the target month,
    and [replace], which refuses a year outside 1..9999. *)
Definition shift_months (ym : Z * Z) (dt : datetime) : result datetime :=
  let (y, m) := shifted_year_month ym (year dt) (month dt) in
  let d := Z.min (days_in_month y m) (day dt) in
  if in_range 1 y 9999
  then Ok (mkDatetime y m d (hour dt) (minute dt) (second dt) (microsecond dt))
  else Raise ValueError.

(** [while compare(dt1, dtm): months += increment; ...], giving the final
    [months] and [dtm].  [None] when the bound on the number of turns is
    reached. *)
Fixpoint month_adjust (fuel : nat) (dt1 dt2 : datetime) (backwards : bool)
  (months : Z) (dtm : datetime) : option (result (Z * datetime)) :=
  let compare :=
    if backwards then datetime_ltb dtm dt1 else datetime_ltb dt1 dtm in
  if compare then
    match fuel with
    | O => None
    | S fuel' =>
        let months := months + (if backwards then 1 else -1) in
        match shift_months (set_months months) dt2 with
        | Raise e => Some (Raise e)
        | Ok dtm' => month_adjust fuel' dt1 dt2 backwards months dtm'
        end
    end
  else Some (Ok (months, dtm)).

(** [_fix] on the delta as [__init__] leaves it: years and months from
    [_set_months], [seconds] and [microseconds] from [dt1 - dtm]. *)
Definition rd_fix (years months seconds microseconds : Z) : relativedelta_t :=
  let '(microseconds, seconds) := carry microseconds seconds 999999 1000000 in
  let '(seconds, minutes) := carry seconds 0 59 60 in
  let '(minutes, hours) := carry minutes 0 59 60 in
  let '(hours, days) := carry hours 0 23 24 in
  let '(months, years) := carry months years 11 12 in
  mkRelativedelta years months days hours minutes seconds microseconds.

(** [relativedelta.__init__(dt1, dt2)] followed by [_fix]. *)
Definition relativedelta_fuel (fuel : nat) (dt1 dt2 : datetime)
  : option (result relativedelta_t) :=
  let months := (year dt1 - year dt2) * 12 + (month dt1 - month dt2) in
  match shift_months (set_months months) dt2 with
  | Raise e => Some (Raise e)
  | Ok dtm =>
      match month_adjust fuel dt1 dt2 (datetime_ltb dt1 dt2) months dtm with
      | None => None
      | Some (Raise e) => Some (Raise e)
      | Some (Ok (months, dtm)) =>
          let delta := datetime_sub dt1 dtm in
          let (years, months) := set_months months in
          Some (Ok (rd_fix years months
                      (td_seconds delta + td_days delta * 86400)
                      (td_microseconds delta)))
      end
  end.

Definition relativedelta (dt1 dt2 : datetime) : result relativedelta_t :=
  match relativedelta_fuel 2 dt1 dt2 with
  | Some r => r
  | None => Raise LoopBound
  end.

(** [relativedelta.__bool__] *)
Definition rd_bool (r : relativedelta_t) : bool :=
  negb ((rd_years r =? 0) && (rd_months r =? 0) && (rd_days r =? 0) &&
        (rd_hours r =? 0) && (rd_minutes r =? 0) && (rd_seconds r =? 0) &&
        (rd_microseconds r =? 0)).

(** [str(n)] for an int *)
Definition string_of_Z (n : Z) : string := NilZero.string_of_int (Z.to_int n).

(** ** Compliance correlator and deadline arithmetic

    [strptime s] is [datetime.strptime(s, "%Y-%m-%dT%H:%M:%SZ")], [None]
    when it raises [ValueError]; the library's parser is a parameter. *)

Section Tracker.

Variable strptime : string -> option datetime.

Definition py_strptime (v : json) : result datetime :=
  match v with
  | JStr s => match strptime s with
              | Some d => Ok d
              | None => Raise ValueError
              end
  | _ => Raise TypeError
  end.

(** Lines 170-179: [time_delta] and the value stored under ["days"]. *)
Definition elapsed_days (now : datetime) (assigned_at : json) : result Z :=
  if truthy assigned_at then
    dt2 <- py_strptime assigned_at ;;
    time_delta <- relativedelta now dt2 ;;
    Ok (if rd_bool time_delta then rd_days time_delta else 0)
  else Ok 0.

(** Lines 167-179, the body of the first loop for the issue at position [k]. *)
Definition annotate_issue (w : World) (k : nat) (issue : json) : result json :=
  info <- check_issue_assignment_events w issue ;;
  issue <- py_setitem issue "assignment_info" (JDict info) ;;
  assignment_info <- py_get issue "assignment_info" (JDict []) ;;
  assigned_at <- py_get assignment_info "assigned_at" JNull ;;
  days <- elapsed_days (now w k) assigned_at ;;
  py_setitem issue "days" (JInt days).

Fixpoint annotate_loop (w : World) (k : nat) (issues : list json)
  : result (list json) :=
  match issues with
  | [] => Ok []
  | issue :: issues' =>
      issue' <- annotate_issue w k issue ;;
      rest <- annotate_loop w (S k) issues' ;;
      Ok (issue' :: rest)
  end.

(** [pull_request.get("user", dict()).get("login")] *)
Definition pull_request_login (pull_request : json) : result json :=
  user <- py_get pull_request "user" (JDict []) ;;
  py_get user "login" JNull.

(** Lines 183-187 *)
Fixpoint pull_requests_users (pull_requests : list json) : result (list json) :=
  match pull_requests with
  | [] => Ok []
  | pull_request :: rest =>
      login <- pull_request_login pull_request ;;
      users <- pull_requests_users rest ;;
      Ok (if truthy login then login :: users else users)
  end.

(** The condition of lines 192-195 *)
Definition is_non_compliant (users : list json) (issue : json) : result bool :=
  days <- py_get issue "days" (JInt 0) ;;
  late <- py_ge_1 days ;;
  if late then
    assignee <- py_get issue "assignee" (JDict []) ;;
    login <- py_get assignee "login" JNull ;;
    Ok (negb (py_in login users))
  else Ok false.

Definition get_issues_without_pull_requests (w : World)
  (issues_url pull_requests_url : string) : result (list json) :=
  issues <- get_all_open_and_assigned_issues w issues_url ;;
  issues <- annotate_loop w 0 issues ;;
  pull_requests <- get_all_open_pull_requests w pull_requests_url ;;
  pull_requests <- py_iter pull_requests ;;
  users <- pull_requests_users pull_requests ;;
  filterM (is_non_compliant users) issues.

(** Lines 365-372 *)
Definition time_left_message (time_left : timedelta) : string :=
  if 0 <? td_days time_left then
    string_of_Z (td_days time_left) ++ " days remaining"
  else if 0 <? td_seconds time_left then
    let hours := td_seconds time_left / 3600 in
    let minutes := (td_seconds time_left mod 3600) / 60 in
    string_of_Z hours ++ " hours " ++ string_of_Z minutes ++ " minutes remaining"
  else "Deadline has passed.".

(** [get_time_before_deadline]: the issue as the call leaves it and the
    returned text.  [utcnow] is the reading of [datetime.now(timezone.utc)]. *)
Definition get_time_before_deadline (w : World) (utcnow : datetime)
  (issue : json) : result (json * string) :=
  assignment_info <- check_issue_assignment_events w issue ;;
  assigned_at <- py_get (JDict assignment_info) "assigned_at" JNull ;;
  if negb (truthy assigned_at) then Ok (issue, "This issue is not assigned.")
  else
    deadline_str <- py_get issue "due_on" JNull ;;
    if negb (truthy deadline_str) then
      Ok (issue, "No deadline set for this issue.")
    else
      deadline_datetime <- py_strptime deadline_str ;;
      let time_left := datetime_sub deadline_datetime utcnow in
      issue <-
        (if truthy assigned_at then
           assigned_time <- py_strptime assigned_at ;;
           time_delta <- relativedelta utcnow assigned_time ;;
           py_setitem issue "assigned_days" (JInt (rd_days time_delta))
         else py_setitem issue "assigned_days" (JInt 0)) ;;
      Ok (issue, time_left_message time_left).

End Tracker.

(** ** The parser on canonical timestamps

    [strptime_iso] is [strptime] on the fixed-width form
    [YYYY-MM-DDTHH:MM:SSZ] the tracker API emits; it is the instance at
    which the tracker is evaluated on concrete data. *)

Definition digit (c : ascii) : option Z :=
  let n := Z.of_nat (nat_of_ascii c) in
  if in_range 48 n 57 then Some (n - 48) else None.

Fixpoint number (s : string) (acc : Z) : option Z :=
  match s with
  | EmptyString => Some acc
  | String c s' =>
      match digit c with
      | Some d => number s' (acc * 10 + d)
      | None => None
      end
  end.

Definition field (s : string) (pos len : nat) : option Z :=
  number (substring pos len s) 0.

Definition literal (s : string) (pos : nat) (c : string) : bool :=
  String.eqb (substring pos 1 s) c.

Definition strptime_iso (s : string) : option datetime :=
  if Nat.eqb (String.length s) 20 && literal s 4 "-" && literal s 7 "-" &&
     literal s 10 "T" && literal s 13 ":" && literal s 16 ":" &&
     literal s 19 "Z"
  then
    match field s 0 4, field s 5 2, field s 8 2,
          field s 11 2, field s 14 2, field s 17 2 with
    | Some y, Some m, Some d, Some hh, Some mm, Some ss =>
        let dt := mkDatetime y m d hh mm ss 0 in
        if valid_datetime dt then Some dt else None
    | _, _, _, _, _, _ => None
    end
  else None.

(** ** Vocabulary of the specification *)

(** The kind of an event is ["assigned"]. *)
Definition is_assigned_event (e : json) : bool :=
  match e with
  | JDict d => match dict_get "event" d with
               | Some kind => py_eq_str kind "assigned"
               | None => false
               end
  | _ => false
  end.

(** The last event of the sequence whose kind is ["assigned"]. *)
Fixpoint last_assigned (events : list json) : option json :=
  match events with
  | [] => None
  | e :: rest =>
      match last_assigned rest with
      | Some e' => Some e'
      | None => if is_assigned_event e then Some e else None
      end
  end.

Definition lookup (v : json) (k : string) : option json :=
  match v with
  | JDict d => dict_get k d
  | _ => None
  end.

(** The assignee login an event carries, the empty string when it has none. *)
Definition event_login (e : json) : json :=
  match lookup e "assignee" with
  | Some a => match lookup a "login" with
              | Some l => l
              | None => JStr EmptyString
              end
  | None => JStr EmptyString
  end.

(** The timestamp an event carries, the empty string when it has none. *)
Definition event_created_at (e : json) : json :=
  match lookup e "created_at" with
  | Some t => t
  | None => JStr EmptyString
  end.

(** The assignment the specification reads off a sequence of events:
    unknown (the empty record) without an assigned event. *)
Definition spec_assignment (events : list json) : dict :=
  match last_assigned events with
  | Some e => [("assignee", event_login e); ("assigned_at", event_created_at e)]
  | None => []
  end.

(** The record the reconstructor builds is empty or holds the two keys in order. *)
Definition record_shape (acc : dict) : Prop :=
  acc = [] \/ exists l c, acc = [("assignee", l); ("assigned_at", c)].

(** [v] is an object, [null] or absent under key [k]. *)
Definition object_or_null (v : json) (k : string) : bool :=
  match lookup v k with
  | Some (JDict _) | Some JNull | None => true
  | Some _ => false
  end.

Definition object_or_absent (v : json) (k : string) : bool :=
  match lookup v k with
  | Some (JDict _) | None => true
  | Some _ => false
  end.

Definition is_object (v : json) : bool :=
  match v with
  | JDict _ => true
  | _ => false
  end.

(** An event object; an assigned event has an object assignee, if any. *)
Definition event_well_shaped (e : json) : bool :=
  is_object e &&
  (if is_assigned_event e then object_or_absent e "assignee" else true).

(** The value recorded under ["days"], 0 when there is none. *)
Definition issue_days (issue : json) : Z :=
  match lookup issue "days" with
  | Some (JInt d) => d
  | _ => 0
  end.

(** [issue.get("assignee", dict()).get("login")] *)
Definition issue_login (issue : json) : json :=
  match lookup issue "assignee" with
  | Some a => match lookup a "login" with
              | Some l => l
              | None => JNull
              end
  | None => JNull
  end.

(** The author login of a pull request, [None] when it has none. *)
Definition author_login (pull_request : json) : json :=
  match lookup pull_request "user" with
  | Some u => match lookup u "login" with
              | Some l => l
              | None => JNull
              end
  | None => JNull
  end.

(** The author logins of the open pull requests: the logins that are
    present and not empty. *)
Definition author_logins (pull_requests : list json) : list json :=
  filter truthy (map author_login pull_requests).

(** A login as the tracker API gives it: a string, or [None] when there
    is none. *)
Definition is_handle (v : json) : bool :=
  match v with
  | JNull | JStr _ => true
  | _ => false
  end.

(** [login] is among [logins]: one of them equals it as [==] compares
    values.  For a handle that is to be one of them. *)
Definition among (login : json) (logins : list json) : Prop :=
  exists l, In l logins /\ py_eqb login l = true.

(** The non-compliance condition of the specification. *)
Definition non_compliant (users : list json) (issue : json) : bool :=
  (1 <=? issue_days issue) && negb (py_in (issue_login issue) users).

(** A transport failure as the fetchers recognise it: the request raised
    a [RequestException], the status is a client or server error, or the
    decoder rejected the body with [JSONDecodeError]. *)
Definition transport_failure (o : http_outcome) : bool :=
  match o with
  | RequestFailed _ => true
  | HostRejected => false
  | Response status body =>
      ((400 <=? status) && (status <? 600)) ||
      match body with NotJson => true | _ => false end
  end.

(** A transport failure in the words of the specification: a timeout or
    a refused connection, a status outside 2xx, or a body that does not
    decode. *)
Definition spec_transport_failure (o : http_outcome) : bool :=
  match o with
  | RequestFailed _ => true
  | HostRejected => false
  | Response status body =>
      negb (in_range 200 status 299) ||
      match body with Json _ => false | _ => true end
  end.

(** Whole days between two instants: [(now - then).days]. *)
Definition whole_days_between (now then_ : datetime) : Z :=
  td_days (datetime_sub now then_).

(** The timestamp of a reconstructed assignment, [None] when unknown:
    [assignment_info.get("assigned_at")]. *)
Definition assigned_at_of (info : dict) : json :=
  match dict_get "assigned_at" info with
  | Some v => v
  | None => JNull
  end.

(** The issue as the first loop of the correlator leaves it. *)
Definition annotated (issue : dict) (info : dict) (days : Z) : json :=
  JDict (dict_set "days" (JInt days)
           (dict_set "assignment_info" (JDict info) issue)).

(** [l'] holds the entries of [l] annotated in turn, the first one at
    clock position [k]. *)
Fixpoint annotated_from (strptime : string -> option datetime) (w : World)
  (k : nat) (l l' : list json) : Prop :=
  match l, l' with
  | [], [] => True
  | issue :: rest, issue' :: rest' =>
      annotate_issue strptime w k issue = Ok issue' /\
      annotated_from strptime w (S k) rest rest'
  | _, _ => False
  end.

(** The entries of [l] marked in [keep], in order. *)
Fixpoint select {A : Type} (keep : list bool) (l : list A) : list A :=
  match keep, l with
  | b :: keep', x :: l' => if b then x :: select keep' l' else select keep' l'
  | _, _ => []
  end.

(** [entry] is [issue] with the keys ["assignment_info"] and ["days"]
    written and every other field as it was. *)
Definition augments (issue entry : json) : Prop :=
  exists d d',
    issue = JDict d /\ entry = JDict d' /\
    (exists info, dict_get "assignment_info" d' = Some (JDict info)) /\
    (exists days, dict_get "days" d' = Some (JInt days)) /\
    (forall k, k <> "assignment_info" -> k <> "days" ->
               dict_get k d' = dict_get k d) /\
    (forall k, In k (dict_keys d') <->
               In k (dict_keys d) \/ k = "assignment_info" \/ k = "days").

(** *** The shape of the upstream answers the correlator relies on *)

(** A request failed in a way the fetchers catch or was answered with a
    body that decodes to a value satisfying [P]. *)
Definition answer_ok (P : json -> Prop) (o : http_outcome) : Prop :=
  transport_failure o = true \/
  exists status body, o = Response status (Json body) /\ P body.

(** An absent or empty timestamp, or a string [strptime] parses. *)
Definition timestamp_ok (strptime : string -> option datetime) (v : json)
  : Prop :=
  truthy v = false \/ exists s d, v = JStr s /\ strptime s = Some d.

(** A list of event objects; the timestamp of the last assigned event is
    in the format. *)
Definition events_ok (strptime : string -> option datetime) (body : json)
  : Prop :=
  exists events,
    body = JList events /\ forallb event_well_shaped events = true /\
    timestamp_ok strptime (assigned_at_of (spec_assignment events)).

(** An issue object whose assignee is an object or [null] and whose
    events request, when its URL is a string, is answered with events. *)
Definition issue_ok (strptime : string -> option datetime) (w : World)
  (issue : json) : Prop :=
  is_object issue = true /\ object_or_null issue "assignee" = true /\
  forall url, py_get issue "events_url" (JStr EmptyString) = Ok (JStr url) ->
              answer_ok (events_ok strptime) (http_get w url []).

Definition issues_ok (strptime : string -> option datetime) (w : World)
  (body : json) : Prop :=
  exists items, body = JList items /\ Forall (issue_ok strptime w) items.

(** A pull-request object whose user, if any, is an object. *)
Definition pull_request_ok (pull_request : json) : Prop :=
  is_object pull_request = true /\ object_or_absent pull_request "user" = true.

Definition pull_requests_ok (body : json) : Prop :=
  exists items, body = JList items /\ Forall pull_request_ok items.

Definition upstream_ok (strptime : string -> option datetime) (w : World)
  (issues_url pull_requests_url : string) : Prop :=
  answer_ok (issues_ok strptime w) (http_get w issues_url []) /\
  answer_ok pull_requests_ok (http_get w pull_requests_url [("state", "open")]) /\
  forall k, valid_datetime (now w k) = true.

(** ** Sample data *)

(** The URLs of a sample service *)
Definition issues_endpoint : string := "http://t/issues".
Definition pulls_endpoint : string := "http://t/pulls".
Definition events_endpoint : string := "http://t/events/1".
Definition events_endpoint_2 : string := "http://t/events/2".

Definition at_time (y m d hh mm ss : Z) : datetime :=
  mkDatetime y m d hh mm ss 0.

(** A service answering the listed URLs and refusing the connection for
    any other, with a clock that stands still. *)
Fixpoint route (routes : list (string * http_outcome)) (url : string)
  : http_outcome :=
  match routes with
  | [] => RequestFailed ConnectionError
  | (u, o) :: rest => if String.eqb url u then o else route rest url
  end.

Definition world_of (routes : list (string * http_outcome)) (clock : datetime)
  : World :=
  mkWorld (fun url _ => route routes url) (fun _ => clock).

Definition ok_json (v : json) : http_outcome := Response 200 (Json v).

Definition assigned_event (login created_at : string) : json :=
  JDict [("event", JStr "assigned");
         ("assignee", JDict [("login", JStr login)]);
         ("created_at", JStr created_at)].

Definition open_issue (title login events_url : string) : json :=
  JDict [("title", JStr title);
         ("state", JStr "open");
         ("assignee", JDict [("login", JStr login)]);
         ("events_url", JStr events_url)].

Definition pull_request_by (login : string) : json :=
  JDict [("title", JStr "Patch"); ("user", JDict [("login", JStr login)])].

(** acme/widget: one open issue assigned to alice three days before the
    clock reading, and no open pull request. *)
Definition widget_world : World :=
  world_of
    [(issues_endpoint, ok_json (JList [open_issue "Fix widget" "alice" events_endpoint]));
     (events_endpoint, ok_json (JList [assigned_event "alice" "2024-03-12T09:00:00Z"]));
     (pulls_endpoint, ok_json (JList []))]
    (at_time 2024 3 15 12 0 0).

(** Two open issues, assigned to alice three days and to bob five days
    before the clock reading, and one open pull request, by bob. *)
Definition team_world : World :=
  world_of
    [(issues_endpoint,
      ok_json (JList [open_issue "Fix widget" "alice" events_endpoint;
                      open_issue "Fix gadget" "bob" events_endpoint_2]));
     (events_endpoint, ok_json (JList [assigned_event "alice" "2024-03-12T09:00:00Z"]));
     (events_endpoint_2, ok_json (JList [assigned_event "bob" "2024-03-10T09:00:00Z"]));
     (pulls_endpoint, ok_json (JList [pull_request_by "bob"]))]
    (at_time 2024 3 15 12 0 0).

(** The issue was assigned one calendar month before the clock reading. *)
Definition month_old_world : World :=
  world_of
    [(issues_endpoint, ok_json (JList [open_issue "Fix widget" "alice" events_endpoint]));
     (events_endpoint, ok_json (JList [assigned_event "alice" "2024-02-15T12:00:00Z"]));
     (pulls_endpoint, ok_json (JList []))]
    (at_time 2024 3 15 12 0 0).

(** An issue of [widget_world] whose deadline passed an hour before noon. *)
Definition overdue_issue : json :=
  JDict [("title", JStr "Fix widget");
         ("events_url", JStr events_endpoint);
         ("due_on", JStr "2024-03-15T11:00:00Z")].

(** An issue of [widget_world] without a deadline. *)
Definition undated_issue : json :=
  JDict [("title", JStr "Fix widget"); ("events_url", JStr events_endpoint)].

(** An issue of [widget_world] whose deadline is not in the format. *)
Definition badly_dated_issue : json :=
  JDict [("title", JStr "Fix widget");
         ("events_url", JStr events_endpoint);
         ("due_on", JStr "tomorrow")].

(** An issue of [widget_world] due two hours after noon. *)
Definition due_in_two_hours : json :=
  JDict [("title", JStr "Fix widget");
         ("events_url", JStr events_endpoint);
         ("due_on", JStr "2024-03-15T14:00:00Z")].

(** The pull-request listing is answered with status 300 and a JSON body. *)
Definition redirect_world : World :=
  world_of [(pulls_endpoint, Response 300 (Json (JList [pull_request_by "alice"])))]
    (at_time 2024 3 15 12 0 0).

(** The issues endpoint answers 503 without JSON; the pull-request and
    events requests are refused. *)
Definition outage_world : World :=
  world_of [(issues_endpoint, Response 503 NotJson)] (at_time 2024 3 15 12 0 0).

(** The events request is answered with a text that holds an integer
    literal of 5000 digits, the pull-request listing with a text of
    100000 opening brackets. *)
Definition undecodable_world : World :=
  world_of
    [(issues_endpoint, ok_json (JList [open_issue "Fix widget" "alice" events_endpoint]));
     (events_endpoint, Response 200 IntegerTooLong);
     (pulls_endpoint, Response 200 TooDeep)]
    (at_time 2024 3 15 12 0 0).

(** The events URL of the issue has a host with an empty label. *)
Definition rejected_host_world : World :=
  world_of
    [(issues_endpoint,
      ok_json (JList [open_issue "Fix widget" "alice" "http://a..b/events"]));
     ("http://a..b/events", HostRejected);
     (pulls_endpoint, ok_json (JList []))]
    (at_time 2024 3 15 12 0 0).

(** The assigned event carries a timestamp that is not in the format. *)
Definition bad_timestamp_world : World :=
  world_of
    [(issues_endpoint, ok_json (JList [open_issue "Fix widget" "alice" events_endpoint]));
     (events_endpoint, ok_json (JList [assigned_event "alice" "yesterday"]));
     (pulls_endpoint, ok_json (JList []))]
    (at_time 2024 3 15 12 0 0).

(** The issues endpoint answers 200 with an object instead of a list. *)
Definition message_world : World :=
  world_of
    [(issues_endpoint, ok_json (JDict [("message", JStr "Moved Permanently")]));
     (pulls_endpoint, ok_json (JList []))]
    (at_time 2024 3 15 12 0 0).

(** The fetched issue already carries a field named "days". *)
Definition stale_days_issue : json :=
  JDict [("title", JStr "Fix widget");
         ("state", JStr "open");
         ("assignee", JDict [("login", JStr "alice")]);
         ("events_url", JStr events_endpoint);
         ("days", JInt 100)].

Definition stale_days_world : World :=
  world_of
    [(issues_endpoint, ok_json (JList [stale_days_issue]));
     (events_endpoint, ok_json (JList [assigned_event "alice" "2024-03-12T09:00:00Z"]));
     (pulls_endpoint, ok_json (JList []))]
    (at_time 2024 3 15 12 0 0).

(** The entry the correlator returns for [widget_world], and for
    [team_world]. *)
Definition widget_entry : json :=
  JDict [("title", JStr "Fix widget");
         ("state", JStr "open");
         ("assignee", JDict [("login", JStr "alice")]);
         ("events_url", JStr events_endpoint);
         ("assignment_info",
          JDict [("assignee", JStr "alice");
                 ("assigned_at", JStr "2024-03-12T09:00:00Z")]);
         ("days", JInt 3)].


(** The clock reads the very instant of the assignment. *)
Definition just_assigned_world : World :=
  world_of
    [(issues_endpoint, ok_json (JList [open_issue "Fix widget" "alice" events_endpoint]));
     (events_endpoint, ok_json (JList [assigned_event "alice" "2024-03-12T09:00:00Z"]));
     (pulls_endpoint, ok_json (JList []))]
    (at_time 2024 3 12 9 0 0).

(** The events request is answered with the empty sequence. *)
Definition no_events_world : World :=
  world_of
    [(issues_endpoint, ok_json (JList [open_issue "Fix widget" "alice" events_endpoint]));
     (events_endpoint, ok_json (JList []));
     (pulls_endpoint, ok_json (JList []))]
    (at_time 2024 3 15 12 0 0).

(** ** The other fetchers (utils.py, lines 201-250) *)

(** The predicate of lines 217-224: [any] takes a list, so the three
    lookups are all made. *)
Definition is_available (issue : json) : result bool :=
  state <- py_get issue "state" JNull ;;
  if py_eq_str state "open" then
    assignee <- py_get issue "assignee" JNull ;;
    draft <- py_get issue "draft" JNull ;;
    pull_request <- py_get issue "pull_request" JNull ;;
    Ok (negb (truthy assignee || truthy draft || truthy pull_request))
  else Ok false.

Definition get_all_available_issues (w : World) (url : string)
  : result (list json) :=
  except_RequestException
    (resp <- requests_get w (JStr url) [] ;;
     _ <- raise_for_status resp ;;
     issues <- response_json resp ;;
     items <- py_iter issues ;;
     filterM is_available items)
    [].

(** [response.ok]: [raise_for_status] does not raise. *)
Definition response_ok (resp : Z * body) : bool :=
  match raise_for_status resp with
  | Ok _ => true
  | Raise _ => false
  end.

(** When [response.ok] is false the [try] block ends without a [return]
    and the trailing [return []] is reached. *)
Definition get_pull_reviews (w : World) (url : string) : result json :=
  except_RequestException
    (resp <- requests_get w (JStr url) [] ;;
     _ <- raise_for_status resp ;;
     if response_ok resp then response_json resp else Ok (JList []))
    (JList []).

(** [issue.get(k)] on an object *)
Definition field_of (issue : json) (k : string) : json :=
  match lookup issue k with
  | Some v => v
  | None => JNull
  end.

(** Open, assigned, not a draft and not a pull request. *)
Definition open_and_assigned (issue : json) : bool :=
  py_eq_str (field_of issue "state") "open" &&
  truthy (field_of issue "assignee") &&
  negb (truthy (field_of issue "draft")) &&
  negb (truthy (field_of issue "pull_request")).

(** Open, unassigned, not a draft and not a pull request. *)
Definition available (issue : json) : bool :=
  py_eq_str (field_of issue "state") "open" &&
  negb (truthy (field_of issue "assignee")) &&
  negb (truthy (field_of issue "draft")) &&
  negb (truthy (field_of issue "pull_request")).

(** Open, not a draft and not a pull request. *)
Definition open_issue_proper (issue : json) : bool :=
  py_eq_str (field_of issue "state") "open" &&
  negb (truthy (field_of issue "draft")) &&
  negb (truthy (field_of issue "pull_request")).

(** The request was answered, without an error status, with a JSON list. *)
Definition answered_with (o : http_outcome) (items : list json) : Prop :=
  exists status,
    o = Response status (Json (JList items)) /\
    (400 <=? status) && (status <? 600) = false.

(** An outcome on which [requests.get] or, past the status check,
    [response.json()] raises an exception that is no [RequestException]:
    no fetcher catches it. *)
Definition escapes (o : http_outcome) : bool :=
  match o with
  | RequestFailed _ => false
  | HostRejected => true
  | Response status body =>
      negb ((400 <=? status) && (status <? 600)) &&
      match body with IntegerTooLong | TooDeep => true | _ => false end
  end.

(** A repository with two open issues, one assigned and one free, a draft
    and a pull request. *)
Definition mixed_issues : list json :=
  [open_issue "Fix widget" "alice" events_endpoint;
   JDict [("title", JStr "Free task"); ("state", JStr "open"); ("assignee", JNull)];
   JDict [("title", JStr "Sketch"); ("state", JStr "open"); ("draft", JBool true)];
   JDict [("title", JStr "Patch"); ("state", JStr "open");
          ("assignee", JDict [("login", JStr "bob")]);
          ("pull_request", JDict [("url", JStr "http://t/pulls/7")])];
   JDict [("title", JStr "Done"); ("state", JStr "closed")]].

Definition mixed_world : World :=
  world_of [(issues_endpoint, ok_json (JList mixed_issues))] (at_time 2024 3 15 12 0 0).

(** The issue list holds a string among the objects. *)
Definition broken_list_world : World :=
  world_of
    [(issues_endpoint, ok_json (JList [open_issue "Fix widget" "alice" events_endpoint;
                                JStr "oops"]))]
    (at_time 2024 3 15 12 0 0).

(** ** Instants as numbers *)

(** Seconds since midnight. *)
Definition day_seconds (d : datetime) : Z :=
  second d + minute d * 60 + hour d * 3600.

(** Whole seconds counted from the day before 0001-01-01. *)
Definition epoch_seconds (d : datetime) : Z :=
  toordinal d * 86400 + day_seconds d.

(** The ordinal of the day before the first of the month. *)
Definition month_start (y m : Z) : Z := days_before_year y + days_before_month y m.

(** The position of an instant within its month, in microseconds. *)
Definition month_key (d : datetime) : Z :=
  (day d * 86400 + day_seconds d) * 1000000 + microsecond d.

(** The datetime [dt] moved to the month number [t] (months counted from
    January of year 0), its day clamped to the length of that month. *)
Definition month_anchor (dt : datetime) (t : Z) : datetime :=
  mkDatetime (t / 12) (t mod 12 + 1)
    (Z.min (days_in_month (t / 12) (t mod 12 + 1)) (day dt))
    (hour dt) (minute dt) (second dt) (microsecond dt).

(** The number of the month of a datetime. *)
Definition month_number (d : datetime) : Z := 12 * year d + (month d - 1).

(** The months and the anchor [relativedelta.__init__] settles on. *)
Definition settled_months (dt1 dt2 : datetime) : Z * datetime :=
  let n0 := (year dt1 - year dt2) * 12 + (month dt1 - month dt2) in
  let dtm0 := month_anchor dt2 (month_number dt1) in
  if datetime_ltb dt1 dt2 then
    if datetime_ltb dtm0 dt1
    then (n0 + 1, month_anchor dt2 (month_number dt1 + 1))
    else (n0, dtm0)
  else
    if datetime_ltb dt1 dtm0
    then (n0 + -1, month_anchor dt2 (month_number dt1 + -1))
    else (n0, dtm0).

(** ** Review listing (utils.py, lines 253-278), link markup (lines
    318-327) and the missed-deadlines handler (bot.py, lines 65-106) *)

(** Outcomes of code that can also raise [KeyError]. *)
Inductive kresult (A : Type) : Type :=
| KOk (a : A)
| KRaise (e : exn)
| KeyError.

Arguments KOk {A} a.
Arguments KRaise {A} e.
Arguments KeyError {A}.

Definition kbind {A B : Type} (r : kresult A) (k : A -> kresult B) : kresult B :=
  match r with
  | KOk a => k a
  | KRaise e => KRaise e
  | KeyError => KeyError
  end.

Notation "x <-- e ;; k" := (kbind e (fun x => k))
  (at level 61, e at next level, right associativity).

Definition lift {A : Type} (r : result A) : kresult A :=
  match r with
  | Ok a => KOk a
  | Raise e => KRaise e
  end.

(** [v[k]] for a string key *)
Definition py_getitem (v : json) (k : string) : kresult json :=
  match v with
  | JDict d => match dict_get k d with
               | Some x => KOk x
               | None => KeyError
               end
  | _ => KRaise TypeError
  end.

Section Reviews.

(** [PULLS_URL.format(owner=o, repo=r)] and
    [PULLS_REVIEWS_URL.format(owner=o, repo=r, pull_number=n)]: the
    templates are constants of [tracker.values]. *)
Variable pulls_url : json -> json -> string.
Variable pulls_reviews_url : json -> json -> json -> string.

(** The loop of lines 266-277 over the pulls of one repository;
    [return_data] is the dict shared by its turns, copied at each
    [append]. *)
Fixpoint reviews_of_pulls (w : World) (repo : json) (return_data : dict)
  (pulls : list json) : kresult (list json) :=
  match pulls with
  | [] => KOk []
  | pull :: rest =>
      title <-- lift (py_get pull "title" (JStr EmptyString)) ;;
      let return_data := dict_set "pull" title return_data in
      owner <-- lift (py_get repo "author" (JStr EmptyString)) ;;
      name <-- lift (py_get repo "name" (JStr EmptyString)) ;;
      number <-- py_getitem pull "number" ;;
      reviews_data <-- lift (get_pull_reviews w (pulls_reviews_url owner name number)) ;;
      if truthy reviews_data then
        let return_data := dict_set "reviews" reviews_data return_data in
        entries <-- reviews_of_pulls w repo return_data rest ;;
        KOk (JDict return_data :: entries)
      else reviews_of_pulls w repo return_data rest
  end.

(** One turn of the loop of lines 261-277. *)
Definition reviews_of_repo (w : World) (repo : json) : kresult (list json) :=
  owner <-- lift (py_get repo "author" (JStr EmptyString)) ;;
  name <-- lift (py_get repo "name" (JStr EmptyString)) ;;
  pulls <-- lift (get_all_open_pull_requests w (pulls_url owner name)) ;;
  name <-- lift (py_get repo "name" (JStr EmptyString)) ;;
  pulls <-- lift (py_iter pulls) ;;
  reviews_of_pulls w repo [("repo", name)] pulls.

(** [get_user_revisions]; [repos] is what [get_all_repostitories]
    returned for the user. *)
Fixpoint get_user_revisions (w : World) (repos : list json)
  : kresult (list json) :=
  match repos with
  | [] => KOk []
  | repo :: rest =>
      entries <-- reviews_of_repo w repo ;;
      others <-- get_user_revisions w rest ;;
      KOk (entries ++ others)%list
  end.

End Reviews.

(** The double quote *)
Definition quote : string := String (ascii_of_nat 34) EmptyString.

(** [attach_link_to_issue] *)
Definition attach_link_to_issue (issue_title issue_link : string) : string :=
  "<a href=" ++ quote ++ issue_link ++ quote ++ ">" ++ issue_title ++ "</a>".

(** The line feed and the tab *)
Definition nl : string := String (ascii_of_nat 10) EmptyString.
Definition tab : string := String (ascii_of_nat 9) EmptyString.

(** [s * n] *)
Fixpoint repeat_string (s : string) (n : nat) : string :=
  match n with
  | O => EmptyString
  | S n' => s ++ repeat_string s n'
  end.

(** [s + v]: only a string can be appended to a string. *)
Definition py_concat (s : string) (v : json) : result string :=
  match v with
  | JStr t => Ok (s ++ t)
  | _ => Raise TypeError
  end.

Section Handler.

Variable strptime : string -> option datetime.

(** [ISSUES_URL.format(owner=o, repo=r)] and
    [PULLS_URL.format(owner=o, repo=r)] *)
Variable issues_url : json -> json -> string.
Variable pulls_url : json -> json -> string.

(** [str(v)], which is also how an f-string renders [v] *)
Variable py_str : json -> string.

(** The text added for one issue (bot.py, lines 93-100). *)
Definition issue_block (issue : json) : kresult string :=
  title <-- lift (py_get issue "title" (JStr EmptyString)) ;;
  text <-- lift (py_concat (repeat_string "-" 35 ++ nl ++ "Issue: ") title) ;;
  let text := text ++ nl ++ "User: " in
  assignee <-- lift (py_get issue "assignee" (JDict [])) ;;
  login <-- lift (py_get assignee "login" (JStr EmptyString)) ;;
  text <-- lift (py_concat text login) ;;
  let text := text ++ nl ++ "Assigned:" ++ nl
                   ++ repeat_string tab 4 ++ "Days ago: " in
  days <-- py_getitem issue "days" ;;
  KOk (text ++ py_str days ++ nl ++ repeat_string "-" 35 ++ nl).

Fixpoint issue_blocks (issues : list json) : kresult string :=
  match issues with
  | [] => KOk EmptyString
  | issue :: rest =>
      block <-- issue_block issue ;;
      blocks <-- issue_blocks rest ;;
      KOk (block ++ blocks)
  end.

(** The header of lines 83-90 *)
Definition repository_header (author name : json) : string :=
  repeat_string "=" 50 ++ nl ++
  "Repository: " ++ py_str author ++ "/" ++ py_str name ++ nl ++
  repeat_string "=" 50 ++ nl ++ nl.

(** The text sent for one repository (bot.py, lines 74-106). *)
Definition repository_message (w : World) (repository : json) : kresult string :=
  author <-- lift (py_get repository "author" (JStr EmptyString)) ;;
  name <-- lift (py_get repository "name" (JStr EmptyString)) ;;
  issues <-- lift (get_issues_without_pull_requests strptime w
                     (issues_url author name) (pulls_url author name)) ;;
  blocks <-- issue_blocks issues ;;
  let message := repository_header author name ++ blocks in
  let message :=
    match issues with
    | [] => message ++ "No missed deadlines."
    | _ => message
    end in
  KOk ("<blockquote>" ++ message ++ "</blockquote>").

(** [send_deprecated_issue_assignees]: the texts passed to [msg.answer],
    in order, and how the handler ends.  [repositories] is what
    [get_all_repostitories] returned for the user; [msg.answer] is taken
    to deliver. *)
Fixpoint send_deprecated_issue_assignees (w : World) (repositories : list json)
  : list string * kresult unit :=
  match repositories with
  | [] => ([], KOk tt)
  | repository :: rest =>
      match repository_message w repository with
      | KOk text =>
          let (sent, outcome) := send_deprecated_issue_assignees w rest in
          (text :: sent, outcome)
      | KRaise e => ([], KRaise e)
      | KeyError => ([], KeyError)
      end
  end.

End Handler.

(** The dict [reviews_of_pulls] carries for the repository [name]: the
    key "repo", then "pull" once a pull was seen, then "reviews" once
    reviews were found. *)
Definition return_data_shape (name : json) (return_data : dict) : Prop :=
  return_data = [("repo", name)] \/
  (exists title, return_data = [("repo", name); ("pull", title)]) \/
  (exists title reviews,
     return_data = [("repo", name); ("pull", title); ("reviews", reviews)]).

(** [entry] reports the reviews of [pull], a pull of [repo]. *)
Definition review_entry_of (pulls_reviews_url : json -> json -> json -> string)
  (w : World) (repo pull entry : json) : Prop :=
  exists owner name title number reviews,
    py_get repo "author" (JStr EmptyString) = Ok owner /\
    py_get repo "name" (JStr EmptyString) = Ok name /\
    py_get pull "title" (JStr EmptyString) = Ok title /\
    py_getitem pull "number" = KOk number /\
    get_pull_reviews w (pulls_reviews_url owner name number) = Ok reviews /\
    truthy reviews = true /\
    entry = JDict [("repo", name); ("pull", title); ("reviews", reviews)].

(** [pull] is in the listing of open pull requests of [repo]. *)
Definition listed_pull (pulls_url : json -> json -> string) (w : World)
  (repo pull : json) : Prop :=
  exists owner name body pulls,
    py_get repo "author" (JStr EmptyString) = Ok owner /\
    py_get repo "name" (JStr EmptyString) = Ok name /\
    get_all_open_pull_requests w (pulls_url owner name) = Ok body /\
    py_iter body = Ok pulls /\ In pull pulls.

(** A quote-free string. *)
Fixpoint no_quote (s : string) : bool :=
  match s with
  | EmptyString => true
  | String c s' => negb (Ascii.eqb c (ascii_of_nat 34)) && no_quote s'
  end.

(** Two repositories of one user, the first with two open pulls, one of
    them reviewed. *)
Definition reviewed_world : World :=
  world_of
    [("http://t/pulls/acme/widget",
      ok_json (JList [JDict [("title", JStr "Patch"); ("number", JInt 7)];
                      JDict [("title", JStr "Draft"); ("number", JInt 8)]]));
     ("http://t/reviews/acme/widget/7",
      ok_json (JList [JDict [("state", JStr "APPROVED")]]));
     ("http://t/reviews/acme/widget/8", ok_json (JList []));
     ("http://t/issues/acme/widget",
      ok_json (JList [open_issue "Fix widget" "alice" events_endpoint]));
     (events_endpoint, ok_json (JList [assigned_event "alice" "2024-03-12T09:00:00Z"]));
     ("http://t/issues/acme/gadget", ok_json (JDict [("message", JStr "Not Found")]))]
    (at_time 2024 3 15 12 0 0).

(** [str] on strings and integers; other values do not occur in the
    sample data. *)
Definition sample_str (v : json) : string :=
  match v with
  | JStr s => s
  | JInt z => string_of_Z z
  | _ => "None"
  end.

Definition sample_pulls_url (owner name : json) : string :=
  "http://t/pulls/" ++ sample_str owner ++ "/" ++ sample_str name.

Definition sample_issues_url (owner name : json) : string :=
  "http://t/issues/" ++ sample_str owner ++ "/" ++ sample_str name.

Definition sample_reviews_url (owner name number : json) : string :=
  "http://t/reviews/" ++ sample_str owner ++ "/" ++ sample_str name ++ "/"
  ++ sample_str number.

Definition widget_repo : json :=
  JDict [("author", JStr "acme"); ("name", JStr "widget")].

Definition gadget_repo : json :=
  JDict [("author", JStr "acme"); ("name", JStr "gadget")].

Definition gizmo_repo : json :=
  JDict [("author", JStr "acme"); ("name", JStr "gizmo")].

(** The pull listing holds a pull request without a number. *)
Definition numberless_world : World :=
  world_of
    [("http://t/pulls/acme/widget",
      ok_json (JList [JDict [("title", JStr "Patch"); ("number", JInt 7)];
                      JDict [("title", JStr "Draft")]]));
     ("http://t/reviews/acme/widget/7",
      ok_json (JList [JDict [("state", JStr "APPROVED")]]))]
    (at_time 2024 3 15 12 0 0).

(** The review entry of [reviewed_world]. *)
Definition patch_review_entry : json :=
  JDict [("repo", JStr "widget"); ("pull", JStr "Patch");
         ("reviews", JList [JDict [("state", JStr "APPROVED")]])].

(** * Properties *)

(** ** The error monad *)

Lemma bind_Ok {A B : Type} (r : result A) (k : A -> result B) (b : B) :
  bind r k = Ok b -> exists a, r = Ok a /\ k a = Ok b.
Proof.
  destruct r as [a | e]; simpl; intro H.
  - exists a. split; [reflexivity | exact H].
  - discriminate H.
Qed.

Ltac inv_bind H :=
  let a := fresh "a" in
  let E := fresh "E" in
  apply bind_Ok in H; destruct H as (a & E & H).

Lemma except_RequestException_Ok {A : Type} (body : result A) (fallback a : A) :
  body = Ok a -> except_RequestException body fallback = Ok a.
Proof. intros ->. reflexivity. Qed.

Lemma except_RequestException_caught {A : Type} (e : request_error) (fallback : A) :
  except_RequestException (Raise (RequestException e)) fallback = Ok fallback.
Proof. reflexivity. Qed.

(** ** Dictionaries *)

Lemma dict_get_set_same (k : string) (v : json) (d : dict) :
  dict_get k (dict_set k v d) = Some v.
Proof.
  induction d as [| [k' v'] d IH]; simpl.
  - now rewrite String.eqb_refl.
  - destruct (String.eqb k k') eqn:E; simpl.
    + now rewrite String.eqb_refl.
    + now rewrite E.
Qed.

Lemma dict_get_set_other (k k' : string) (v : json) (d : dict) :
  k' <> k -> dict_get k' (dict_set k v d) = dict_get k' d.
Proof.
  intro Hne. induction d as [| [k0 v0] d IH]; simpl.
  - destruct (String.eqb_spec k' k); [contradiction | reflexivity].
  - destruct (String.eqb_spec k k0) as [-> | Hk]; simpl.
    + destruct (String.eqb_spec k' k0); [contradiction | reflexivity].
    + destruct (String.eqb_spec k' k0); [reflexivity | exact IH].
Qed.

Lemma dict_keys_set (k : string) (v : json) (d : dict) (x : string) :
  In x (dict_keys (dict_set k v d)) <-> In x (dict_keys d) \/ x = k.
Proof.
  unfold dict_keys. induction d as [| [k0 v0] d IH]; simpl.
  - intuition.
  - destruct (String.eqb_spec k k0) as [-> | Hk]; simpl.
    + intuition.
    + rewrite IH. intuition.
Qed.

(** ** Assignment reconstructor *)

Lemma assignment_step_well_shaped (acc : dict) (e : json) :
  event_well_shaped e = true ->
  assignment_step acc e =
    Ok (if is_assigned_event e
        then dict_set "assigned_at" (event_created_at e)
               (dict_set "assignee" (event_login e) acc)
        else acc).
Proof.
  destruct e as [| | | | | d]; try discriminate.
  unfold event_well_shaped, assignment_step, is_assigned_event, object_or_absent,
    event_login, event_created_at, lookup, py_get; simpl.
  destruct (dict_get "event" d) as [kind |]; simpl; [| reflexivity].
  destruct (py_eq_str kind "assigned"); [| reflexivity].
  destruct (dict_get "assignee" d) as [[| | | | | a] |]; try discriminate; simpl;
    intros _.
  - destruct (dict_get "login" a); simpl; destruct (dict_get "created_at" d);
      reflexivity.
  - destruct (dict_get "created_at" d); reflexivity.
Qed.

Lemma assignment_step_Ok_shape (acc acc' : dict) (e : json) :
  assignment_step acc e = Ok acc' -> event_well_shaped e = true.
Proof.
  destruct e as [| | | | | d]; try discriminate.
  unfold event_well_shaped, assignment_step, is_assigned_event, object_or_absent,
    lookup, py_get; simpl.
  destruct (dict_get "event" d) as [kind |]; simpl; [| reflexivity].
  destruct (py_eq_str kind "assigned"); [| reflexivity].
  destruct (dict_get "assignee" d) as [[| | | | | a] |]; simpl;
    try discriminate; reflexivity.
Qed.

Lemma assignment_loop_Ok_shape (events : list json) :
  forall acc info, assignment_loop acc events = Ok info ->
                   forallb event_well_shaped events = true.
Proof.
  induction events as [| e rest IH]; simpl; intros acc info H; [reflexivity |].
  inv_bind H. rewrite (assignment_step_Ok_shape _ _ _ E). simpl. eauto.
Qed.

Lemma record_shape_set (acc : dict) (l c : json) :
  record_shape acc ->
  dict_set "assigned_at" c (dict_set "assignee" l acc) =
    [("assignee", l); ("assigned_at", c)].
Proof. intros [-> | (l0 & c0 & ->)]; reflexivity. Qed.

Lemma assignment_loop_last (events : list json) :
  forall acc, record_shape acc ->
  forallb event_well_shaped events = true ->
  assignment_loop acc events =
    Ok (match last_assigned events with
        | Some e => [("assignee", event_login e); ("assigned_at", event_created_at e)]
        | None => acc
        end).
Proof.
  induction events as [| e rest IH]; simpl; intros acc Hacc Hws; [reflexivity |].
  apply andb_true_iff in Hws. destruct Hws as [He Hrest].
  rewrite (assignment_step_well_shaped acc e He). simpl.
  rewrite IH; [| | exact Hrest].
  - destruct (last_assigned rest); [reflexivity |].
    destruct (is_assigned_event e); [| reflexivity].
    now rewrite record_shape_set.
  - destruct (is_assigned_event e); [| exact Hacc].
    right. rewrite record_shape_set by exact Hacc. eauto.
Qed.

Lemma last_assigned_none (events : list json) :
  forallb (fun e => negb (is_assigned_event e)) events = true ->
  last_assigned events = None.
Proof.
  induction events as [| e rest IH]; simpl; [reflexivity |].
  intro H. apply andb_true_iff in H. destruct H as [He Hrest].
  rewrite (IH Hrest). apply negb_true_iff in He. now rewrite He.
Qed.

(** [last_assigned] picks the assigned event after which no assigned
    event follows. *)
Lemma last_assigned_split (events : list json) (e : json) :
  last_assigned events = Some e <->
  exists pre post, events = (pre ++ e :: post)%list /\ is_assigned_event e = true /\
                   forallb (fun x => negb (is_assigned_event x)) post = true.
Proof.
  revert e. induction events as [| x rest IH]; simpl; intro e.
  - split; [discriminate |]. intros (pre & post & H & _). now destruct pre.
  - destruct (last_assigned rest) as [e' |] eqn:Hrest.
    + split.
      * intro H. inversion H; subst e'. destruct (proj1 (IH e) eq_refl)
          as (pre & post & -> & Ha & Hpost).
        exists (x :: pre), post. auto.
      * intros (pre & post & Heq & Ha & Hpost). destruct pre as [| y pre].
        -- simpl in Heq. inversion Heq; subst x post.
           rewrite (last_assigned_none _ Hpost) in Hrest. discriminate.
        -- simpl in Heq. inversion Heq; subst y rest.
           apply IH. now exists pre, post.
    + split.
      * destruct (is_assigned_event x) eqn:Hx; [| discriminate].
        intro H. inversion H; subst x. exists [], rest. repeat split; auto.
        clear - Hrest. induction rest as [| y rest IH]; simpl; [reflexivity |].
        simpl in Hrest. destruct (last_assigned rest); [discriminate |].
        destruct (is_assigned_event y); [discriminate |]. simpl. now apply IH.
      * intros (pre & post & Heq & Ha & Hpost). destruct pre as [| y pre].
        -- simpl in Heq. inversion Heq; subst x post. now rewrite Ha.
        -- simpl in Heq. inversion Heq; subst y rest.
           assert (C : @None json = Some e)
             by (apply IH; now exists pre, post).
           discriminate C.
Qed.


(** ** Fetchers *)

Lemma transport_failure_raises {A : Type} (w : World) (url : string)
  (params : list (string * string)) (k : json -> result A) :
  transport_failure (http_get w url params) = true ->
  exists e,
    (resp <- requests_get w (JStr url) params ;;
     _ <- raise_for_status resp ;;
     body <- response_json resp ;;
     k body) = Raise (RequestException e).
Proof.
  unfold requests_get, transport_failure.
  destruct (http_get w url params) as [e | | status body]; simpl.
  - eauto.
  - discriminate.
  - unfold raise_for_status; simpl.
    destruct ((400 <=? status) && (status <? 600)); simpl; [eauto |].
    destruct body; simpl; try discriminate; eauto.
Qed.

Lemma transport_success {A : Type} (w : World) (url : string)
  (params : list (string * string)) (k : json -> result A)
  (status : Z) (v : json) :
  http_get w url params = Response status (Json v) ->
  (400 <=? status) && (status <? 600) = false ->
  (resp <- requests_get w (JStr url) params ;;
   _ <- raise_for_status resp ;;
   body <- response_json resp ;;
   k body) = k v.
Proof.
  unfold requests_get, raise_for_status. intros -> Hs. simpl. now rewrite Hs.
Qed.

Lemma bind_ret {A : Type} (r : result A) : (x <- r ;; Ok x) = r.
Proof. now destruct r. Qed.

Lemma get_all_open_pull_requests_unfold (w : World) (url : string) :
  get_all_open_pull_requests w url =
    except_RequestException
      (resp <- requests_get w (JStr url) [("state", "open")] ;;
       _ <- raise_for_status resp ;;
       body <- response_json resp ;;
       Ok body)
      (JList []).
Proof.
  unfold get_all_open_pull_requests. f_equal.
  destruct (requests_get w (JStr url) [("state", "open")]); simpl; [| reflexivity].
  destruct (raise_for_status a); simpl; [| reflexivity].
  now rewrite bind_ret.
Qed.

Lemma check_issue_assignment_events_unfold (w : World) (d : dict) :
  check_issue_assignment_events w (JDict d) =
    except_RequestException
      (resp <- requests_get w
                 (match dict_get "events_url" d with
                  | Some u => u
                  | None => JStr EmptyString
                  end) [] ;;
       _ <- raise_for_status resp ;;
       events <- response_json resp ;;
       reconstruct_assignment events)
      [].
Proof.
  unfold check_issue_assignment_events, py_get.
  destruct (dict_get "events_url" d); reflexivity.
Qed.

(** C5 (amended): in each of the three fetchers a transport failure, that
    is a request on which [requests.get] raises a [RequestException]
    (timeout, refused connection), a 4xx or 5xx status, or a body the
    decoder rejects with [JSONDecodeError], gives the empty result and no
    exception: the empty list for issues and pull requests, the empty
    assignment record for the events of an issue. *)
Theorem C5_transport_failure_yields_empty (w : World) (url : string) :
  (transport_failure (http_get w url []) = true ->
   get_all_open_and_assigned_issues w url = Ok []) /\
  (transport_failure (http_get w url [("state", "open")]) = true ->
   get_all_open_pull_requests w url = Ok (JList [])) /\
  (forall issue,
     py_get issue "events_url" (JStr EmptyString) = Ok (JStr url) ->
     transport_failure (http_get w url []) = true ->
     check_issue_assignment_events w issue = Ok []).
Proof.
  repeat split.
  - intro H. unfold get_all_open_and_assigned_issues.
    destruct (transport_failure_raises w url []
                (fun issues => items <- py_iter issues ;;
                               filterM is_open_and_assigned items) H) as [e ->].
    reflexivity.
  - intro H. rewrite get_all_open_pull_requests_unfold.
    destruct (transport_failure_raises w url [("state", "open")] Ok H) as [e ->].
    reflexivity.
  - intros issue Hurl H. destruct issue as [| | | | | d]; try discriminate.
    rewrite check_issue_assignment_events_unfold.
    unfold py_get in Hurl.
    destruct (dict_get "events_url" d) as [u |]; inversion Hurl; subst.
    + destruct (transport_failure_raises w url [] reconstruct_assignment H)
        as [e ->]. reflexivity.
    + destruct (transport_failure_raises w EmptyString [] reconstruct_assignment H)
        as [e ->]. reflexivity.
Qed.

(** ** [datetime] and [relativedelta] *)

Ltac split_bools :=
  repeat match goal with
         | H : _ && _ = true |- _ => apply andb_true_iff in H; destruct H
         | H : in_range _ _ _ = true |- _ => unfold in_range in H
         | H : (_ <=? _) = true |- _ => apply Z.leb_le in H
         | H : (_ <? _) = true |- _ => apply Z.ltb_lt in H
         | H : (_ =? _) = true |- _ => apply Z.eqb_eq in H
         | H : (_ <=? _) = false |- _ => apply Z.leb_gt in H
         | H : (_ <? _) = false |- _ => apply Z.ltb_ge in H
         | H : (_ =? _) = false |- _ => apply Z.eqb_neq in H
         end.

Ltac case_bools :=
  repeat match goal with
         | |- context [?a <? ?b] => destruct (Z.ltb_spec a b)
         | |- context [?a <=? ?b] => destruct (Z.leb_spec a b)
         | |- context [?a =? ?b] => destruct (Z.eqb_spec a b)
         end.

Lemma valid_datetime_bounds (d : datetime) :
  valid_datetime d = true ->
  1 <= year d <= 9999 /\ 1 <= month d <= 12 /\
  1 <= day d <= days_in_month (year d) (month d) /\
  0 <= hour d <= 23 /\ 0 <= minute d <= 59 /\ 0 <= second d <= 59 /\
  0 <= microsecond d <= 999999.
Proof. unfold valid_datetime. intro H. split_bools. lia. Qed.

Lemma shifted_year_month_spec (n y0 m0 : Z) :
  1 <= m0 <= 12 ->
  shifted_year_month (set_months n) y0 m0 =
    ((12 * y0 + (m0 - 1) + n) / 12, (12 * y0 + (m0 - 1) + n) mod 12 + 1).
Proof.
  intro Hm. unfold shifted_year_month, set_months, carry, sign.
  case_bools; cbv beta iota zeta; case_bools; cbv beta iota zeta;
    try (exfalso; Z.div_mod_to_equations; lia);
    f_equal; Z.div_mod_to_equations; lia.
Qed.

Lemma shift_months_spec (n : Z) (dt : datetime) :
  1 <= month dt <= 12 ->
  let t := 12 * year dt + (month dt - 1) + n in
  12 <= t <= 12 * 9999 + 11 ->
  shift_months (set_months n) dt =
    Ok (mkDatetime (t / 12) (t mod 12 + 1)
          (Z.min (days_in_month (t / 12) (t mod 12 + 1)) (day dt))
          (hour dt) (minute dt) (second dt) (microsecond dt)).
Proof.
  intros Hm t Ht. unfold shift_months.
  rewrite shifted_year_month_spec by exact Hm. fold t.
  replace (in_range 1 (t / 12) 9999) with true; [reflexivity |].
  symmetry. unfold in_range. apply andb_true_iff.
  split; apply Z.leb_le; Z.div_mod_to_equations; lia.
Qed.

Lemma datetime_ltb_irrefl (d : datetime) : datetime_ltb d d = false.
Proof.
  unfold datetime_ltb, fields, lex_ltb.
  rewrite !Z.ltb_irrefl, !Z.eqb_refl. reflexivity.
Qed.

(** A datetime in an earlier month is not later. *)
Lemma datetime_ltb_month (a b : datetime) :
  1 <= month a <= 12 -> 1 <= month b <= 12 ->
  12 * year a + month a < 12 * year b + month b ->
  datetime_ltb b a = false.
Proof.
  intros Ha Hb H. unfold datetime_ltb, fields, lex_ltb.
  destruct (Z.ltb_spec (year b) (year a)); [lia |].
  destruct (Z.eqb_spec (year b) (year a)); [| reflexivity].
  destruct (Z.ltb_spec (month b) (month a)); [lia |].
  destruct (Z.eqb_spec (month b) (month a)); [lia | reflexivity].
Qed.

Lemma shift_zero_months (dt : datetime) :
  valid_datetime dt = true -> shift_months (set_months 0) dt = Ok dt.
Proof.
  intro Hv. apply valid_datetime_bounds in Hv.
  unfold shift_months, set_months, carry, shifted_year_month. simpl.
  rewrite Z.add_0_r. replace (in_range 1 (year dt) 9999) with true.
  - rewrite Z.min_r by lia. now destruct dt.
  - symmetry. unfold in_range. apply andb_true_iff. split; apply Z.leb_le; lia.
Qed.

Lemma lex_ltb_asym (a : list Z) :
  forall b, lex_ltb a b = true -> lex_ltb b a = false.
Proof.
  induction a as [| x a IH]; intros [| y b]; simpl; try reflexivity;
    try discriminate.
  intro H. apply orb_true_iff in H. apply orb_false_iff.
  destruct H as [H | H].
  - apply Z.ltb_lt in H. split.
    + apply Z.ltb_ge. lia.
    + apply andb_false_iff. left. apply Z.eqb_neq. lia.
  - apply andb_true_iff in H. destruct H as [Hxy H]. apply Z.eqb_eq in Hxy.
    split.
    + apply Z.ltb_ge. lia.
    + apply andb_false_iff. right. now apply IH.
Qed.

Lemma datetime_ltb_asym (a b : datetime) :
  datetime_ltb a b = true -> datetime_ltb b a = false.
Proof. apply lex_ltb_asym. Qed.

(** A datetime in an earlier month is earlier. *)
Lemma datetime_ltb_month_true (a b : datetime) :
  1 <= month a <= 12 -> 1 <= month b <= 12 ->
  12 * year a + month a < 12 * year b + month b ->
  datetime_ltb a b = true.
Proof.
  intros Ha Hb H. unfold datetime_ltb, fields, lex_ltb.
  destruct (Z.ltb_spec (year a) (year b)); [reflexivity |].
  destruct (Z.eqb_spec (year a) (year b)); [| lia].
  destruct (Z.ltb_spec (month a) (month b)); [reflexivity | lia].
Qed.

Lemma month_adjust_total (dt1 dt2 : datetime) (fuel : nat) :
  valid_datetime dt1 = true -> valid_datetime dt2 = true ->
  forall dtm,
    shift_months
      (set_months ((year dt1 - year dt2) * 12 + (month dt1 - month dt2))) dt2
      = Ok dtm ->
    exists n dtm',
      month_adjust (S fuel) dt1 dt2 (datetime_ltb dt1 dt2)
        ((year dt1 - year dt2) * 12 + (month dt1 - month dt2)) dtm
        = Some (Ok (n, dtm')).
Proof.
  intros Hv1 Hv2 dtm Hdtm.
  pose proof (valid_datetime_bounds _ Hv1) as B1.
  pose proof (valid_datetime_bounds _ Hv2) as B2.
  set (n0 := (year dt1 - year dt2) * 12 + (month dt1 - month dt2)) in *.
  rewrite shift_months_spec in Hdtm by lia.
  assert (Hy : (12 * year dt2 + (month dt2 - 1) + n0) / 12 = year dt1)
    by (subst n0; Z.div_mod_to_equations; lia).
  assert (Hm : (12 * year dt2 + (month dt2 - 1) + n0) mod 12 + 1 = month dt1)
    by (subst n0; Z.div_mod_to_equations; lia).
  rewrite Hy, Hm in Hdtm. apply eq_sym in Hdtm.
  assert (Edtm : dtm = mkDatetime (year dt1) (month dt1)
                         (Z.min (days_in_month (year dt1) (month dt1)) (day dt2))
                         (hour dt2) (minute dt2) (second dt2) (microsecond dt2))
    by congruence.
  clear Hdtm.
  assert (Hsame : n0 = 0 -> dtm = dt2).
  { intro H0. rewrite Edtm. clear Edtm. destruct dt2; simpl in *.
    assert (year dt1 = year0 /\ month dt1 = month0) as [-> ->] by lia.
    now rewrite Z.min_r by lia. }
  destruct (datetime_ltb dt1 dt2) eqn:Back; simpl.
  - (* dt1 < dt2: the loop runs while dtm < dt1 *)
    destruct (datetime_ltb dtm dt1) eqn:Cmp; [| eauto].
    assert (Hle : n0 <= 0).
    { destruct (Z.le_gt_cases n0 0) as [| Hgt]; [assumption |].
      assert (X : datetime_ltb dt1 dt2 = false)
        by (apply datetime_ltb_month; subst n0; lia).
      congruence. }
    assert (Hne : n0 <> 0).
    { intro H0. rewrite (Hsame H0) in Cmp.
      rewrite (datetime_ltb_asym _ _ Back) in Cmp. discriminate. }
    rewrite shift_months_spec by (subst n0; lia).
    set (t := 12 * year dt2 + (month dt2 - 1) + (n0 + 1)).
    match goal with
    | |- context [month_adjust fuel dt1 dt2 true ?n ?d] =>
        assert (Hexit : datetime_ltb d dt1 = false)
    end.
    { apply datetime_ltb_month; cbn [year month]; [lia | |];
        subst t n0; Z.div_mod_to_equations; lia. }
    destruct fuel; simpl; rewrite Hexit; eauto.
  - (* dt1 >= dt2: the loop runs while dt1 < dtm *)
    destruct (datetime_ltb dt1 dtm) eqn:Cmp; [| eauto].
    assert (Hge : 0 <= n0).
    { destruct (Z.le_gt_cases 0 n0) as [| Hlt]; [assumption |].
      assert (X : datetime_ltb dt1 dt2 = true)
        by (apply datetime_ltb_month_true; subst n0; lia).
      congruence. }
    assert (Hne : n0 <> 0).
    { intro H0. rewrite (Hsame H0) in Cmp. congruence. }
    rewrite shift_months_spec by (subst n0; lia).
    set (t := 12 * year dt2 + (month dt2 - 1) + (n0 + -1)).
    match goal with
    | |- context [month_adjust fuel dt1 dt2 false ?n ?d] =>
        assert (Hexit : datetime_ltb dt1 d = false)
    end.
    { apply datetime_ltb_month; cbn [year month]; [| lia |];
        subst t n0; Z.div_mod_to_equations; lia. }
    destruct fuel; simpl; rewrite Hexit; eauto.
Qed.

(** On two datetimes [relativedelta] returns: the month adjustment makes
    at most one turn and never leaves the years 1..9999. *)
Lemma relativedelta_total (dt1 dt2 : datetime) :
  valid_datetime dt1 = true -> valid_datetime dt2 = true ->
  exists rd, relativedelta dt1 dt2 = Ok rd.
Proof.
  intros Hv1 Hv2.
  pose proof (valid_datetime_bounds _ Hv1) as B1.
  pose proof (valid_datetime_bounds _ Hv2) as B2.
  unfold relativedelta, relativedelta_fuel.
  destruct (shift_months
              (set_months ((year dt1 - year dt2) * 12 + (month dt1 - month dt2)))
              dt2) as [dtm | e] eqn:Hshift.
  - destruct (month_adjust_total dt1 dt2 1 Hv1 Hv2 dtm Hshift) as (n & dtm' & ->).
    destruct (set_months n). eauto.
  - rewrite shift_months_spec in Hshift by lia. discriminate.
Qed.

Lemma relativedelta_same (dt : datetime) :
  valid_datetime dt = true ->
  relativedelta dt dt = Ok (mkRelativedelta 0 0 0 0 0 0 0).
Proof.
  intro Hv. unfold relativedelta, relativedelta_fuel.
  replace ((year dt - year dt) * 12 + (month dt - month dt)) with 0 by lia.
  rewrite (shift_zero_months dt Hv). rewrite datetime_ltb_irrefl.
  cbn [month_adjust]. rewrite datetime_ltb_irrefl.
  unfold datetime_sub. rewrite !Z.sub_diag. reflexivity.
Qed.

Lemma rd_bool_false_days (rd : relativedelta_t) :
  rd_bool rd = false -> rd_days rd = 0.
Proof.
  unfold rd_bool. intro H. apply negb_false_iff in H. split_bools. assumption.
Qed.

Section TrackerFacts.

Variable strptime : string -> option datetime.

(** The value lines 170-179 store is the [days] field of the delta. *)
Lemma elapsed_days_Ok (now : datetime) (assigned_at : json) (days : Z) :
  elapsed_days strptime now assigned_at = Ok days ->
  (truthy assigned_at = false /\ days = 0) \/
  (truthy assigned_at = true /\
   exists dt rd, py_strptime strptime assigned_at = Ok dt /\
                 relativedelta now dt = Ok rd /\ days = rd_days rd).
Proof.
  unfold elapsed_days. destruct (truthy assigned_at).
  - intro H. right. split; [reflexivity |]. inv_bind H. inv_bind H.
    exists a, a0. repeat split; try assumption.
    inversion H. destruct (rd_bool a0) eqn:Hb; [reflexivity |].
    now rewrite (rd_bool_false_days _ Hb).
  - intro H. left. now inversion H.
Qed.

Lemma elapsed_days_unknown (now : datetime) (assigned_at : json) :
  truthy assigned_at = false -> elapsed_days strptime now assigned_at = Ok 0.
Proof. unfold elapsed_days. now intros ->. Qed.

Lemma elapsed_days_total (now dt : datetime) (assigned_at : json) :
  valid_datetime now = true -> valid_datetime dt = true ->
  py_strptime strptime assigned_at = Ok dt ->
  exists days, elapsed_days strptime now assigned_at = Ok days.
Proof.
  intros Hn Hd Hp. unfold elapsed_days.
  destruct (truthy assigned_at); [| eauto].
  rewrite Hp. simpl. destruct (relativedelta_total now dt Hn Hd) as [rd ->].
  simpl. eauto.
Qed.

End TrackerFacts.

(** ** Compliance correlator *)

Lemma filterM_Ok {A : Type} (p : A -> result bool) (f : A -> bool) (l : list A) :
  forall res,
    (forall x b, In x l -> p x = Ok b -> b = f x) ->
    filterM p l = Ok res -> res = filter f l.
Proof.
  induction l as [| x l IH]; simpl; intros res Hp H.
  - now inversion H.
  - inv_bind H. inv_bind H. inversion H; subst res.
    rewrite <- (Hp x a (or_introl eq_refl) E).
    rewrite <- (IH a0); auto.
Qed.

Lemma filterM_total {A : Type} (p : A -> result bool) (l : list A) :
  (forall x, In x l -> exists b, p x = Ok b) ->
  exists res, filterM p l = Ok res.
Proof.
  induction l as [| x l IH]; simpl; intro Hp; [eauto |].
  destruct (Hp x (or_introl eq_refl)) as [b ->]. simpl.
  destruct IH as [res ->]; [auto |]. simpl. eauto.
Qed.

Lemma pull_request_login_Ok (pull_request login : json) :
  pull_request_login pull_request = Ok login -> login = author_login pull_request.
Proof.
  unfold pull_request_login, author_login. intro H. inv_bind H.
  destruct pull_request as [| | | | | d]; try discriminate. simpl in *.
  destruct (dict_get "user" d) as [u |]; inversion E; subst a.
  - destruct u as [| | | | | du]; try discriminate. simpl in *.
    destruct (dict_get "login" du); now inversion H.
  - simpl in H. now inversion H.
Qed.

Lemma pull_requests_users_Ok (pull_requests : list json) :
  forall users, pull_requests_users pull_requests = Ok users ->
                users = author_logins pull_requests.
Proof.
  unfold author_logins.
  induction pull_requests as [| pr rest IH]; simpl; intros users H.
  - now inversion H.
  - inv_bind H. inv_bind H. inversion H; subst users.
    rewrite <- (pull_request_login_Ok _ _ E), <- (IH a0 E0). reflexivity.
Qed.

(** When every pull request has a non-empty author login, the author
    logins are the logins of all the pull requests. *)
Lemma author_logins_all (pull_requests : list json) :
  forallb (fun pr => truthy (author_login pr)) pull_requests = true ->
  author_logins pull_requests = map author_login pull_requests.
Proof.
  unfold author_logins.
  induction pull_requests as [| pr rest IH]; simpl; [reflexivity |].
  intro H. apply andb_true_iff in H. destruct H as [Hpr Hrest].
  rewrite Hpr. f_equal. now apply IH.
Qed.

Lemma is_non_compliant_Ok (users : list json) (issue : json) (b : bool) :
  (exists z, lookup issue "days" = Some (JInt z)) ->
  is_non_compliant users issue = Ok b -> b = non_compliant users issue.
Proof.
  intros [z Hz] H. unfold is_non_compliant in H. unfold non_compliant, issue_days.
  rewrite Hz. destruct issue as [| | | | | d]; try discriminate. simpl in *.
  rewrite Hz in H. simpl in H. unfold issue_login. simpl.
  destruct (1 <=? z); simpl in *; [| now inversion H].
  destruct (dict_get "assignee" d) as [a |]; simpl in *.
  - destruct a as [| | | | | da]; try discriminate. simpl in *.
    destruct (dict_get "login" da); now inversion H.
  - now inversion H.
Qed.

Section CorrelatorFacts.

Variable strptime : string -> option datetime.

Lemma py_get_assigned_at (info : dict) :
  py_get (JDict info) "assigned_at" JNull = Ok (assigned_at_of info).
Proof.
  unfold py_get, assigned_at_of. now destruct (dict_get "assigned_at" info).
Qed.

Lemma annotate_issue_Ok (w : World) (k : nat) (issue issue' : json) :
  annotate_issue strptime w k issue = Ok issue' ->
  exists d info days,
    issue = JDict d /\
    check_issue_assignment_events w issue = Ok info /\
    elapsed_days strptime (now w k) (assigned_at_of info) = Ok days /\
    issue' = annotated d info days.
Proof.
  unfold annotate_issue. intro H. inv_bind H. rename a into info.
  destruct issue as [| | | | | d]; try discriminate. simpl in H.
  rewrite dict_get_set_same in H. simpl in H.
  change (match dict_get "assigned_at" info with
          | Some x => Ok x
          | None => Ok JNull
          end) with (py_get (JDict info) "assigned_at" JNull) in H.
  inv_bind H. inv_bind H. exists d, info, a0.
  assert (a = assigned_at_of info).
  { unfold assigned_at_of. simpl in E0.
    destruct (dict_get "assigned_at" info); now inversion E0. }
  subst a. inversion H. auto.
Qed.

Lemma annotate_issue_intro (w : World) (k : nat) (d info : dict) (days : Z) :
  check_issue_assignment_events w (JDict d) = Ok info ->
  elapsed_days strptime (now w k) (assigned_at_of info) = Ok days ->
  annotate_issue strptime w k (JDict d) = Ok (annotated d info days).
Proof.
  intros Hc He. unfold annotate_issue. rewrite Hc.
  cbn [bind py_setitem py_get]. rewrite dict_get_set_same.
  cbn [bind]. rewrite py_get_assigned_at. cbn [bind]. rewrite He. reflexivity.
Qed.

Lemma annotate_loop_Ok (w : World) (issues : list json) :
  forall k issues',
    annotate_loop strptime w k issues = Ok issues' <->
    annotated_from strptime w k issues issues'.
Proof.
  induction issues as [| issue rest IH]; simpl; intros k issues'.
  - split.
    + intro H. now inversion H.
    + destruct issues'; [reflexivity | contradiction].
  - split.
    + intro H. inv_bind H. inv_bind H. inversion H; subst issues'.
      split; [assumption | now apply IH].
    + destruct issues' as [| issue' rest']; [contradiction |].
      intros [H1 H2]. rewrite H1. simpl. apply IH in H2. now rewrite H2.
Qed.

Lemma annotated_from_nth (w : World) (issues : list json) :
  forall k issues' i issue',
    annotated_from strptime w k issues issues' ->
    nth_error issues' i = Some issue' ->
    exists issue, nth_error issues i = Some issue /\
                  annotate_issue strptime w (k + i) issue = Ok issue'.
Proof.
  induction issues as [| issue rest IH]; intros k [| a rest'] i issue' H Hn;
    simpl in H; try contradiction.
  - now destruct i.
  - destruct H as [H1 H2]. destruct i as [| i]; simpl in *.
    + inversion Hn; subst a. exists issue. now rewrite Nat.add_0_r.
    + destruct (IH (S k) rest' i issue' H2 Hn) as (x & Hx & Hann).
      exists x. split; [assumption |]. now rewrite <- plus_n_Sm.
Qed.

Lemma annotated_from_In (w : World) (issues issues' : list json) (k : nat)
  (issue' : json) :
  annotated_from strptime w k issues issues' -> In issue' issues' ->
  exists i issue, nth_error issues i = Some issue /\
                  nth_error issues' i = Some issue' /\
                  annotate_issue strptime w (k + i) issue = Ok issue'.
Proof.
  intros H Hin. apply In_nth_error in Hin. destruct Hin as [i Hi].
  destruct (annotated_from_nth w issues k issues' i issue' H Hi) as (x & Hx & Ha).
  eauto.
Qed.

Lemma annotated_days (d info : dict) (days : Z) :
  lookup (annotated d info days) "days" = Some (JInt days).
Proof. unfold annotated, lookup. apply dict_get_set_same. Qed.

Lemma annotated_issue_days (d info : dict) (days : Z) :
  issue_days (annotated d info days) = days.
Proof. unfold issue_days. now rewrite annotated_days. Qed.

(** What a normal run is made of. *)
Lemma get_issues_without_pull_requests_Ok (w : World)
  (issues_url pull_requests_url : string) (result : list json) :
  get_issues_without_pull_requests strptime w issues_url pull_requests_url
    = Ok result ->
  exists fetched issues pull_requests,
    get_all_open_and_assigned_issues w issues_url = Ok fetched /\
    annotated_from strptime w 0 fetched issues /\
    (body <- get_all_open_pull_requests w pull_requests_url ;; py_iter body)
      = Ok pull_requests /\
    result = filter (non_compliant (author_logins pull_requests)) issues.
Proof.
  unfold get_issues_without_pull_requests. intro H.
  inv_bind H. inv_bind H. inv_bind H. inv_bind H. inv_bind H.
  rename a into fetched, a0 into issues, a2 into pull_requests, a3 into users.
  exists fetched, issues, pull_requests.
  apply annotate_loop_Ok in E0. rewrite E1. simpl.
  rewrite (pull_requests_users_Ok _ _ E3) in H.
  repeat split; try assumption.
  apply (filterM_Ok _ _ _ _ (fun x b Hin => is_non_compliant_Ok _ x b
           ltac:(destruct (annotated_from_In w fetched issues 0 x E0 Hin)
                   as (i & y & _ & _ & Ha);
                 destruct (annotate_issue_Ok _ _ _ _ Ha)
                   as (d & info & days & _ & _ & _ & ->);
                 exists days; apply annotated_days)) H).
Qed.

End CorrelatorFacts.

Lemma check_events_empty (w : World) (issue : json) (url : string) (status : Z) :
  py_get issue "events_url" (JStr EmptyString) = Ok (JStr url) ->
  http_get w url [] = Response status (Json (JList [])) ->
  check_issue_assignment_events w issue = Ok [].
Proof.
  intros Hurl Hget. unfold check_issue_assignment_events. rewrite Hurl.
  cbn [bind]. unfold requests_get. rewrite Hget. cbn [bind].
  unfold raise_for_status. cbn [fst].
  destruct ((400 <=? status) && (status <? 600)); reflexivity.
Qed.

Lemma annotate_issue_augments (strptime : string -> option datetime)
  (w : World) (k : nat) (issue issue' : json) :
  annotate_issue strptime w k issue = Ok issue' -> augments issue issue'.
Proof.
  intro H. destruct (annotate_issue_Ok _ _ _ _ _ H)
    as (d & info & days & -> & _ & _ & ->).
  exists d, (dict_set "days" (JInt days) (dict_set "assignment_info" (JDict info) d)).
  repeat split.
  - exists info. rewrite dict_get_set_other by discriminate.
    apply dict_get_set_same.
  - exists days. apply dict_get_set_same.
  - intros k0 H1 H2. now rewrite !dict_get_set_other by assumption.
  - rewrite !dict_keys_set. tauto.
  - rewrite !dict_keys_set. tauto.
Qed.

Lemma select_filter_augments (strptime : string -> option datetime)
  (w : World) (f : json -> bool) (fetched : list json) :
  forall k issues,
    annotated_from strptime w k fetched issues ->
    Forall2 augments (select (map f issues) fetched) (filter f issues).
Proof.
  induction fetched as [| x fetched IH]; intros k [| y issues] H; simpl in H;
    try contradiction; simpl.
  - constructor.
  - destruct H as [Hx Hrest]. destruct (f y).
    + constructor; [now apply annotate_issue_augments with strptime w k | eauto].
    + eauto.
Qed.

Lemma annotated_from_length (strptime : string -> option datetime)
  (w : World) (fetched : list json) :
  forall k issues, annotated_from strptime w k fetched issues ->
                   List.length issues = List.length fetched.
Proof.
  induction fetched as [| x fetched IH]; intros k [| y issues] H; simpl in H;
    try contradiction; simpl; [reflexivity |].
  destruct H as [_ H]. f_equal. eauto.
Qed.

(** ** Membership among the author logins *)

Lemma py_eqb_handle (x y : json) :
  is_handle x = true -> (py_eqb x y = true <-> x = y).
Proof.
  destruct x as [| | | s | |]; try discriminate; intros _;
    destruct y as [| | | t | |]; cbn; split; try discriminate; try reflexivity.
  - intro H. apply String.eqb_eq in H. now subst.
  - intros [= ->]. apply String.eqb_refl.
Qed.

Lemma py_in_among (x : json) (l : list json) : py_in x l = true <-> among x l.
Proof. unfold py_in, among. apply existsb_exists. Qed.

Lemma among_handle (x : json) (l : list json) :
  is_handle x = true -> (among x l <-> In x l).
Proof.
  intro Hx. unfold among. split.
  - intros (y & Hy & He). apply (py_eqb_handle x y Hx) in He. now subst.
  - intro Hin. exists x. split; [assumption |]. now apply (py_eqb_handle x x Hx).
Qed.

Lemma non_compliant_iff (users : list json) (issue : json) :
  non_compliant users issue = true <->
  1 <= issue_days issue /\ ~ among (issue_login issue) users.
Proof.
  unfold non_compliant. rewrite andb_true_iff, Z.leb_le, negb_true_iff.
  rewrite <- py_in_among. destruct (py_in (issue_login issue) users);
    intuition congruence.
Qed.

Lemma select_map_filter {A : Type} (f : A -> bool) (l : list A) :
  select (map f l) l = filter f l.
Proof.
  induction l as [| x l IH]; simpl; [reflexivity |].
  rewrite IH. reflexivity.
Qed.

(** ** The claims about the correlator *)

Section Claims.

Variable strptime : string -> option datetime.

(** What [strptime] returns is a datetime. *)
Hypothesis strptime_valid :
  forall s d, strptime s = Some d -> valid_datetime d = true.

(** C1: in a run of the correlator that returns, an annotated issue of the
    fetched assigned-open set is in the returned list if and only if its
    elapsed days are at least 1 and its assignee login is not among the
    author logins of the fetched open pull requests: not one of them,
    when it is a handle (a string, or none).  The returned list holds, in
    order, one entry for each position of the annotated list whose issue
    satisfies the condition and nothing else: each such issue appears
    once for each time it was fetched, at exactly one position when the
    annotated issues are distinct. *)
Theorem C1_non_compliant_iff_late_and_no_pull_request (w : World)
  (issues_url pull_requests_url : string) (result : list json) :
  get_issues_without_pull_requests strptime w issues_url pull_requests_url
    = Ok result ->
  exists fetched issues pull_requests keep,
    get_all_open_and_assigned_issues w issues_url = Ok fetched /\
    annotated_from strptime w 0 fetched issues /\
    (body <- get_all_open_pull_requests w pull_requests_url ;; py_iter body)
      = Ok pull_requests /\
    (forall issue,
       is_handle (issue_login issue) = true ->
       (In issue result <->
        In issue issues /\ 1 <= issue_days issue /\
        ~ In (issue_login issue) (author_logins pull_requests))) /\
    (forall issue,
       In issue result <->
       In issue issues /\ 1 <= issue_days issue /\
       ~ among (issue_login issue) (author_logins pull_requests)) /\
    List.length keep = List.length issues /\
    result = select keep issues /\
    (forall i issue,
       nth_error issues i = Some issue ->
       (nth_error keep i = Some true <->
        1 <= issue_days issue /\
        ~ among (issue_login issue) (author_logins pull_requests))) /\
    (NoDup issues ->
     forall issue,
       In issue result ->
       exists i, nth_error result i = Some issue /\
                 forall j, nth_error result j = Some issue -> j = i).
Proof.
  intro H.
  destruct (get_issues_without_pull_requests_Ok _ _ _ _ _ H)
    as (fetched & issues & prs & Hf & Ha & Hp & ->).
  exists fetched, issues, prs, (map (non_compliant (author_logins prs)) issues).
  split; [assumption | split; [assumption | split; [assumption |]]].
  split; [| split; [| split; [| split; [| split]]]].
  - intros issue Hh. rewrite filter_In, non_compliant_iff.
    rewrite (among_handle _ (author_logins prs) Hh). tauto.
  - intro issue. rewrite filter_In, non_compliant_iff. tauto.
  - apply length_map.
  - symmetry. apply select_map_filter.
  - intros i issue Hi. rewrite nth_error_map, Hi. cbn [option_map].
    rewrite <- non_compliant_iff. split; [now intros [= ->] | now intros ->].
  - intros Hnd issue Hin.
    pose proof (NoDup_filter (non_compliant (author_logins prs)) Hnd) as Hnd'.
    destruct (In_nth_error _ _ Hin) as [i Hi]. exists i. split; [exact Hi |].
    intros j Hj. rewrite NoDup_nth_error in Hnd'. apply Hnd'.
    + apply nth_error_Some. congruence.
    + congruence.
Qed.

(** C3: an issue whose elapsed days are 0 is never in the returned list,
    whatever the pull requests are; an issue whose reconstructed
    assignment timestamp is the clock reading, and an issue whose events
    request answers with the empty sequence, get 0 elapsed days and are
    not returned. *)
Theorem C3_zero_elapsed_days_never_reported (w : World)
  (issues_url pull_requests_url : string) (result : list json) :
  get_issues_without_pull_requests strptime w issues_url pull_requests_url
    = Ok result ->
  (forall issue, issue_days issue = 0 -> ~ In issue result) /\
  (forall k issue issue',
     annotate_issue strptime w k issue = Ok issue' ->
     (exists info s, check_issue_assignment_events w issue = Ok info /\
                     assigned_at_of info = JStr s /\
                     strptime s = Some (now w k)) \/
     (exists url status,
        py_get issue "events_url" (JStr EmptyString) = Ok (JStr url) /\
        http_get w url [] = Response status (Json (JList []))) ->
     issue_days issue' = 0 /\ ~ In issue' result).
Proof.
  intro H.
  destruct (get_issues_without_pull_requests_Ok _ _ _ _ _ H)
    as (fetched & issues & prs & Hf & Ha & Hp & ->).
  assert (Hzero : forall issue, issue_days issue = 0 ->
            ~ In issue (filter (non_compliant (author_logins prs)) issues)).
  { intros issue Hd Hin. apply filter_In in Hin. destruct Hin as [_ Hin].
    unfold non_compliant in Hin. rewrite Hd in Hin. discriminate. }
  split; [exact Hzero |].
  intros k issue issue' Hann Hcase.
  assert (Hd : issue_days issue' = 0); [| split; [exact Hd | now apply Hzero]].
  destruct (annotate_issue_Ok _ _ _ _ _ Hann)
    as (d & info & days & -> & Hc & He & ->).
  rewrite annotated_issue_days.
  destruct Hcase as [(info' & s & Hc' & Hs & Hnow) | (url & status & Hurl & Hget)].
  - rewrite Hc in Hc'. inversion Hc'; subst info'. rewrite Hs in He.
    unfold elapsed_days in He. destruct (truthy (JStr s)); [| now inversion He].
    unfold py_strptime in He. rewrite Hnow in He. cbn [bind] in He.
    rewrite (relativedelta_same _ (strptime_valid _ _ Hnow)) in He.
    now inversion He.
  - rewrite (check_events_empty _ _ _ _ Hurl Hget) in Hc. inversion Hc; subst info.
    now inversion He.
Qed.

(** C10 (amended): the returned list follows a subsequence of the fetched
    issues in the order of the issues endpoint; each returned entry is the
    fetched issue with the keys "assignment_info" and "days" written: its
    keys are the original ones and these two, and every field under
    another key is unchanged. *)
Theorem C10_result_is_annotated_subsequence (w : World)
  (issues_url pull_requests_url : string) (result : list json) :
  get_issues_without_pull_requests strptime w issues_url pull_requests_url
    = Ok result ->
  exists fetched keep,
    get_all_open_and_assigned_issues w issues_url = Ok fetched /\
    List.length keep = List.length fetched /\
    Forall2 augments (select keep fetched) result.
Proof.
  intro H.
  destruct (get_issues_without_pull_requests_Ok _ _ _ _ _ H)
    as (fetched & issues & prs & Hf & Ha & Hp & ->).
  exists fetched, (map (non_compliant (author_logins prs)) issues).
  split; [assumption | split].
  - rewrite length_map. now apply annotated_from_length with strptime w 0%nat.
  - now apply select_filter_augments with strptime w 0%nat.
Qed.

End Claims.

(** ** Evaluation on sample data *)

(** C2: for an issue assigned exactly one calendar month before the clock
    reading, 29 whole days earlier, the correlator records 0 elapsed days
    (the [days] field of the [relativedelta], which counts the days left
    over after whole months) and does not report the issue. *)
Theorem C2_month_old_assignment_records_zero_days :
  exists entry,
    (fetched <- get_all_open_and_assigned_issues month_old_world issues_endpoint ;;
     annotate_loop strptime_iso month_old_world 0 fetched) = Ok [entry] /\
    lookup entry "assignment_info" =
      Some (JDict [("assignee", JStr "alice");
                   ("assigned_at", JStr "2024-02-15T12:00:00Z")]) /\
    strptime_iso "2024-02-15T12:00:00Z" = Some (at_time 2024 2 15 12 0 0) /\
    whole_days_between (now month_old_world 0) (at_time 2024 2 15 12 0 0) = 29 /\
    lookup entry "days" = Some (JInt 0) /\
    get_issues_without_pull_requests strptime_iso month_old_world issues_endpoint pulls_endpoint
      = Ok [].
Proof. eexists. repeat split; vm_compute; reflexivity. Qed.

(** C4: a deadline that passed one hour before the clock reading is
    reported as "23 hours 0 minutes remaining": [deadline - now] is the
    timedelta of -1 day and 82800 seconds, whose [seconds] are positive. *)
Theorem C4_past_deadline_reported_as_time_remaining :
  strptime_iso "2024-03-15T11:00:00Z" = Some (at_time 2024 3 15 11 0 0) /\
  datetime_ltb (at_time 2024 3 15 11 0 0) (at_time 2024 3 15 12 0 0) = true /\
  datetime_sub (at_time 2024 3 15 11 0 0) (at_time 2024 3 15 12 0 0)
    = mkTimedelta (-1) 82800 0 /\
  exists issue',
    get_time_before_deadline strptime_iso widget_world
      (at_time 2024 3 15 12 0 0) overdue_issue
    = Ok (issue', "23 hours 0 minutes remaining").
Proof. repeat split. eexists. vm_compute. reflexivity. Qed.

(** ** Deadline arithmetic *)

Section DeadlineClaims.

Variable strptime : string -> option datetime.

Hypothesis strptime_valid :
  forall s d, strptime s = Some d -> valid_datetime d = true.

Lemma py_strptime_valid (v : json) (d : datetime) :
  py_strptime strptime v = Ok d -> valid_datetime d = true.
Proof.
  unfold py_strptime. destruct v; try discriminate.
  destruct (strptime s) eqn:E; [| discriminate].
  intro H. inversion H; subst. eauto.
Qed.

(** C8 (amended): for an issue with a reconstructed assignment and a
    deadline present, both timestamps in the format,
    [get_time_before_deadline] returns and leaves the issue with the key
    "assigned_days" holding the elapsed days since assignment as the
    correlator computes them. *)
Theorem C8_assigned_days_recorded_when_deadline_present (w : World)
  (utcnow : datetime) (issue : json) (info : dict) (deadline_str : json)
  (deadline assigned_time : datetime) :
  valid_datetime utcnow = true ->
  check_issue_assignment_events w issue = Ok info ->
  truthy (assigned_at_of info) = true ->
  py_get issue "due_on" JNull = Ok deadline_str ->
  truthy deadline_str = true ->
  py_strptime strptime deadline_str = Ok deadline ->
  py_strptime strptime (assigned_at_of info) = Ok assigned_time ->
  exists days issue',
    elapsed_days strptime utcnow (assigned_at_of info) = Ok days /\
    py_setitem issue "assigned_days" (JInt days) = Ok issue' /\
    get_time_before_deadline strptime w utcnow issue =
      Ok (issue', time_left_message (datetime_sub deadline utcnow)).
Proof.
  intros Hnow Hc Ht Hdue Htd Hpd Hpa.
  destruct (relativedelta_total utcnow assigned_time Hnow
              (py_strptime_valid _ _ Hpa)) as [rd Hrd].
  destruct issue as [| | | | | d]; try discriminate.
  exists (rd_days rd), (JDict (dict_set "assigned_days" (JInt (rd_days rd)) d)).
  split; [| split; [reflexivity |]].
  - unfold elapsed_days. rewrite Ht, Hpa. cbn [bind]. rewrite Hrd. cbn [bind].
    destruct (rd_bool rd) eqn:Hb; [reflexivity |].
    now rewrite (rd_bool_false_days _ Hb).
  - unfold get_time_before_deadline. rewrite Hc. cbn [bind].
    rewrite py_get_assigned_at. cbn [bind]. rewrite Ht. cbn [negb].
    rewrite Hdue. cbn [bind]. rewrite Htd. cbn [negb].
    rewrite Hpd. cbn [bind]. rewrite Hpa. cbn [bind]. rewrite Hrd. reflexivity.
Qed.

End DeadlineClaims.

(** ** Normal termination on well-shaped answers *)

Lemma filterM_In {A : Type} (p : A -> result bool) (l : list A) :
  forall res x, filterM p l = Ok res -> In x res -> In x l /\ p x = Ok true.
Proof.
  induction l as [| y l IH]; simpl; intros res x H Hin.
  - inversion H; subst. contradiction.
  - inv_bind H. inv_bind H. inversion H; subst res. destruct a.
    + destruct Hin as [-> | Hin]; [auto |].
      destruct (IH _ _ E0 Hin). auto.
    + destruct (IH _ _ E0 Hin). auto.
Qed.

Lemma is_open_and_assigned_total (issue : json) :
  is_object issue = true -> exists b, is_open_and_assigned issue = Ok b.
Proof.
  destruct issue as [| | | | | d]; try discriminate. intros _.
  unfold is_open_and_assigned, py_get.
  destruct (dict_get "state" d) as [st |]; cbn [bind];
    [destruct (py_eq_str st "open") |]; cbn [py_eq_str]; eauto.
  destruct (dict_get "assignee" d) as [a |]; cbn [bind];
    [destruct (truthy a) |]; cbn [truthy]; eauto.
  destruct (dict_get "draft" d) as [dr |]; cbn [bind];
    [destruct (truthy dr) |]; cbn [truthy negb]; eauto;
    destruct (dict_get "pull_request" d); cbn [bind]; eauto.
Qed.

Lemma is_open_and_assigned_true (issue : json) :
  is_open_and_assigned issue = Ok true ->
  exists a, lookup issue "assignee" = Some a /\ truthy a = true.
Proof.
  destruct issue as [| | | | | d]; try discriminate.
  unfold is_open_and_assigned, py_get, lookup.
  destruct (dict_get "state" d) as [st |]; cbn [bind py_eq_str];
    [destruct (py_eq_str st "open") |]; try discriminate.
  destruct (dict_get "assignee" d) as [a |]; cbn [bind truthy];
    [| discriminate].
  destruct (truthy a) eqn:Ha; [| discriminate]. eauto.
Qed.

Lemma pull_requests_users_total (pull_requests : list json) :
  Forall pull_request_ok pull_requests ->
  exists users, pull_requests_users pull_requests = Ok users.
Proof.
  induction 1 as [| pr rest [Hobj Huser] _ [users IH]]; simpl; [eauto |].
  destruct pr as [| | | | | d]; try discriminate.
  unfold pull_request_login, py_get. unfold object_or_absent, lookup in Huser.
  destruct (dict_get "user" d) as [[| | | | | u] |]; try discriminate;
    cbn [bind]; [destruct (dict_get "login" u) |]; cbn [bind dict_get];
    rewrite IH; cbn [bind]; eauto.
Qed.

Lemma is_non_compliant_total (users : list json) (d info a : dict) (days : Z) :
  dict_get "assignee" d = Some (JDict a) ->
  exists b, is_non_compliant users (annotated d info days) = Ok b.
Proof.
  intro Ha. unfold is_non_compliant, annotated, py_get.
  rewrite dict_get_set_same. cbn [bind py_ge_1].
  destruct (1 <=? days); [| eauto].
  rewrite !dict_get_set_other by discriminate. rewrite Ha. cbn [bind].
  destruct (dict_get "login" a); cbn [bind]; eauto.
Qed.

Section Termination.

Variable strptime : string -> option datetime.

Hypothesis strptime_valid :
  forall s d, strptime s = Some d -> valid_datetime d = true.

Lemma check_issue_assignment_events_total (w : World) (issue : json) :
  issue_ok strptime w issue ->
  exists info, check_issue_assignment_events w issue = Ok info /\
               timestamp_ok strptime (assigned_at_of info).
Proof.
  intros (Hobj & _ & Hev). destruct issue as [| | | | | d]; try discriminate.
  assert (Hempty : timestamp_ok strptime (assigned_at_of [])) by now left.
  rewrite check_issue_assignment_events_unfold. unfold py_get in Hev.
  destruct (match dict_get "events_url" d with
            | Some u => u
            | None => JStr EmptyString
            end) as [| | | s | |] eqn:Hu;
    try (exists []; split; [reflexivity | exact Hempty]).
  assert (Hurl : match dict_get "events_url" d with
                 | Some x => Ok x
                 | None => Ok (JStr EmptyString)
                 end = Ok (JStr s))
    by (destruct (dict_get "events_url" d); now rewrite Hu).
  destruct (transport_failure (http_get w s [])) eqn:Hf.
  - destruct (transport_failure_raises w s [] reconstruct_assignment Hf)
      as [e ->]. exists []. auto.
  - destruct (Hev s Hurl)
      as [Hf' | (status & body & Hget & events & -> & Hws & Hts)];
      [congruence |].
    rewrite Hget in Hf. cbn [transport_failure] in Hf.
    apply orb_false_iff in Hf. destruct Hf as [Hstatus _].
    rewrite (transport_success w s [] reconstruct_assignment status _ Hget Hstatus).
    unfold reconstruct_assignment. cbn [py_iter bind].
    rewrite assignment_loop_last; [| now left | exact Hws].
    cbn [except_RequestException]. exists (spec_assignment events).
    split; [reflexivity | exact Hts].
Qed.

Lemma elapsed_days_timestamp_ok (now : datetime) (v : json) :
  valid_datetime now = true -> timestamp_ok strptime v ->
  exists days, elapsed_days strptime now v = Ok days.
Proof.
  intros Hn [Hf | (s & d & -> & Hs)].
  - rewrite (elapsed_days_unknown strptime now v Hf). eauto.
  - apply (elapsed_days_total strptime now d); auto.
    + eapply strptime_valid; eauto.
    + unfold py_strptime. now rewrite Hs.
Qed.

Lemma annotate_loop_total (w : World) (issues : list json) :
  (forall k, valid_datetime (now w k) = true) ->
  Forall (issue_ok strptime w) issues ->
  forall k, exists issues', annotate_loop strptime w k issues = Ok issues'.
Proof.
  intros Hnow. induction 1 as [| issue rest Hok _ IH]; intro k; simpl; [eauto |].
  destruct (check_issue_assignment_events_total w issue Hok) as (info & Hc & Hts).
  destruct (elapsed_days_timestamp_ok (now w k) _ (Hnow k) Hts) as [days Hd].
  destruct Hok as (Hobj & _). destruct issue as [| | | | | d]; try discriminate.
  rewrite (annotate_issue_intro strptime w k d info days Hc Hd). cbn [bind].
  destruct (IH (S k)) as [rest' ->]. cbn [bind]. eauto.
Qed.

(** C7 (amended): when every request fails in a way the fetchers catch
    ([requests.get] raises a [RequestException], the status is 4xx or
    5xx, the decoder rejects the body with [JSONDecodeError]) or is
    answered with a body that decodes to JSON of the expected shape (a
    list of issue objects whose assignee is an object or null; for each
    issue a list of event objects whose assigned events carry an object
    assignee, the last of them with a timestamp in the format; a list of
    pull-request objects whose user is an object), a correlation pass
    returns a list. *)
Theorem C7_correlation_returns_on_well_shaped_answers (w : World)
  (issues_url pull_requests_url : string) :
  upstream_ok strptime w issues_url pull_requests_url ->
  exists result,
    get_issues_without_pull_requests strptime w issues_url pull_requests_url
      = Ok result.
Proof.
  intros (Hissues & Hpulls & Hnow).
  (* the issues fetch *)
  assert (Hfetch : exists fetched,
             get_all_open_and_assigned_issues w issues_url = Ok fetched /\
             Forall (issue_ok strptime w) fetched /\
             Forall (fun x => is_open_and_assigned x = Ok true) fetched).
  { unfold get_all_open_and_assigned_issues.
    destruct (transport_failure (http_get w issues_url [])) eqn:Hf.
    - destruct (transport_failure_raises w issues_url []
                  (fun issues => items <- py_iter issues ;;
                                 filterM is_open_and_assigned items) Hf) as [e ->].
      exists []. repeat split; constructor.
    - destruct Hissues as [Hf' | (status & body & Hget & items & -> & Hitems)];
        [congruence |].
      rewrite Hget in Hf. cbn [transport_failure] in Hf.
      apply orb_false_iff in Hf. destruct Hf as [Hstatus _].
      rewrite (transport_success w issues_url [] _ status _ Hget Hstatus).
      cbn [py_iter bind].
      destruct (filterM_total is_open_and_assigned items) as [fetched Hfetched].
      { intros x Hx. apply is_open_and_assigned_total.
        rewrite Forall_forall in Hitems. now destruct (Hitems x Hx). }
      rewrite Hfetched. exists fetched. split; [reflexivity |].
      rewrite Forall_forall in Hitems.
      split; apply Forall_forall; intros x Hx;
        destruct (filterM_In _ _ _ _ Hfetched Hx); auto. }
  destruct Hfetch as (fetched & Hfetched & Hok & Hopen).
  (* the first loop *)
  destruct (annotate_loop_total w fetched Hnow Hok 0%nat) as [issues Hissues'].
  (* the pull requests *)
  assert (Hprs : exists prs,
             (body <- get_all_open_pull_requests w pull_requests_url ;;
              py_iter body) = Ok prs /\ Forall pull_request_ok prs).
  { rewrite get_all_open_pull_requests_unfold.
    destruct (transport_failure (http_get w pull_requests_url [("state", "open")]))
      eqn:Hf.
    - destruct (transport_failure_raises w pull_requests_url [("state", "open")]
                  Ok Hf) as [e ->].
      exists []. split; [reflexivity | constructor].
    - destruct Hpulls as [Hf' | (status & body & Hget & items & -> & Hitems)];
        [congruence |].
      rewrite Hget in Hf. cbn [transport_failure] in Hf.
      apply orb_false_iff in Hf. destruct Hf as [Hstatus _].
      rewrite (transport_success w pull_requests_url _ Ok status _ Hget Hstatus).
      exists items. split; [reflexivity | assumption]. }
  destruct Hprs as (prs & Hprs & Hprs_ok).
  destruct (pull_requests_users_total prs Hprs_ok) as [users Husers].
  (* the second loop *)
  destruct (filterM_total (is_non_compliant users) issues) as [result Hresult].
  { intros x Hx. apply annotate_loop_Ok in Hissues'.
    destruct (annotated_from_In strptime w fetched issues 0 x Hissues' Hx)
      as (i & y & Hy & _ & Hann).
    destruct (annotate_issue_Ok _ _ _ _ _ Hann)
      as (d & info & days & -> & _ & _ & ->).
    apply nth_error_In in Hy. rewrite Forall_forall in Hok, Hopen.
    destruct (is_open_and_assigned_true _ (Hopen _ Hy)) as (a & Ha & Hta).
    destruct (Hok _ Hy) as (_ & Hassignee & _).
    unfold object_or_null in Hassignee. rewrite Ha in Hassignee.
    destruct a as [| | | | | da]; try discriminate.
    now apply is_non_compliant_total with da. }
  exists result. unfold get_issues_without_pull_requests.
  rewrite Hfetched. cbn [bind]. rewrite Hissues'. cbn [bind].
  destruct (get_all_open_pull_requests w pull_requests_url) as [body | e];
    [| discriminate].
  cbn [bind] in *. rewrite Hprs. cbn [bind]. rewrite Husers. exact Hresult.
Qed.

End Termination.

(** ** The canonical parser *)

Lemma strptime_iso_valid (s : string) (d : datetime) :
  strptime_iso s = Some d -> valid_datetime d = true.
Proof.
  unfold strptime_iso.
  destruct (_ && _); [| discriminate].
  destruct (field s 0 4); [| discriminate].
  destruct (field s 5 2); [| discriminate].
  destruct (field s 8 2); [| discriminate].
  destruct (field s 11 2); [| discriminate].
  destruct (field s 14 2); [| discriminate].
  destruct (field s 17 2); [| discriminate].
  match goal with
  | |- (if valid_datetime ?x then _ else _) = _ -> _ =>
      destruct (valid_datetime x) eqn:Hv; [| discriminate]
  end.
  intro H. now inversion H; subst.
Qed.

(** ** Instances on the sample data *)

Lemma C1_team_world_instance :
  exists fetched issues pull_requests keep,
    get_all_open_and_assigned_issues team_world issues_endpoint = Ok fetched /\
    annotated_from strptime_iso team_world 0 fetched issues /\
    (body <- get_all_open_pull_requests team_world pulls_endpoint ;; py_iter body)
      = Ok pull_requests /\
    (forall issue,
       is_handle (issue_login issue) = true ->
       (In issue [widget_entry] <->
        In issue issues /\ 1 <= issue_days issue /\
        ~ In (issue_login issue) (author_logins pull_requests))) /\
    (forall issue,
       In issue [widget_entry] <->
       In issue issues /\ 1 <= issue_days issue /\
       ~ among (issue_login issue) (author_logins pull_requests)) /\
    List.length keep = List.length issues /\
    [widget_entry] = select keep issues /\
    (forall i issue,
       nth_error issues i = Some issue ->
       (nth_error keep i = Some true <->
        1 <= issue_days issue /\
        ~ among (issue_login issue) (author_logins pull_requests))) /\
    (NoDup issues ->
     forall issue,
       In issue [widget_entry] ->
       exists i, nth_error [widget_entry] i = Some issue /\
                 forall j, nth_error [widget_entry] j = Some issue -> j = i).
Proof.
  apply (C1_non_compliant_iff_late_and_no_pull_request strptime_iso team_world
           issues_endpoint pulls_endpoint [widget_entry]).
  vm_compute. reflexivity.
Defined.

Lemma C3_same_instant_and_no_events_instance :
  (issue_days (annotated [("title", JStr "Fix widget"); ("state", JStr "open");
                          ("assignee", JDict [("login", JStr "alice")]);
                          ("events_url", JStr events_endpoint)]
                 [("assignee", JStr "alice");
                  ("assigned_at", JStr "2024-03-12T09:00:00Z")] 0) = 0 /\
   ~ In (annotated [("title", JStr "Fix widget"); ("state", JStr "open");
                    ("assignee", JDict [("login", JStr "alice")]);
                    ("events_url", JStr events_endpoint)]
           [("assignee", JStr "alice");
            ("assigned_at", JStr "2024-03-12T09:00:00Z")] 0) []) /\
  (issue_days (annotated [("title", JStr "Fix widget"); ("state", JStr "open");
                          ("assignee", JDict [("login", JStr "alice")]);
                          ("events_url", JStr events_endpoint)] [] 0) = 0 /\
   ~ In (annotated [("title", JStr "Fix widget"); ("state", JStr "open");
                    ("assignee", JDict [("login", JStr "alice")]);
                    ("events_url", JStr events_endpoint)] [] 0) []).
Proof.
  split.
  - apply (proj2 (C3_zero_elapsed_days_never_reported strptime_iso
                    strptime_iso_valid just_assigned_world issues_endpoint pulls_endpoint []
                    eq_refl)
             0%nat (open_issue "Fix widget" "alice" events_endpoint)).
    + vm_compute. reflexivity.
    + left. exists [("assignee", JStr "alice");
                    ("assigned_at", JStr "2024-03-12T09:00:00Z")],
        "2024-03-12T09:00:00Z".
      repeat split; vm_compute; reflexivity.
  - apply (proj2 (C3_zero_elapsed_days_never_reported strptime_iso
                    strptime_iso_valid no_events_world issues_endpoint pulls_endpoint []
                    eq_refl)
             0%nat (open_issue "Fix widget" "alice" events_endpoint)).
    + vm_compute. reflexivity.
    + right. exists events_endpoint, 200. split; vm_compute; reflexivity.
Defined.

(** C5, as stated: a pull-request listing answered with status 300 and a
    JSON body is a non-2xx answer, and the fetcher returns the body; a
    pull-request listing whose body is 100000 opening brackets makes the
    fetcher raise [RecursionError], and an events answer that holds an
    integer literal of 5000 digits makes the reconstructor raise
    [ValueError]. *)
Lemma C5_non_2xx_status_returns_body :
  spec_transport_failure (http_get redirect_world pulls_endpoint [("state", "open")])
    = true /\
  get_all_open_pull_requests redirect_world pulls_endpoint
    = Ok (JList [pull_request_by "alice"]) /\
  get_all_open_pull_requests redirect_world pulls_endpoint <> Ok (JList []) /\
  spec_transport_failure
    (http_get undecodable_world pulls_endpoint [("state", "open")]) = true /\
  get_all_open_pull_requests undecodable_world pulls_endpoint
    = Raise RecursionError /\
  check_issue_assignment_events undecodable_world
    (open_issue "Fix widget" "alice" events_endpoint) = Raise ValueError.
Proof.
  repeat split; try (vm_compute; reflexivity). vm_compute. discriminate.
Qed.

Lemma C5_outage_instance :
  get_all_open_and_assigned_issues outage_world issues_endpoint = Ok [] /\
  get_all_open_pull_requests outage_world pulls_endpoint = Ok (JList []) /\
  check_issue_assignment_events outage_world
    (open_issue "Fix widget" "alice" events_endpoint) = Ok [].
Proof.
  split; [| split].
  - apply (proj1 (C5_transport_failure_yields_empty outage_world issues_endpoint)).
    vm_compute. reflexivity.
  - apply (proj1 (proj2 (C5_transport_failure_yields_empty outage_world pulls_endpoint))).
    vm_compute. reflexivity.
  - apply (proj2 (proj2 (C5_transport_failure_yields_empty outage_world events_endpoint))).
    + vm_compute. reflexivity.
    + vm_compute. reflexivity.
Defined.


(** C7, as stated: a timestamp that is not in the format makes the
    correlator raise [ValueError], and an object in place of the list of
    issues makes it raise [AttributeError]; an events answer that holds
    an integer literal of 5000 digits makes it raise [ValueError], and an
    events URL whose host has an empty label [LocationParseError]. *)
Lemma C7_malformed_answers_raise :
  strptime_iso "yesterday" = None /\
  get_issues_without_pull_requests strptime_iso bad_timestamp_world
    issues_endpoint pulls_endpoint = Raise ValueError /\
  get_issues_without_pull_requests strptime_iso message_world
    issues_endpoint pulls_endpoint = Raise AttributeError /\
  get_issues_without_pull_requests strptime_iso undecodable_world
    issues_endpoint pulls_endpoint = Raise ValueError /\
  get_issues_without_pull_requests strptime_iso rejected_host_world
    issues_endpoint pulls_endpoint = Raise LocationParseError.
Proof. repeat split; vm_compute; reflexivity. Qed.

Lemma C7_widget_world_instance :
  exists result,
    get_issues_without_pull_requests strptime_iso widget_world issues_endpoint pulls_endpoint
      = Ok result.
Proof.
  apply (C7_correlation_returns_on_well_shaped_answers strptime_iso
           strptime_iso_valid widget_world issues_endpoint pulls_endpoint).
  split; [| split].
  - right. exists 200, (JList [open_issue "Fix widget" "alice" events_endpoint]).
    split; [reflexivity |].
    exists [open_issue "Fix widget" "alice" events_endpoint].
    split; [reflexivity |]. constructor; [| constructor].
    split; [reflexivity | split; [reflexivity |]].
    intros url Hurl. vm_compute in Hurl. inversion Hurl; subst url.
    right. exists 200, (JList [assigned_event "alice" "2024-03-12T09:00:00Z"]).
    split; [reflexivity |].
    exists [assigned_event "alice" "2024-03-12T09:00:00Z"].
    split; [reflexivity | split; [reflexivity |]].
    right. exists "2024-03-12T09:00:00Z", (at_time 2024 3 12 9 0 0).
    split; vm_compute; reflexivity.
  - right. exists 200, (JList []). split; [reflexivity |].
    exists []. split; [reflexivity | constructor].
  - intro k. reflexivity.
Defined.

(** C8, as stated: for an issue with a reconstructed assignment and no
    deadline the call returns before recording anything, and with a
    deadline that is not in the format it raises [ValueError]. *)
Lemma C8_no_deadline_nothing_recorded :
  check_issue_assignment_events widget_world undated_issue =
    Ok [("assignee", JStr "alice"); ("assigned_at", JStr "2024-03-12T09:00:00Z")] /\
  get_time_before_deadline strptime_iso widget_world (at_time 2024 3 15 12 0 0)
    undated_issue = Ok (undated_issue, "No deadline set for this issue.") /\
  lookup undated_issue "assigned_days" = None /\
  get_time_before_deadline strptime_iso widget_world (at_time 2024 3 15 12 0 0)
    badly_dated_issue = Raise ValueError.
Proof. repeat split; vm_compute; reflexivity. Qed.

Lemma C8_due_in_two_hours_instance :
  exists days issue',
    elapsed_days strptime_iso (at_time 2024 3 15 12 0 0)
      (assigned_at_of [("assignee", JStr "alice");
                       ("assigned_at", JStr "2024-03-12T09:00:00Z")]) = Ok days /\
    py_setitem due_in_two_hours "assigned_days" (JInt days) = Ok issue' /\
    get_time_before_deadline strptime_iso widget_world (at_time 2024 3 15 12 0 0)
      due_in_two_hours =
      Ok (issue', time_left_message
                    (datetime_sub (at_time 2024 3 15 14 0 0)
                       (at_time 2024 3 15 12 0 0))).
Proof.
  apply (C8_assigned_days_recorded_when_deadline_present strptime_iso
           strptime_iso_valid widget_world (at_time 2024 3 15 12 0 0)
           due_in_two_hours
           [("assignee", JStr "alice"); ("assigned_at", JStr "2024-03-12T09:00:00Z")]
           (JStr "2024-03-15T14:00:00Z") (at_time 2024 3 15 14 0 0)
           (at_time 2024 3 12 9 0 0));
    vm_compute; reflexivity.
Defined.

(** C10, as stated: a fetched issue that already has a field "days" comes
    back with that field overwritten. *)
Lemma C10_original_days_field_overwritten :
  get_all_open_and_assigned_issues stale_days_world issues_endpoint
    = Ok [stale_days_issue] /\
  lookup stale_days_issue "days" = Some (JInt 100) /\
  exists entry,
    get_issues_without_pull_requests strptime_iso stale_days_world
      issues_endpoint pulls_endpoint = Ok [entry] /\
    lookup entry "title" = lookup stale_days_issue "title" /\
    lookup entry "days" = Some (JInt 3).
Proof.
  split; [vm_compute; reflexivity | split; [reflexivity |]].
  eexists. repeat split; vm_compute; reflexivity.
Qed.

Lemma C10_widget_world_instance :
  exists fetched keep,
    get_all_open_and_assigned_issues widget_world issues_endpoint = Ok fetched /\
    List.length keep = List.length fetched /\
    Forall2 augments (select keep fetched) [widget_entry].
Proof.
  apply (C10_result_is_annotated_subsequence strptime_iso widget_world
           issues_endpoint pulls_endpoint [widget_entry]).
  vm_compute. reflexivity.
Defined.

(** * Further properties of the tracker *)

(** ** Fetchers *)

Lemma except_RequestException_inv {A : Type} (body : result A) (fallback v : A) :
  except_RequestException body fallback = Ok v ->
  body = Ok v \/ (exists e, body = Raise (RequestException e)) /\ v = fallback.
Proof.
  destruct body as [a | [e | | | | | |]]; simpl; intro H; try discriminate.
  - left. exact H.
  - right. inversion H. eauto.
Qed.

Lemma is_open_and_assigned_object (issue : json) :
  is_object issue = true ->
  is_open_and_assigned issue = Ok (open_and_assigned issue).
Proof.
  destruct issue as [| | | | | d]; try discriminate. intros _.
  unfold is_open_and_assigned, open_and_assigned, field_of, lookup, py_get.
  destruct (dict_get "state" d) as [st |]; cbn [bind];
    [destruct (py_eq_str st "open") |]; cbn [py_eq_str andb]; try reflexivity.
  destruct (dict_get "assignee" d) as [a |]; cbn [bind];
    [destruct (truthy a) |]; cbn [truthy andb]; try reflexivity.
  destruct (dict_get "draft" d) as [dr |]; cbn [bind];
    [destruct (truthy dr) |]; cbn [truthy negb andb]; try reflexivity;
    destruct (dict_get "pull_request" d); reflexivity.
Qed.

Lemma is_available_object (issue : json) :
  is_object issue = true -> is_available issue = Ok (available issue).
Proof.
  destruct issue as [| | | | | d]; try discriminate. intros _.
  unfold is_available, available, field_of, lookup, py_get.
  destruct (dict_get "state" d) as [st |]; cbn [bind];
    [destruct (py_eq_str st "open") |]; cbn [py_eq_str andb]; try reflexivity.
  destruct (dict_get "assignee" d) as [a |]; cbn [bind];
    destruct (dict_get "draft" d) as [dr |]; cbn [bind];
    destruct (dict_get "pull_request" d) as [pr |]; cbn [bind truthy];
    repeat match goal with
           | |- context [truthy ?x] => destruct (truthy x)
           end; reflexivity.
Qed.

Lemma is_open_and_assigned_Ok_object (issue : json) (b : bool) :
  is_open_and_assigned issue = Ok b -> is_object issue = true.
Proof. destruct issue; try discriminate. reflexivity. Qed.

Lemma is_available_Ok_object (issue : json) (b : bool) :
  is_available issue = Ok b -> is_object issue = true.
Proof. destruct issue; try discriminate. reflexivity. Qed.

Lemma filterM_pure {A : Type} (p : A -> result bool) (f : A -> bool) (l : list A) :
  (forall x, In x l -> p x = Ok (f x)) -> filterM p l = Ok (filter f l).
Proof.
  induction l as [| x l IH]; simpl; intro H; [reflexivity |].
  rewrite (H x (or_introl eq_refl)). cbn [bind]. rewrite IH by auto. reflexivity.
Qed.

(** The first item on which the predicate raises decides the outcome. *)
Lemma filterM_raises {A : Type} (p : A -> result bool) (e : exn) (l : list A) :
  (forall x, In x l -> (exists b, p x = Ok b) \/ p x = Raise e) ->
  (exists x, In x l /\ p x = Raise e) ->
  filterM p l = Raise e.
Proof.
  induction l as [| x l IH]; simpl; intros Hall (y & Hy & Hraise).
  - contradiction.
  - destruct (Hall x (or_introl eq_refl)) as [[b Hb] | Hx].
    + rewrite Hb. cbn [bind]. rewrite IH; [reflexivity | auto |].
      destruct Hy as [-> | Hy]; [congruence | eauto].
    + now rewrite Hx.
Qed.

Lemma issues_fetch_inv (w : World) (url : string) (p : json -> result bool)
  (fetched : list json) :
  except_RequestException
    (resp <- requests_get w (JStr url) [] ;;
     _ <- raise_for_status resp ;;
     issues <- response_json resp ;;
     items <- py_iter issues ;;
     filterM p items)
    [] = Ok fetched ->
  forall x, In x fetched -> p x = Ok true.
Proof.
  intros H x Hin. apply except_RequestException_inv in H.
  destruct H as [H | [_ ->]]; [| contradiction].
  inv_bind H. inv_bind H. inv_bind H. inv_bind H.
  now destruct (filterM_In _ _ _ _ H Hin).
Qed.

(** X1: every issue [get_all_open_and_assigned_issues] returns is an
    object whose state is "open", whose assignee is truthy and whose draft
    and pull_request fields are falsy. *)
Theorem X1_fetched_issues_are_open_and_assigned (w : World) (url : string)
  (fetched : list json) (issue : json) :
  get_all_open_and_assigned_issues w url = Ok fetched ->
  In issue fetched ->
  is_object issue = true /\
  py_eq_str (field_of issue "state") "open" = true /\
  truthy (field_of issue "assignee") = true /\
  truthy (field_of issue "draft") = false /\
  truthy (field_of issue "pull_request") = false.
Proof.
  intros H Hin. pose proof (issues_fetch_inv w url _ fetched H issue Hin) as Hp.
  pose proof (is_open_and_assigned_Ok_object _ _ Hp) as Hobj.
  rewrite (is_open_and_assigned_object _ Hobj) in Hp. injection Hp as Hb.
  unfold open_and_assigned in Hb.
  apply andb_true_iff in Hb. destruct Hb as [Hb Hpr].
  apply andb_true_iff in Hb. destruct Hb as [Hb Hdraft].
  apply andb_true_iff in Hb. destruct Hb as [Hstate Hassignee].
  apply negb_true_iff in Hpr, Hdraft. repeat split; assumption.
Qed.

Lemma answered_with_fetch {A : Type} (w : World) (url : string)
  (params : list (string * string)) (items : list json)
  (k : json -> result A) :
  answered_with (http_get w url params) items ->
  (resp <- requests_get w (JStr url) params ;;
   _ <- raise_for_status resp ;;
   body <- response_json resp ;;
   k body) = k (JList items).
Proof.
  intros (status & Hget & Hstatus).
  exact (transport_success w url params k status _ Hget Hstatus).
Qed.

(** X2: when the issues request is answered with a list of objects, each
    issue fetcher returns exactly the items that satisfy its condition, in
    the order of the answer. *)
Theorem X2_issue_fetchers_filter_the_answer (w : World) (url : string)
  (items : list json) :
  answered_with (http_get w url []) items ->
  forallb is_object items = true ->
  get_all_open_and_assigned_issues w url = Ok (filter open_and_assigned items) /\
  get_all_available_issues w url = Ok (filter available items).
Proof.
  intros Hans Hobj. rewrite forallb_forall in Hobj.
  unfold get_all_open_and_assigned_issues, get_all_available_issues.
  rewrite !(answered_with_fetch w url [] items _ Hans). cbn [py_iter bind].
  rewrite (filterM_pure is_open_and_assigned open_and_assigned)
    by (intros x Hx; apply is_open_and_assigned_object; auto).
  rewrite (filterM_pure is_available available)
    by (intros x Hx; apply is_available_object; auto).
  split; reflexivity.
Qed.

Lemma is_open_and_assigned_not_object (x : json) :
  is_object x = false -> is_open_and_assigned x = Raise AttributeError.
Proof. destruct x; try reflexivity. discriminate. Qed.

Lemma is_available_not_object (x : json) :
  is_object x = false -> is_available x = Raise AttributeError.
Proof. destruct x; try reflexivity. discriminate. Qed.

(** X3: when the issues request is answered with a list that holds an
    item that is not an object, both issue fetchers raise
    [AttributeError]: the filter is outside what the handler catches. *)
Theorem X3_non_object_item_raises (w : World) (url : string)
  (items : list json) :
  answered_with (http_get w url []) items ->
  forallb is_object items = false ->
  get_all_open_and_assigned_issues w url = Raise AttributeError /\
  get_all_available_issues w url = Raise AttributeError.
Proof.
  intros Hans Hobj.
  assert (Hex : exists x, In x items /\ is_object x = false).
  { clear Hans. induction items as [| x items IH]; [discriminate |].
    simpl in Hobj. destruct (is_object x) eqn:Hx.
    - destruct (IH Hobj) as (y & Hy & Hy'). exists y. simpl. auto.
    - exists x. simpl. auto. }
  destruct Hex as (x & Hx & Hxo).
  unfold get_all_open_and_assigned_issues, get_all_available_issues.
  rewrite !(answered_with_fetch w url [] items _ Hans). cbn [py_iter bind].
  rewrite (filterM_raises is_open_and_assigned AttributeError items).
  rewrite (filterM_raises is_available AttributeError items).
  - split; reflexivity.
  - intros y _. destruct (is_object y) eqn:Hy.
    + left. rewrite (is_available_object _ Hy). eauto.
    + right. now apply is_available_not_object.
  - exists x. split; [assumption | now apply is_available_not_object].
  - intros y _. destruct (is_object y) eqn:Hy.
    + left. rewrite (is_open_and_assigned_object _ Hy). eauto.
    + right. now apply is_open_and_assigned_not_object.
  - exists x. split; [assumption | now apply is_open_and_assigned_not_object].
Qed.

(** X4: every issue [get_all_available_issues] returns is an object
    whose state is "open" and whose assignee, draft and pull_request
    fields are all falsy. *)
Theorem X4_available_issues_are_open_and_free (w : World) (url : string)
  (fetched : list json) (issue : json) :
  get_all_available_issues w url = Ok fetched ->
  In issue fetched ->
  is_object issue = true /\
  py_eq_str (field_of issue "state") "open" = true /\
  truthy (field_of issue "assignee") = false /\
  truthy (field_of issue "draft") = false /\
  truthy (field_of issue "pull_request") = false.
Proof.
  intros H Hin. pose proof (issues_fetch_inv w url _ fetched H issue Hin) as Hp.
  pose proof (is_available_Ok_object _ _ Hp) as Hobj.
  rewrite (is_available_object _ Hobj) in Hp. injection Hp as Hb.
  unfold available in Hb.
  apply andb_true_iff in Hb. destruct Hb as [Hb Hpr].
  apply andb_true_iff in Hb. destruct Hb as [Hb Hdraft].
  apply andb_true_iff in Hb. destruct Hb as [Hstate Hassignee].
  apply negb_true_iff in Hpr, Hdraft, Hassignee. repeat split; assumption.
Qed.

Lemma partition_lengths (items : list json) :
  (List.length (filter open_and_assigned items)
   + List.length (filter available items))%nat
  = List.length (filter open_issue_proper items).
Proof.
  induction items as [| x items IH]; simpl; [reflexivity |].
  unfold open_and_assigned, available, open_issue_proper in *.
  destruct (py_eq_str (field_of x "state") "open");
    destruct (truthy (field_of x "assignee"));
    destruct (truthy (field_of x "draft"));
    destruct (truthy (field_of x "pull_request")); simpl; lia.
Qed.

(** X5: on one answer of objects the assigned issues and the available
    issues split the open issues that are neither drafts nor pull
    requests: no issue is in both lists, each such issue is in one of
    them, and the two lengths add up. *)
Theorem X5_assigned_and_available_partition (w : World) (url : string)
  (items : list json) :
  answered_with (http_get w url []) items ->
  forallb is_object items = true ->
  exists assigned free,
    get_all_open_and_assigned_issues w url = Ok assigned /\
    get_all_available_issues w url = Ok free /\
    (forall x, In x assigned -> ~ In x free) /\
    (forall x, In x items /\ open_issue_proper x = true <->
               In x assigned \/ In x free) /\
    (List.length assigned + List.length free)%nat
      = List.length (filter open_issue_proper items).
Proof.
  intros Hans Hobj. rewrite forallb_forall in Hobj.
  exists (filter open_and_assigned items), (filter available items).
  unfold get_all_open_and_assigned_issues, get_all_available_issues.
  rewrite !(answered_with_fetch w url [] items _ Hans). cbn [py_iter bind].
  rewrite (filterM_pure is_open_and_assigned open_and_assigned)
    by (intros x Hx; apply is_open_and_assigned_object; auto).
  rewrite (filterM_pure is_available available)
    by (intros x Hx; apply is_available_object; auto).
  split; [reflexivity | split; [reflexivity | split; [| split; [split |]]]].
  - intros x Ha Hf. apply filter_In in Ha, Hf.
    destruct Ha as [_ Ha], Hf as [_ Hf].
    unfold open_and_assigned, available in *.
    destruct (py_eq_str (field_of x "state") "open");
      destruct (truthy (field_of x "assignee")); simpl in *; discriminate.
  - intros [Hin Hp]. rewrite !filter_In.
    unfold open_and_assigned, available, open_issue_proper in *.
    destruct (py_eq_str (field_of x "state") "open");
      destruct (truthy (field_of x "assignee"));
      destruct (truthy (field_of x "draft"));
      destruct (truthy (field_of x "pull_request")); simpl in *;
      try discriminate; auto.
  - rewrite !filter_In.
    unfold open_and_assigned, available, open_issue_proper.
    intros [[Hin Hp] | [Hin Hp]]; (split; [assumption |]);
      destruct (py_eq_str (field_of x "state") "open");
      destruct (truthy (field_of x "assignee"));
      destruct (truthy (field_of x "draft"));
      destruct (truthy (field_of x "pull_request")); simpl in *;
      try discriminate; auto.
  - apply partition_lengths.
Qed.

Lemma pull_fetch_cases (w : World) (url : string)
  (params : list (string * string)) :
  except_RequestException
    (resp <- requests_get w (JStr url) params ;;
     _ <- raise_for_status resp ;;
     response_json resp)
    (JList []) =
  match http_get w url params with
  | RequestFailed _ => Ok (JList [])
  | HostRejected => Raise LocationParseError
  | Response status body =>
      if (400 <=? status) && (status <? 600) then Ok (JList [])
      else match body with
           | Json v => Ok v
           | NotJson => Ok (JList [])
           | IntegerTooLong => Raise ValueError
           | TooDeep => Raise RecursionError
           end
  end.
Proof.
  unfold requests_get, raise_for_status.
  destruct (http_get w url params) as [e | | status body];
    cbn [bind fst snd]; try reflexivity.
  destruct ((400 <=? status) && (status <? 600)); [reflexivity |].
  destruct body; reflexivity.
Qed.

(** In [get_pull_reviews] the test of [response.ok] comes after
    [raise_for_status] and never fails. *)
Lemma get_pull_reviews_unfold (w : World) (url : string) :
  get_pull_reviews w url =
    except_RequestException
      (resp <- requests_get w (JStr url) [] ;;
       _ <- raise_for_status resp ;;
       response_json resp)
      (JList []).
Proof.
  unfold get_pull_reviews, response_ok. f_equal.
  destruct (requests_get w (JStr url) []) as [resp | e]; [| reflexivity].
  cbn [bind]. destruct (raise_for_status resp) as [[] | e]; reflexivity.
Qed.

Lemma pull_fetch_total (w : World) (url : string)
  (params : list (string * string)) :
  escapes (http_get w url params) = false ->
  exists v,
    except_RequestException
      (resp <- requests_get w (JStr url) params ;;
       _ <- raise_for_status resp ;;
       response_json resp)
      (JList []) = Ok v.
Proof.
  rewrite pull_fetch_cases. unfold escapes.
  destruct (http_get w url params) as [e | | status body];
    [eauto | discriminate |].
  destruct ((400 <=? status) && (status <? 600)); [eauto |].
  destruct body; try discriminate; eauto.
Qed.


(** ** Assignment reconstructor *)

Lemma assignment_loop_record_shape (events : list json) (acc info : dict) :
  record_shape acc -> assignment_loop acc events = Ok info -> record_shape info.
Proof.
  intros Hacc H. pose proof (assignment_loop_Ok_shape _ _ _ H) as Hws.
  rewrite (assignment_loop_last events acc Hacc Hws) in H.
  injection H as <-. destruct (last_assigned events); [| exact Hacc].
  right. eauto.
Qed.

(** X7: whatever [check_issue_assignment_events] returns is either the
    empty record or a record with exactly the keys "assignee" and
    "assigned_at", in this order: a timestamp never comes without a login
    entry, nor a login entry without a timestamp. *)
Theorem X7_assignment_record_is_empty_or_complete (w : World) (issue : json)
  (info : dict) :
  check_issue_assignment_events w issue = Ok info ->
  info = [] \/
  exists login created_at,
    info = [("assignee", login); ("assigned_at", created_at)].
Proof.
  unfold check_issue_assignment_events. intro H.
  apply except_RequestException_inv in H. destruct H as [H | [_ ->]]; [| now left].
  inv_bind H. inv_bind H. inv_bind H. inv_bind H.
  unfold reconstruct_assignment in H. inv_bind H.
  eapply (assignment_loop_record_shape _ [] info); [now left | exact H].
Qed.

Lemma last_assigned_app (l1 l2 : list json) :
  last_assigned (l1 ++ l2)%list =
    match last_assigned l2 with
    | Some e => Some e
    | None => last_assigned l1
    end.
Proof.
  induction l1 as [| x l1 IH]; simpl.
  - now destruct (last_assigned l2).
  - rewrite IH. destruct (last_assigned l2); [reflexivity |].
    reflexivity.
Qed.

Lemma last_assigned_existsb (l : list json) :
  existsb is_assigned_event l = false <-> last_assigned l = None.
Proof.
  induction l as [| x l IH]; simpl; [tauto |].
  rewrite orb_false_iff, IH. split.
  - intros [Hx ->]. now rewrite Hx.
  - destruct (last_assigned l); [discriminate |].
    destruct (is_assigned_event x); [discriminate | auto].
Qed.

(** X8: on a timeline of well-shaped events, events that follow decide
    the reconstruction when one of them is an assigned event, and leave
    it as it was otherwise. *)
Theorem X8_later_events_decide (l1 l2 : list json) :
  forallb event_well_shaped (l1 ++ l2)%list = true ->
  reconstruct_assignment (JList (l1 ++ l2)%list) =
    if existsb is_assigned_event l2
    then reconstruct_assignment (JList l2)
    else reconstruct_assignment (JList l1).
Proof.
  intro Hws. pose proof Hws as Hws'. rewrite forallb_app in Hws'.
  apply andb_true_iff in Hws'. destruct Hws' as [Hws1 Hws2].
  unfold reconstruct_assignment. cbn [py_iter bind].
  rewrite !assignment_loop_last; try assumption; try (now left).
  rewrite last_assigned_app.
  destruct (existsb is_assigned_event l2) eqn:Hex.
  - destruct (last_assigned l2) eqn:Hl; [reflexivity |].
    apply last_assigned_existsb in Hl. congruence.
  - apply last_assigned_existsb in Hex. now rewrite Hex.
Qed.

Lemma assignment_step_ill_shaped (acc : dict) (e : json) :
  event_well_shaped e = false -> assignment_step acc e = Raise AttributeError.
Proof.
  destruct e as [| | | | | d]; try reflexivity.
  unfold event_well_shaped, assignment_step, is_assigned_event, object_or_absent,
    lookup, py_get; simpl.
  destruct (dict_get "event" d) as [kind |]; simpl; [| discriminate].
  destruct (py_eq_str kind "assigned"); [| discriminate].
  destruct (dict_get "assignee" d) as [[| | | | | a] |]; simpl;
    try discriminate; reflexivity.
Qed.

(** X9: one event that is not an object, or one assigned event whose
    assignee is present and not an object, makes the reconstruction raise
    [AttributeError], wherever it stands in the timeline. *)
Theorem X9_ill_shaped_event_raises (events : list json) :
  forallb event_well_shaped events = false ->
  reconstruct_assignment (JList events) = Raise AttributeError.
Proof.
  unfold reconstruct_assignment. cbn [py_iter bind]. generalize (@nil (string * json)).
  induction events as [| e rest IH]; intros acc H; [discriminate |].
  simpl in H. simpl. destruct (event_well_shaped e) eqn:He.
  - rewrite (assignment_step_well_shaped acc e He). cbn [bind]. now apply IH.
  - now rewrite (assignment_step_ill_shaped acc e He).
Qed.

(** ** Compliance correlator *)

Lemma pull_requests_answer_total (w : World) (url : string) :
  answer_ok pull_requests_ok (http_get w url [("state", "open")]) ->
  exists prs users,
    (body <- get_all_open_pull_requests w url ;; py_iter body) = Ok prs /\
    pull_requests_users prs = Ok users.
Proof.
  intro Hpulls. rewrite get_all_open_pull_requests_unfold.
  destruct (transport_failure (http_get w url [("state", "open")])) eqn:Hf.
  - destruct (transport_failure_raises w url [("state", "open")] Ok Hf) as [e ->].
    exists [], []. split; reflexivity.
  - destruct Hpulls as [Hf' | (status & body & Hget & items & -> & Hitems)];
      [congruence |].
    rewrite Hget in Hf. cbn [transport_failure] in Hf.
    apply orb_false_iff in Hf. destruct Hf as [Hstatus _].
    rewrite (transport_success w url _ Ok status _ Hget Hstatus).
    destruct (pull_requests_users_total items Hitems) as [users Husers].
    exists items, users. split; [reflexivity | assumption].
Qed.

(** X10: when the issues request fails in transport and the
    pull-request request fails too or is answered with a list of
    pull-request objects, the correlator returns the empty list. *)
Theorem X10_failed_issues_fetch_gives_empty_result
  (strptime : string -> option datetime) (w : World)
  (issues_url pull_requests_url : string) :
  transport_failure (http_get w issues_url []) = true ->
  answer_ok pull_requests_ok (http_get w pull_requests_url [("state", "open")]) ->
  get_issues_without_pull_requests strptime w issues_url pull_requests_url
    = Ok [].
Proof.
  intros Hf Hpulls.
  destruct (pull_requests_answer_total w pull_requests_url Hpulls)
    as (prs & users & Hprs & Husers).
  unfold get_issues_without_pull_requests, get_all_open_and_assigned_issues.
  destruct (transport_failure_raises w issues_url []
              (fun issues => items <- py_iter issues ;;
                             filterM is_open_and_assigned items) Hf) as [e ->].
  cbn [except_RequestException bind annotate_loop].
  destruct (get_all_open_pull_requests w pull_requests_url) as [body | e'];
    [| discriminate].
  cbn [bind] in *. rewrite Hprs. cbn [bind]. rewrite Husers. reflexivity.
Qed.

Lemma zero_days_not_reported (strptime : string -> option datetime) (w : World)
  (issues_url pull_requests_url : string) (result : list json) (issue : json) :
  get_issues_without_pull_requests strptime w issues_url pull_requests_url
    = Ok result ->
  issue_days issue = 0 -> ~ In issue result.
Proof.
  intros H Hd Hin.
  destruct (get_issues_without_pull_requests_Ok _ _ _ _ _ H)
    as (fetched & issues & prs & _ & _ & _ & ->).
  apply filter_In in Hin. destruct Hin as [_ Hin].
  unfold non_compliant in Hin. rewrite Hd in Hin. discriminate.
Qed.

(** X11: an issue whose events request fails in transport is annotated
    with the empty assignment record and 0 days, as if it had just been
    assigned, and no run of the correlator reports it. *)
Theorem X11_failed_events_fetch_hides_the_issue
  (strptime : string -> option datetime) (w : World) (k : nat) (d : dict)
  (url : string) :
  py_get (JDict d) "events_url" (JStr EmptyString) = Ok (JStr url) ->
  transport_failure (http_get w url []) = true ->
  annotate_issue strptime w k (JDict d) = Ok (annotated d [] 0) /\
  forall issues_url pull_requests_url result,
    get_issues_without_pull_requests strptime w issues_url pull_requests_url
      = Ok result ->
    ~ In (annotated d [] 0) result.
Proof.
  intros Hurl Hf. split.
  - apply annotate_issue_intro; [| reflexivity].
    rewrite check_issue_assignment_events_unfold. unfold py_get in Hurl.
    replace (match dict_get "events_url" d with
             | Some u => u
             | None => JStr EmptyString
             end) with (JStr url)
      by (destruct (dict_get "events_url" d); now inversion Hurl).
    destruct (transport_failure_raises w url [] reconstruct_assignment Hf)
      as [e ->]. reflexivity.
  - intros iu pu result H.
    apply (zero_days_not_reported strptime w iu pu result _ H).
    apply annotated_issue_days.
Qed.

Lemma field_of_annotated (d info : dict) (days : Z) (k : string) :
  k <> "assignment_info" -> k <> "days" ->
  field_of (annotated d info days) k = field_of (JDict d) k.
Proof.
  intros H1 H2. unfold field_of, annotated, lookup.
  now rewrite !dict_get_set_other by assumption.
Qed.

Lemma is_non_compliant_true (users : list json) (d info : dict) (days : Z) :
  is_non_compliant users (annotated d info days) = Ok true ->
  1 <= days /\
  (dict_get "assignee" d = None \/ exists a, dict_get "assignee" d = Some (JDict a)).
Proof.
  unfold is_non_compliant, annotated, py_get.
  rewrite dict_get_set_same. cbn [bind py_ge_1].
  destruct (Z.leb_spec 1 days); [| discriminate].
  rewrite !dict_get_set_other by discriminate.
  destruct (dict_get "assignee" d) as [[| | | | | a] |]; cbn [bind];
    try discriminate; eauto.
Qed.

Section ReportedEntries.

Variable strptime : string -> option datetime.

Lemma reported_entry_origin (w : World) (issues_url pull_requests_url : string)
  (result : list json) (entry : json) :
  get_issues_without_pull_requests strptime w issues_url pull_requests_url
    = Ok result ->
  In entry result ->
  exists fetched d info days users,
    get_all_open_and_assigned_issues w issues_url = Ok fetched /\
    In (JDict d) fetched /\
    entry = annotated d info days /\
    is_non_compliant users entry = Ok true.
Proof.
  unfold get_issues_without_pull_requests. intros H Hin.
  inv_bind H. inv_bind H. inv_bind H. inv_bind H. inv_bind H.
  rename a into fetched, a0 into issues, a3 into users.
  destruct (filterM_In _ _ _ _ H Hin) as [Hin' Hnc].
  apply annotate_loop_Ok in E0.
  destruct (annotated_from_In strptime w fetched issues 0 entry E0 Hin')
    as (i & issue & Hi & _ & Hann).
  destruct (annotate_issue_Ok _ _ _ _ _ Hann)
    as (d & info & days & -> & _ & _ & ->).
  exists fetched, d, info, days, users.
  apply nth_error_In in Hi. auto.
Qed.

(** X12: every entry the correlator reports is an open issue with an
    object assignee that is neither a draft nor a pull request, and
    carries at least one elapsed day. *)
Theorem X12_reported_entries_are_open_assigned_issues (w : World)
  (issues_url pull_requests_url : string) (result : list json) (entry : json) :
  get_issues_without_pull_requests strptime w issues_url pull_requests_url
    = Ok result ->
  In entry result ->
  py_eq_str (field_of entry "state") "open" = true /\
  (exists a, lookup entry "assignee" = Some (JDict a) /\ a <> []) /\
  truthy (field_of entry "draft") = false /\
  truthy (field_of entry "pull_request") = false /\
  1 <= issue_days entry.
Proof.
  intros H Hin.
  destruct (reported_entry_origin w _ _ _ _ H Hin)
    as (fetched & d & info & days & users & Hf & Hd & -> & Hnc).
  pose proof (issues_fetch_inv w issues_url _ fetched Hf _ Hd) as Hp.
  rewrite (is_open_and_assigned_object (JDict d) eq_refl) in Hp.
  injection Hp as Hb. unfold open_and_assigned in Hb.
  apply andb_true_iff in Hb. destruct Hb as [Hb Hpr].
  apply andb_true_iff in Hb. destruct Hb as [Hb Hdraft].
  apply andb_true_iff in Hb. destruct Hb as [Hstate Hassignee].
  apply negb_true_iff in Hpr, Hdraft.
  destruct (is_non_compliant_true _ _ _ _ Hnc) as [Hdays Ha].
  rewrite !field_of_annotated by discriminate.
  rewrite annotated_issue_days.
  split; [assumption | split; [| auto]].
  unfold annotated, lookup. rewrite !dict_get_set_other by discriminate.
  unfold field_of, lookup in Hassignee.
  destruct Ha as [Ha | [a Ha]]; rewrite Ha in *; [discriminate |].
  exists a. split; [reflexivity |]. intros ->. discriminate.
Qed.

End ReportedEntries.

(** ** Calendar arithmetic *)

Lemma days_in_month_bounds (y m : Z) : 28 <= days_in_month y m <= 31.
Proof.
  unfold days_in_month.
  destruct (m =? 2); [destruct (is_leap y); lia |].
  destruct ((m =? 4) || (m =? 6) || (m =? 9) || (m =? 11)); lia.
Qed.

Lemma toordinal_month_start (d : datetime) :
  toordinal d = month_start (year d) (month d) + day d.
Proof. reflexivity. Qed.

Lemma month_start_succ (y m : Z) :
  1 <= m < 12 -> month_start y (m + 1) = month_start y m + days_in_month y m.
Proof.
  intro Hm. unfold month_start.
  assert (Hcases : m = 1 \/ m = 2 \/ m = 3 \/ m = 4 \/ m = 5 \/ m = 6 \/
                   m = 7 \/ m = 8 \/ m = 9 \/ m = 10 \/ m = 11) by lia.
  unfold days_before_month, days_in_month.
  repeat (destruct Hcases as [-> | Hcases]); try subst m;
    cbn; destruct (is_leap y); lia.
Qed.

Lemma days_before_year_succ (y : Z) :
  days_before_year (y + 1) =
    days_before_year y + 365 + (if is_leap y then 1 else 0).
Proof.
  unfold days_before_year, is_leap.
  replace (y + 1 - 1) with y by lia.
  destruct (Z.eqb_spec (y mod 4) 0); destruct (Z.eqb_spec (y mod 100) 0);
    destruct (Z.eqb_spec (y mod 400) 0); cbn [andb orb negb];
    Z.div_mod_to_equations; lia.
Qed.

Lemma month_start_new_year (y : Z) :
  month_start (y + 1) 1 = month_start y 12 + days_in_month y 12.
Proof.
  unfold month_start. rewrite days_before_year_succ.
  unfold days_before_month, days_in_month. cbn. destruct (is_leap y); lia.
Qed.

(** The month that follows, as [shift_months] computes it. *)
Lemma month_start_next (y m : Z) :
  1 <= m <= 12 ->
  month_start ((12 * y + (m - 1) + 1) / 12) ((12 * y + (m - 1) + 1) mod 12 + 1)
    = month_start y m + days_in_month y m.
Proof.
  intro Hm. destruct (Z.eq_dec m 12) as [-> | Hne].
  - replace ((12 * y + (12 - 1) + 1) / 12) with (y + 1)
      by (Z.div_mod_to_equations; lia).
    replace ((12 * y + (12 - 1) + 1) mod 12 + 1) with 1
      by (Z.div_mod_to_equations; lia).
    apply month_start_new_year.
  - replace ((12 * y + (m - 1) + 1) / 12) with y
      by (Z.div_mod_to_equations; lia).
    replace ((12 * y + (m - 1) + 1) mod 12 + 1) with (m + 1)
      by (Z.div_mod_to_equations; lia).
    apply month_start_succ. lia.
Qed.

(** Within one month the order of datetimes is the order of their keys. *)
Lemma datetime_ltb_same_month (a b : datetime) :
  year a = year b -> month a = month b ->
  0 <= hour a <= 23 -> 0 <= minute a <= 59 -> 0 <= second a <= 59 ->
  0 <= microsecond a <= 999999 ->
  0 <= hour b <= 23 -> 0 <= minute b <= 59 -> 0 <= second b <= 59 ->
  0 <= microsecond b <= 999999 ->
  datetime_ltb a b = (month_key a <? month_key b).
Proof.
  intros Hy Hm. intros. unfold datetime_ltb, fields, lex_ltb, month_key, day_seconds.
  rewrite Hy, Hm, !Z.ltb_irrefl, !Z.eqb_refl. cbn [orb andb].
  destruct (Z.ltb_spec (day a) (day b)); cbn [orb];
    [symmetry; apply Z.ltb_lt; lia |].
  destruct (Z.eqb_spec (day a) (day b)); cbn [andb];
    [| symmetry; apply Z.ltb_ge; lia].
  destruct (Z.ltb_spec (hour a) (hour b)); cbn [orb];
    [symmetry; apply Z.ltb_lt; lia |].
  destruct (Z.eqb_spec (hour a) (hour b)); cbn [andb];
    [| symmetry; apply Z.ltb_ge; lia].
  destruct (Z.ltb_spec (minute a) (minute b)); cbn [orb];
    [symmetry; apply Z.ltb_lt; lia |].
  destruct (Z.eqb_spec (minute a) (minute b)); cbn [andb];
    [| symmetry; apply Z.ltb_ge; lia].
  destruct (Z.ltb_spec (second a) (second b)); cbn [orb];
    [symmetry; apply Z.ltb_lt; lia |].
  destruct (Z.eqb_spec (second a) (second b)); cbn [andb];
    [| symmetry; apply Z.ltb_ge; lia].
  rewrite andb_false_r, orb_false_r.
  destruct (Z.ltb_spec (microsecond a) (microsecond b));
    symmetry; [apply Z.ltb_lt | apply Z.ltb_ge]; lia.
Qed.

(** The seconds [relativedelta] reads off [dt1 - dtm]. *)
Lemma timedelta_total_seconds (a b : datetime) :
  td_seconds (datetime_sub a b) + td_days (datetime_sub a b) * 86400 =
    epoch_seconds a - epoch_seconds b + (microsecond a - microsecond b) / 1000000.
Proof.
  unfold datetime_sub, new_timedelta, epoch_seconds, day_seconds.
  cbn [td_seconds td_days]. Z.div_mod_to_equations. lia.
Qed.

Lemma timedelta_microseconds_range (a b : datetime) :
  0 <= td_microseconds (datetime_sub a b) <= 999999.
Proof.
  unfold datetime_sub, new_timedelta. cbn [td_microseconds].
  Z.div_mod_to_equations. lia.
Qed.

Lemma timedelta_days_floor (a b : datetime) :
  td_days (datetime_sub a b) =
    (td_seconds (datetime_sub a b) + td_days (datetime_sub a b) * 86400) / 86400.
Proof.
  unfold datetime_sub, new_timedelta. cbn [td_seconds td_days].
  Z.div_mod_to_equations. lia.
Qed.

(** [_fix] on a delta of less than 31 days leaves at most 30 days. *)
Lemma rd_fix_days_bound (years months seconds microseconds : Z) :
  - (31 * 86400) <= seconds < 31 * 86400 ->
  0 <= microseconds <= 999999 ->
  -31 <= rd_days (rd_fix years months seconds microseconds) <= 30.
Proof.
  intros Hs Hu. unfold rd_fix, carry, sign.
  case_bools; cbv beta iota zeta; case_bools; cbv beta iota zeta;
    case_bools; cbv beta iota zeta; case_bools; cbv beta iota zeta;
    case_bools; cbv beta iota zeta; cbn [rd_days];
    Z.div_mod_to_equations; lia.
Qed.

Lemma rd_fix_days_floor (years months seconds microseconds : Z) :
  0 <= seconds -> 0 <= microseconds <= 999999 ->
  rd_days (rd_fix years months seconds microseconds) = seconds / 86400.
Proof.
  intros Hs Hu. unfold rd_fix, carry, sign.
  case_bools; cbv beta iota zeta; case_bools; cbv beta iota zeta;
    case_bools; cbv beta iota zeta; case_bools; cbv beta iota zeta;
    case_bools; cbv beta iota zeta; cbn [rd_days];
    Z.div_mod_to_equations; lia.
Qed.

Lemma shift_months_anchor (n : Z) (dt : datetime) :
  1 <= month dt <= 12 ->
  12 <= month_number dt + n <= 12 * 9999 + 11 ->
  shift_months (set_months n) dt = Ok (month_anchor dt (month_number dt + n)).
Proof. intros Hm Ht. now apply shift_months_spec. Qed.

(** The month-adjustment loop stops after at most one turn, on the
    anchor [settled_months] names. *)
Lemma month_adjust_settles (dt1 dt2 : datetime) (fuel : nat) :
  valid_datetime dt1 = true -> valid_datetime dt2 = true ->
  month_adjust (S fuel) dt1 dt2 (datetime_ltb dt1 dt2)
    ((year dt1 - year dt2) * 12 + (month dt1 - month dt2))
    (month_anchor dt2 (month_number dt1))
  = Some (Ok (settled_months dt1 dt2)).
Proof.
  intros Hv1 Hv2.
  pose proof (valid_datetime_bounds _ Hv1) as B1.
  pose proof (valid_datetime_bounds _ Hv2) as B2.
  unfold settled_months.
  set (n0 := (year dt1 - year dt2) * 12 + (month dt1 - month dt2)).
  set (dtm0 := month_anchor dt2 (month_number dt1)).
  assert (Hy0 : year dtm0 = year dt1)
    by (unfold dtm0, month_anchor, month_number; cbn [year];
        Z.div_mod_to_equations; lia).
  assert (Hm0 : month dtm0 = month dt1)
    by (unfold dtm0, month_anchor, month_number; cbn [month];
        Z.div_mod_to_equations; lia).
  assert (Hsame : n0 = 0 -> dtm0 = dt2).
  { intro H0. unfold dtm0, month_anchor.
    replace (month_number dt1 / 12) with (year dt2)
      by (unfold month_number; subst n0; Z.div_mod_to_equations; lia).
    replace (month_number dt1 mod 12 + 1) with (month dt2)
      by (unfold month_number; subst n0; Z.div_mod_to_equations; lia).
    rewrite Z.min_r by lia. now destruct dt2. }
  assert (Hnum : month_number dt2 + n0 = month_number dt1)
    by (unfold month_number; subst n0; lia).
  destruct (datetime_ltb dt1 dt2) eqn:Back; cbn [month_adjust].
  - destruct (datetime_ltb dtm0 dt1) eqn:Cmp; [| reflexivity].
    assert (Hle : n0 <= 0).
    { destruct (Z.le_gt_cases n0 0) as [| Hgt]; [assumption |].
      assert (X : datetime_ltb dt1 dt2 = false)
        by (apply datetime_ltb_month; subst n0; lia).
      congruence. }
    assert (Hne : n0 <> 0).
    { intro H0. rewrite (Hsame H0) in Cmp.
      rewrite (datetime_ltb_asym _ _ Back) in Cmp. discriminate. }
    rewrite shift_months_anchor by (unfold month_number in *; lia).
    replace (month_number dt2 + (n0 + 1)) with (month_number dt1 + 1) by lia.
    assert (Hexit : datetime_ltb (month_anchor dt2 (month_number dt1 + 1)) dt1
                    = false).
    { apply datetime_ltb_month; unfold month_anchor, month_number;
        cbn [year month]; [lia | |]; Z.div_mod_to_equations; lia. }
    destruct fuel; cbn [month_adjust]; rewrite Hexit; reflexivity.
  - destruct (datetime_ltb dt1 dtm0) eqn:Cmp; [| reflexivity].
    assert (Hge : 0 <= n0).
    { destruct (Z.le_gt_cases 0 n0) as [| Hlt]; [assumption |].
      assert (X : datetime_ltb dt1 dt2 = true)
        by (apply datetime_ltb_month_true; subst n0; lia).
      congruence. }
    assert (Hne : n0 <> 0).
    { intro H0. rewrite (Hsame H0) in Cmp. congruence. }
    rewrite shift_months_anchor by (unfold month_number in *; lia).
    replace (month_number dt2 + (n0 + -1)) with (month_number dt1 + -1) by lia.
    assert (Hexit : datetime_ltb dt1 (month_anchor dt2 (month_number dt1 + -1))
                    = false).
    { apply datetime_ltb_month; unfold month_anchor, month_number;
        cbn [year month]; [| lia |]; Z.div_mod_to_equations; lia. }
    destruct fuel; cbn [month_adjust]; rewrite Hexit; reflexivity.
Qed.

(** What [relativedelta(dt1, dt2)] is on two datetimes. *)
Lemma relativedelta_settled (dt1 dt2 : datetime) :
  valid_datetime dt1 = true -> valid_datetime dt2 = true ->
  relativedelta dt1 dt2 =
    Ok (let (n, dtm) := settled_months dt1 dt2 in
        let delta := datetime_sub dt1 dtm in
        let (years, months) := set_months n in
        rd_fix years months
          (td_seconds delta + td_days delta * 86400) (td_microseconds delta)).
Proof.
  intros Hv1 Hv2.
  pose proof (valid_datetime_bounds _ Hv1) as B1.
  pose proof (valid_datetime_bounds _ Hv2) as B2.
  unfold relativedelta, relativedelta_fuel.
  rewrite shift_months_anchor by (unfold month_number; lia).
  replace (month_number dt2 +
           ((year dt1 - year dt2) * 12 + (month dt1 - month dt2)))
    with (month_number dt1) by (unfold month_number; lia).
  rewrite (month_adjust_settles dt1 dt2 1 Hv1 Hv2).
  destruct (settled_months dt1 dt2) as [n dtm].
  destruct (set_months n). reflexivity.
Qed.

Lemma month_anchor_same_month (dt1 dt2 : datetime) :
  1 <= month dt1 <= 12 ->
  year (month_anchor dt2 (month_number dt1)) = year dt1 /\
  month (month_anchor dt2 (month_number dt1)) = month dt1 /\
  day (month_anchor dt2 (month_number dt1))
    = Z.min (days_in_month (year dt1) (month dt1)) (day dt2).
Proof.
  intro Hm. unfold month_anchor, month_number. cbn [year month day].
  replace ((12 * year dt1 + (month dt1 - 1)) / 12) with (year dt1)
    by (Z.div_mod_to_equations; lia).
  replace ((12 * year dt1 + (month dt1 - 1)) mod 12 + 1) with (month dt1)
    by (Z.div_mod_to_equations; lia).
  auto.
Qed.

Lemma month_start_anchor_next (dt1 : datetime) :
  1 <= month dt1 <= 12 ->
  month_start ((month_number dt1 + 1) / 12) ((month_number dt1 + 1) mod 12 + 1)
    = month_start (year dt1) (month dt1) + days_in_month (year dt1) (month dt1).
Proof. intro Hm. unfold month_number. now apply month_start_next. Qed.

Lemma month_start_anchor_previous (dt1 : datetime) :
  1 <= month dt1 <= 12 ->
  month_start (year dt1) (month dt1) =
    month_start ((month_number dt1 + -1) / 12) ((month_number dt1 + -1) mod 12 + 1)
    + days_in_month ((month_number dt1 + -1) / 12)
        ((month_number dt1 + -1) mod 12 + 1).
Proof.
  intro Hm.
  set (y' := (month_number dt1 + -1) / 12).
  set (m' := (month_number dt1 + -1) mod 12 + 1).
  assert (Hm' : 1 <= m' <= 12) by (subst m'; Z.div_mod_to_equations; lia).
  rewrite <- (month_start_next y' m' Hm').
  assert (Ht : 12 * y' + (m' - 1) + 1 = month_number dt1)
    by (subst y' m'; Z.div_mod_to_equations; lia).
  rewrite Ht. unfold month_number.
  replace ((12 * year dt1 + (month dt1 - 1)) / 12) with (year dt1)
    by (Z.div_mod_to_equations; lia).
  replace ((12 * year dt1 + (month dt1 - 1)) mod 12 + 1) with (month dt1)
    by (Z.div_mod_to_equations; lia).
  reflexivity.
Qed.

(** The anchor is less than 31 days away from [dt1]. *)
Lemma settled_seconds_bound (dt1 dt2 : datetime) :
  valid_datetime dt1 = true -> valid_datetime dt2 = true ->
  let delta := datetime_sub dt1 (snd (settled_months dt1 dt2)) in
  - (31 * 86400) <= td_seconds delta + td_days delta * 86400 < 31 * 86400.
Proof.
  intros Hv1 Hv2.
  pose proof (valid_datetime_bounds _ Hv1) as B1.
  pose proof (valid_datetime_bounds _ Hv2) as B2.
  destruct B1 as (By1 & Bm1 & Bd1 & Bh1 & Bmi1 & Bs1 & Bu1).
  destruct B2 as (By2 & Bm2 & Bd2 & Bh2 & Bmi2 & Bs2 & Bu2).
  destruct (month_anchor_same_month dt1 dt2 Bm1) as (Hy0 & Hm0 & Hd0).
  pose proof (days_in_month_bounds (year dt1) (month dt1)) as Bdim1.
  cbv zeta. rewrite timedelta_total_seconds.
  unfold settled_months.
  set (dtm0 := month_anchor dt2 (month_number dt1)) in *.
  assert (Hkey : (month_key dt1 <? month_key dtm0) = datetime_ltb dt1 dtm0)
    by (symmetry; apply datetime_ltb_same_month; auto).
  assert (Hkey' : (month_key dtm0 <? month_key dt1) = datetime_ltb dtm0 dt1)
    by (symmetry; apply datetime_ltb_same_month; auto).
  assert (Hk0 : month_key dtm0 =
                (Z.min (days_in_month (year dt1) (month dt1)) (day dt2) * 86400
                 + day_seconds dt2) * 1000000 + microsecond dt2)
    by (unfold month_key; rewrite Hd0; reflexivity).
  assert (Hsame : epoch_seconds dt1 - epoch_seconds dtm0 =
                  (day dt1 - Z.min (days_in_month (year dt1) (month dt1)) (day dt2))
                  * 86400 + day_seconds dt1 - day_seconds dt2).
  { unfold epoch_seconds. rewrite !toordinal_month_start, Hy0, Hm0, Hd0.
    change (day_seconds dtm0) with (day_seconds dt2). lia. }
  assert (Hs1 : 0 <= day_seconds dt1 <= 86399) by (unfold day_seconds; lia).
  assert (Hs2 : 0 <= day_seconds dt2 <= 86399) by (unfold day_seconds; lia).
  destruct (datetime_ltb dt1 dt2).
  - destruct (datetime_ltb dtm0 dt1) eqn:Cmp; cbn [snd].
    + (* one month forward *)
      clear Cmp. rename Hkey' into Cmp.
      apply Z.ltb_lt in Cmp. rewrite Hk0 in Cmp. unfold month_key in Cmp.
      set (y' := (month_number dt1 + 1) / 12) in *.
      set (m' := (month_number dt1 + 1) mod 12 + 1) in *.
      pose proof (days_in_month_bounds y' m') as Bdim'.
      pose proof (month_start_anchor_next dt1 Bm1) as Hnext.
      fold y' m' in Hnext.
      unfold epoch_seconds. rewrite !toordinal_month_start.
      unfold month_anchor. cbn [year month day microsecond].
      fold y' m'. rewrite Hnext.
      change (day_seconds (mkDatetime y' m' (Z.min (days_in_month y' m') (day dt2))
                             (hour dt2) (minute dt2) (second dt2)
                             (microsecond dt2)))
        with (day_seconds dt2).
      Z.div_mod_to_equations. lia.
    + rewrite Hsame. change (microsecond dtm0) with (microsecond dt2).
      Z.div_mod_to_equations. lia.
  - destruct (datetime_ltb dt1 dtm0) eqn:Cmp; cbn [snd].
    + (* one month back *)
      clear Cmp. rename Hkey into Cmp.
      apply Z.ltb_lt in Cmp. rewrite Hk0 in Cmp. unfold month_key in Cmp.
      pose proof (month_start_anchor_previous dt1 Bm1) as Hprev.
      set (y' := (month_number dt1 + -1) / 12) in *.
      set (m' := (month_number dt1 + -1) mod 12 + 1) in *.
      pose proof (days_in_month_bounds y' m') as Bdim'.
      unfold epoch_seconds. rewrite !toordinal_month_start.
      unfold month_anchor. cbn [year month day microsecond].
      fold y' m'. rewrite Hprev.
      change (day_seconds (mkDatetime y' m' (Z.min (days_in_month y' m') (day dt2))
                             (hour dt2) (minute dt2) (second dt2)
                             (microsecond dt2)))
        with (day_seconds dt2).
      Z.div_mod_to_equations. lia.
    + rewrite Hsame. change (microsecond dtm0) with (microsecond dt2).
      Z.div_mod_to_equations. lia.
Qed.

Lemma month_anchor_self (dt : datetime) :
  valid_datetime dt = true -> month_anchor dt (month_number dt) = dt.
Proof.
  intro Hv. apply valid_datetime_bounds in Hv.
  destruct (month_anchor_same_month dt dt) as (Hy & Hm & Hd); [lia |].
  unfold month_anchor in *. cbn [year month day] in *.
  rewrite Hy, Hm. rewrite Z.min_r by lia. now destruct dt.
Qed.

Lemma relativedelta_days_bound (dt1 dt2 : datetime) (rd : relativedelta_t) :
  valid_datetime dt1 = true -> valid_datetime dt2 = true ->
  relativedelta dt1 dt2 = Ok rd -> -31 <= rd_days rd <= 30.
Proof.
  intros Hv1 Hv2 H. rewrite (relativedelta_settled dt1 dt2 Hv1 Hv2) in H.
  injection H as <-.
  pose proof (settled_seconds_bound dt1 dt2 Hv1 Hv2) as Hb. cbv zeta in Hb.
  destruct (settled_months dt1 dt2) as [n dtm]. cbn [snd] in Hb.
  destruct (set_months n) as [years months].
  apply rd_fix_days_bound; [exact Hb | apply timedelta_microseconds_range].
Qed.

Section ElapsedDays.

Variable strptime : string -> option datetime.

Hypothesis strptime_valid :
  forall s d, strptime s = Some d -> valid_datetime d = true.

Lemma elapsed_days_bound (now : datetime) (v : json) (days : Z) :
  valid_datetime now = true ->
  elapsed_days strptime now v = Ok days -> -31 <= days <= 30.
Proof.
  intros Hn H.
  destruct (elapsed_days_Ok strptime now v days H)
    as [[_ ->] | (_ & dt & rd & Hp & Hrd & ->)]; [lia |].
  apply (relativedelta_days_bound now dt rd Hn); [| exact Hrd].
  exact (py_strptime_valid strptime strptime_valid v dt Hp).
Qed.

(** X13: the elapsed days the correlator records never exceed 30: every
    reported entry carries between 1 and 30 days, however long ago the
    issue was assigned. *)
Theorem X13_reported_days_between_1_and_30 (w : World)
  (issues_url pull_requests_url : string) (result : list json) (entry : json) :
  (forall k, valid_datetime (now w k) = true) ->
  get_issues_without_pull_requests strptime w issues_url pull_requests_url
    = Ok result ->
  In entry result ->
  1 <= issue_days entry <= 30.
Proof.
  intros Hnow H Hin.
  destruct (get_issues_without_pull_requests_Ok _ _ _ _ _ H)
    as (fetched & issues & prs & _ & Ha & _ & ->).
  apply filter_In in Hin. destruct Hin as [Hin Hnc].
  unfold non_compliant in Hnc. apply andb_true_iff in Hnc.
  destruct Hnc as [Hlate _]. apply Z.leb_le in Hlate.
  split; [exact Hlate |].
  destruct (annotated_from_In strptime w fetched issues 0 entry Ha Hin)
    as (i & issue & _ & _ & Hann).
  destruct (annotate_issue_Ok _ _ _ _ _ Hann)
    as (d & info & days & _ & _ & He & ->).
  rewrite annotated_issue_days.
  now apply (elapsed_days_bound (now w (0 + i)) (assigned_at_of info) days).
Qed.

(** X14: while the clock reads less than one calendar month after the
    assignment (and not before it), the elapsed days the correlator
    computes are the whole days between the two instants. *)
Theorem X14_elapsed_days_within_a_month (now dt : datetime) (assigned_at : json) :
  valid_datetime now = true ->
  truthy assigned_at = true ->
  py_strptime strptime assigned_at = Ok dt ->
  datetime_ltb now dt = false ->
  datetime_ltb now (month_anchor dt (month_number dt + 1)) = true ->
  elapsed_days strptime now assigned_at = Ok (whole_days_between now dt).
Proof.
  intros Hvn Ht Hp Hnot Hbefore.
  pose proof (py_strptime_valid strptime strptime_valid _ _ Hp) as Hvd.
  pose proof (valid_datetime_bounds _ Hvn) as B1.
  pose proof (valid_datetime_bounds _ Hvd) as B2.
  destruct B1 as (By1 & Bm1 & Bd1 & Bh1 & Bmi1 & Bs1 & Bu1).
  destruct B2 as (By2 & Bm2 & Bd2 & Bh2 & Bmi2 & Bs2 & Bu2).
  assert (Hlo : month_number dt <= month_number now).
  { destruct (Z.le_gt_cases (month_number dt) (month_number now)) as [| Hgt];
      [assumption |].
    rewrite (datetime_ltb_month_true now dt) in Hnot
      by (unfold month_number in *; lia).
    discriminate. }
  assert (Hhi : month_number now <= month_number dt + 1).
  { destruct (Z.le_gt_cases (month_number now) (month_number dt + 1))
      as [| Hgt]; [assumption |].
    rewrite (datetime_ltb_month (month_anchor dt (month_number dt + 1)) now)
      in Hbefore; [discriminate | | lia |];
      unfold month_anchor, month_number in *; cbn [year month];
      Z.div_mod_to_equations; lia. }
  assert (Hsettled : settled_months now dt = (0, dt)).
  { unfold settled_months. rewrite Hnot.
    destruct (Z.eq_dec (month_number now) (month_number dt)) as [Heq | Hne].
    - rewrite Heq, (month_anchor_self dt Hvd), Hnot.
      f_equal. unfold month_number in Heq. lia.
    - replace (month_number now) with (month_number dt + 1) by lia.
      rewrite Hbefore.
      replace (month_number dt + 1 + -1) with (month_number dt) by lia.
      rewrite (month_anchor_self dt Hvd). f_equal.
      unfold month_number in *. lia. }
  assert (Hnonneg : 0 <= epoch_seconds now - epoch_seconds dt
                         + (microsecond now - microsecond dt) / 1000000).
  { assert (Hs1 : 0 <= day_seconds now <= 86399) by (unfold day_seconds; lia).
    assert (Hs2 : 0 <= day_seconds dt <= 86399) by (unfold day_seconds; lia).
    unfold epoch_seconds. rewrite !toordinal_month_start.
    destruct (Z.eq_dec (month_number now) (month_number dt)) as [Heq | Hne].
    - assert (year now = year dt /\ month now = month dt) as [Hy Hm]
        by (unfold month_number in Heq; lia).
      rewrite (datetime_ltb_same_month now dt Hy Hm) in Hnot by assumption.
      apply Z.ltb_ge in Hnot. unfold month_key in Hnot. rewrite Hy, Hm.
      Z.div_mod_to_equations. lia.
    - pose proof (month_start_next (year dt) (month dt) Bm2) as Hnext.
      assert (Hnum : 12 * year dt + (month dt - 1) + 1 = month_number now)
        by (unfold month_number in *; lia).
      rewrite Hnum in Hnext. unfold month_number in Hnext.
      replace ((12 * year now + (month now - 1)) / 12) with (year now) in Hnext
        by (Z.div_mod_to_equations; lia).
      replace ((12 * year now + (month now - 1)) mod 12 + 1) with (month now)
        in Hnext by (Z.div_mod_to_equations; lia).
      rewrite Hnext.
      pose proof (days_in_month_bounds (year dt) (month dt)).
      Z.div_mod_to_equations. lia. }
  unfold elapsed_days. rewrite Ht, Hp. cbn [bind].
  rewrite (relativedelta_settled now dt Hvn Hvd), Hsettled. cbn [bind].
  change (set_months 0) with (0, 0).
  set (delta := datetime_sub now dt).
  assert (Hdays : rd_days (rd_fix 0 0 (td_seconds delta + td_days delta * 86400)
                             (td_microseconds delta))
                  = whole_days_between now dt).
  { rewrite rd_fix_days_floor.
    - unfold whole_days_between. fold delta. symmetry.
      apply timedelta_days_floor.
    - unfold delta. rewrite timedelta_total_seconds. exact Hnonneg.
    - apply timedelta_microseconds_range. }
  destruct (rd_bool _) eqn:Hb.
  - now rewrite Hdays.
  - apply rd_bool_false_days in Hb. rewrite <- Hdays, Hb. reflexivity.
Qed.

End ElapsedDays.

(** ** Deadline arithmetic, continued *)

Lemma timedelta_seconds_range (a b : datetime) :
  0 <= td_seconds (datetime_sub a b) <= 86399.
Proof.
  unfold datetime_sub, new_timedelta. cbn [td_seconds].
  Z.div_mod_to_equations. lia.
Qed.

Section DeadlineAnswers.

Variable strptime : string -> option datetime.

Hypothesis strptime_valid :
  forall s d, strptime s = Some d -> valid_datetime d = true.

(** The three ways [get_time_before_deadline] returns. *)
Lemma get_time_before_deadline_Ok (w : World) (utcnow : datetime)
  (issue issue' : json) (msg : string) :
  get_time_before_deadline strptime w utcnow issue = Ok (issue', msg) ->
  (issue' = issue /\ msg = "This issue is not assigned.") \/
  (issue' = issue /\ msg = "No deadline set for this issue.") \/
  (exists d deadline assigned_time rd,
     issue = JDict d /\
     issue' = JDict (dict_set "assigned_days" (JInt (rd_days rd)) d) /\
     relativedelta utcnow assigned_time = Ok rd /\
     valid_datetime assigned_time = true /\
     msg = time_left_message (datetime_sub deadline utcnow)).
Proof.
  unfold get_time_before_deadline. intro H. inv_bind H. inv_bind H.
  rename a into info, a0 into assigned_at.
  destruct (truthy assigned_at) eqn:Ht; cbn [negb] in H.
  - inv_bind H. rename a into deadline_str.
    destruct (truthy deadline_str) eqn:Htd; cbn [negb] in H.
    + inv_bind H. rename a into deadline. inv_bind H. rename a into written.
      rename E3 into Hw. injection H as <- <-. right. right.
      inv_bind Hw. rename a into assigned_time. inv_bind Hw. rename a into rd.
      destruct issue as [| | | | | d]; try discriminate.
      injection Hw as <-.
      exists d, deadline, assigned_time, rd. repeat split; try assumption.
      eapply (py_strptime_valid strptime strptime_valid); eassumption.
    + injection H as <- <-. right. left. split; reflexivity.
  - injection H as <- <-. left. split; reflexivity.
Qed.

(** X15: when the events request of an issue fails in transport, or is
    answered with a timeline of objects none of which is an assigned
    event, [get_time_before_deadline] answers "This issue is not
    assigned." and leaves the issue as it was, whatever its deadline. *)
Theorem X15_no_assignment_no_deadline_report (w : World) (utcnow : datetime)
  (issue : json) (url : string) :
  py_get issue "events_url" (JStr EmptyString) = Ok (JStr url) ->
  transport_failure (http_get w url []) = true \/
  (exists events,
     answered_with (http_get w url []) events /\
     forallb is_object events = true /\
     existsb is_assigned_event events = false) ->
  get_time_before_deadline strptime w utcnow issue =
    Ok (issue, "This issue is not assigned.").
Proof.
  intros Hurl Hcase.
  assert (Hc : check_issue_assignment_events w issue = Ok []).
  { unfold check_issue_assignment_events. rewrite Hurl. cbn [bind].
    destruct Hcase as [Hf | (events & Hans & Hobj & Hnone)].
    - destruct (transport_failure_raises w url [] reconstruct_assignment Hf)
        as [e ->]. reflexivity.
    - rewrite (answered_with_fetch w url [] events _ Hans).
      unfold reconstruct_assignment. cbn [py_iter bind].
      rewrite assignment_loop_last; [| now left |].
      + apply last_assigned_existsb in Hnone. now rewrite Hnone.
      + rewrite forallb_forall in *. intros e He. unfold event_well_shaped.
        rewrite (Hobj e He). cbn [andb].
        assert (Hne : is_assigned_event e = false).
        { destruct (is_assigned_event e) eqn:Ha; [| reflexivity].
          assert (existsb is_assigned_event events = true)
            by (apply existsb_exists; eauto).
          congruence. }
        now rewrite Hne. }
  unfold get_time_before_deadline. rewrite Hc. reflexivity.
Qed.

(** X16: whatever [get_time_before_deadline] answers is one of five
    texts: not assigned, no deadline, a positive number of days
    remaining, hours (0 to 23) and minutes (0 to 59) remaining, or
    deadline passed. *)
Theorem X16_deadline_answers (w : World) (utcnow : datetime)
  (issue issue' : json) (msg : string) :
  get_time_before_deadline strptime w utcnow issue = Ok (issue', msg) ->
  msg = "This issue is not assigned." \/
  msg = "No deadline set for this issue." \/
  (exists n, 1 <= n /\ msg = string_of_Z n ++ " days remaining") \/
  (exists h m, 0 <= h <= 23 /\ 0 <= m <= 59 /\
               msg = string_of_Z h ++ " hours " ++ string_of_Z m
                     ++ " minutes remaining") \/
  msg = "Deadline has passed.".
Proof.
  intro H. destruct (get_time_before_deadline_Ok _ _ _ _ _ H)
    as [[_ ->] | [[_ ->] | (d & deadline & t & rd & _ & _ & _ & _ & ->)]];
    [now left | now right; left |].
  right. right. unfold time_left_message.
  pose proof (timedelta_seconds_range deadline utcnow) as Hs.
  destruct (Z.ltb_spec 0 (td_days (datetime_sub deadline utcnow))).
  - left. exists (td_days (datetime_sub deadline utcnow)). split; [lia | reflexivity].
  - destruct (Z.ltb_spec 0 (td_seconds (datetime_sub deadline utcnow)));
      [| now right; right].
    right. left.
    exists (td_seconds (datetime_sub deadline utcnow) / 3600),
      (td_seconds (datetime_sub deadline utcnow) mod 3600 / 60).
    repeat split; try reflexivity; Z.div_mod_to_equations; lia.
Qed.

(** X17: [get_time_before_deadline] writes to the issue at most the key
    "assigned_days", with a value between -31 and 30; every other field
    is as it was. *)
Theorem X17_only_assigned_days_is_written (w : World) (utcnow : datetime)
  (issue issue' : json) (msg : string) :
  valid_datetime utcnow = true ->
  get_time_before_deadline strptime w utcnow issue = Ok (issue', msg) ->
  (forall k, k <> "assigned_days" -> lookup issue' k = lookup issue k) /\
  (issue' = issue \/
   exists days, -31 <= days <= 30 /\
                lookup issue' "assigned_days" = Some (JInt days)).
Proof.
  intros Hnow H. destruct (get_time_before_deadline_Ok _ _ _ _ _ H)
    as [[-> _] | [[-> _] | (d & deadline & t & rd & -> & -> & Hrd & Hvt & _)]];
    [split; auto | split; auto |].
  split.
  - intros k Hk. unfold lookup. now apply dict_get_set_other.
  - right. exists (rd_days rd). split.
    + exact (relativedelta_days_bound utcnow t rd Hnow Hvt Hrd).
    + unfold lookup. apply dict_get_set_same.
Qed.

End DeadlineAnswers.

(** ** Review listing *)

Lemma kbind_KOk {A B : Type} (r : kresult A) (k : A -> kresult B) (b : B) :
  kbind r k = KOk b -> exists a, r = KOk a /\ k a = KOk b.
Proof.
  destruct r as [a | e |]; simpl; intro H; try discriminate. eauto.
Qed.

Ltac inv_kbind H :=
  let a := fresh "a" in
  let E := fresh "E" in
  apply kbind_KOk in H; destruct H as (a & E & H).

Lemma lift_KOk {A : Type} (r : result A) (a : A) : lift r = KOk a -> r = Ok a.
Proof. destruct r; simpl; intro H; now inversion H. Qed.

Lemma return_data_shape_pull (name title : json) (return_data : dict) :
  return_data_shape name return_data ->
  return_data_shape name (dict_set "pull" title return_data) /\
  forall reviews,
    dict_set "reviews" reviews (dict_set "pull" title return_data) =
      [("repo", name); ("pull", title); ("reviews", reviews)].
Proof.
  intros [-> | [[t ->] | (t & r & ->)]]; split; try reflexivity; cbn.
  - right. left. eauto.
  - right. left. eauto.
  - right. right. eauto.
Qed.

Section ReviewFacts.

Variable pulls_url : json -> json -> string.
Variable pulls_reviews_url : json -> json -> json -> string.

Lemma reviews_of_pulls_entries (w : World) (repo name : json) (pulls : list json) :
  forall return_data entries entry,
    py_get repo "name" (JStr EmptyString) = Ok name ->
    return_data_shape name return_data ->
    reviews_of_pulls pulls_reviews_url w repo return_data pulls = KOk entries ->
    In entry entries ->
    exists pull, In pull pulls /\ review_entry_of pulls_reviews_url w repo pull entry.
Proof.
  induction pulls as [| pull rest IH]; intros rd entries entry Hname Hshape H Hin.
  - simpl in H. injection H as <-. contradiction.
  - cbn [reviews_of_pulls] in H. inv_kbind H. rename a into title.
    apply lift_KOk in E.
    inv_kbind H. rename a into owner. apply lift_KOk in E0.
    inv_kbind H. rename a into name'. apply lift_KOk in E1.
    inv_kbind H. rename a into number.
    inv_kbind H. rename a into reviews. apply lift_KOk in E3.
    destruct (return_data_shape_pull name title rd Hshape) as [Hshape' Hset].
    assert (name' = name) by congruence. subst name'.
    destruct (truthy reviews) eqn:Ht.
    + inv_kbind H. injection H as <-.
      destruct Hin as [<- | Hin].
      * exists pull. split; [now left |].
        exists owner, name, title, number, reviews.
        repeat split; try assumption. f_equal. apply Hset.
      * assert (Hshape3 : return_data_shape name
                            (dict_set "reviews" reviews (dict_set "pull" title rd)))
          by (right; right; exists title, reviews; apply Hset).
        destruct (IH _ _ _ Hname Hshape3 E4 Hin) as (p & Hp & He).
        exists p. split; [now right | exact He].
    + destruct (IH _ _ _ Hname Hshape' H Hin) as (p & Hp & He).
      exists p. split; [now right | exact He].
Qed.

(** X18: every entry [get_user_revisions] returns has exactly the keys
    "repo", "pull" and "reviews": the name of one of the repositories,
    the title of a pull request listed for it, and the non-empty reviews
    fetched for that very pull request. *)
Theorem X18_review_entries_pair_pull_and_reviews (w : World)
  (repos result : list json) (entry : json) :
  get_user_revisions pulls_url pulls_reviews_url w repos = KOk result ->
  In entry result ->
  exists repo pull,
    In repo repos /\ listed_pull pulls_url w repo pull /\
    review_entry_of pulls_reviews_url w repo pull entry.
Proof.
  revert result. induction repos as [| repo rest IH]; intros result H Hin.
  - simpl in H. injection H as <-. contradiction.
  - simpl in H. inv_kbind H. rename a into entries.
    inv_kbind H. rename a into others. injection H as <-.
    apply in_app_or in Hin. destruct Hin as [Hin | Hin].
    + unfold reviews_of_repo in E. inv_kbind E. rename a into owner.
      apply lift_KOk in E1. inv_kbind E. rename a into name.
      apply lift_KOk in E2. inv_kbind E. rename a into body.
      apply lift_KOk in E3. inv_kbind E. rename a into name'.
      apply lift_KOk in E4. inv_kbind E. rename a into pulls.
      apply lift_KOk in E5.
      destruct (reviews_of_pulls_entries w repo name' pulls _ _ _ E4
                  ltac:(now left) E Hin) as (pull & Hp & He).
      exists repo, pull. split; [now left | split; [| exact He]].
      exists owner, name, body, pulls. auto.
    + destruct (IH _ E0 Hin) as (r & p & Hr & Hl & He).
      exists r, p. split; [now right | auto].
Qed.

Lemma kbind_ret_app (r : kresult (list json)) :
  (others <-- r ;; KOk ([] ++ others)%list) = r.
Proof. now destruct r. Qed.

(** X19: a repository object whose pull-request listing fails in
    transport adds nothing to what [get_user_revisions] returns. *)
Theorem X19_failed_pull_listing_is_skipped (w : World) (repo : json)
  (rest : list json) (owner name : json) :
  py_get repo "author" (JStr EmptyString) = Ok owner ->
  py_get repo "name" (JStr EmptyString) = Ok name ->
  transport_failure (http_get w (pulls_url owner name) [("state", "open")]) = true ->
  get_user_revisions pulls_url pulls_reviews_url w (repo :: rest) =
  get_user_revisions pulls_url pulls_reviews_url w rest.
Proof.
  intros Ho Hn Hf. cbn [get_user_revisions]. unfold reviews_of_repo.
  rewrite Ho, Hn. cbn [lift kbind].
  rewrite get_all_open_pull_requests_unfold.
  destruct (transport_failure_raises w (pulls_url owner name)
              [("state", "open")] Ok Hf) as [e ->].
  cbn [except_RequestException lift kbind py_iter reviews_of_pulls].
  apply kbind_ret_app.
Qed.

Lemma get_pull_reviews_total (w : World) (url : string) :
  escapes (http_get w url []) = false ->
  exists reviews, get_pull_reviews w url = Ok reviews.
Proof. rewrite get_pull_reviews_unfold. apply pull_fetch_total. Qed.

Lemma kbind_not_KOk {A B : Type} (r : kresult A) (k : A -> kresult B) :
  (forall a, r = KOk a -> forall b, k a <> KOk b) ->
  forall b, kbind r k <> KOk b.
Proof.
  intros H b. destruct r as [a | e |]; cbn; try discriminate.
  now apply (H a).
Qed.

Lemma reviews_of_pulls_missing_number (w : World) (repo owner name : json)
  (return_data : dict) (before after : list json) (pull : json) :
  py_get repo "author" (JStr EmptyString) = Ok owner ->
  py_get repo "name" (JStr EmptyString) = Ok name ->
  forallb (fun p => is_object p &&
                    match lookup p "number" with Some _ => true | None => false end)
    before = true ->
  is_object pull = true ->
  lookup pull "number" = None ->
  (forall entries,
     reviews_of_pulls pulls_reviews_url w repo return_data
       (before ++ pull :: after)%list <> KOk entries) /\
  ((forall p number,
      In p before -> lookup p "number" = Some number ->
      escapes (http_get w (pulls_reviews_url owner name number) []) = false) ->
   reviews_of_pulls pulls_reviews_url w repo return_data
     (before ++ pull :: after)%list = KeyError).
Proof.
  intros Ho Hn Hbefore Hpull Hnone. revert return_data.
  induction before as [| p before IH]; intro rd.
  - destruct pull as [| | | | | d]; try discriminate. cbn in Hnone.
    cbn [app reviews_of_pulls]. rewrite Ho, Hn.
    cbn [py_get lift kbind].
    destruct (dict_get "title" d); cbn [lift kbind py_getitem];
      rewrite Hnone; split; try reflexivity; discriminate.
  - cbn [forallb] in Hbefore. apply andb_true_iff in Hbefore.
    destruct Hbefore as [Hp Hbefore]. apply andb_true_iff in Hp.
    destruct Hp as [Hobj Hnum]. destruct p as [| | | | | d]; try discriminate.
    cbn in Hnum. destruct (dict_get "number" d) as [number |] eqn:Hd;
      [| discriminate].
    change ((JDict d :: before) ++ pull :: after)%list
      with (JDict d :: (before ++ pull :: after))%list.
    cbn [reviews_of_pulls]. rewrite Ho, Hn.
    assert (Ht : exists title, py_get (JDict d) "title" (JStr EmptyString) = Ok title)
      by (cbn; destruct (dict_get "title" d); eauto).
    destruct Ht as [title ->].
    cbn [lift kbind py_getitem]. rewrite Hd. cbn [kbind].
    split.
    + intro entries.
      destruct (get_pull_reviews w (pulls_reviews_url owner name number))
        as [reviews | e]; cbn [lift kbind]; [| discriminate].
      destruct (truthy reviews).
      * apply kbind_not_KOk. intros a Ha. exfalso.
        exact (proj1 (IH Hbefore _) a Ha).
      * apply (proj1 (IH Hbefore _)).
    + intro Hdel.
      destruct (get_pull_reviews_total w (pulls_reviews_url owner name number))
        as [reviews ->].
      { apply (Hdel (JDict d)); [now left | exact Hd]. }
      assert (Hdel' : forall p number,
                 In p before -> lookup p "number" = Some number ->
                 escapes (http_get w (pulls_reviews_url owner name number) [])
                   = false)
        by (intros p k' Hin; apply Hdel; now right).
      cbn [lift kbind]. destruct (truthy reviews);
        rewrite (proj2 (IH Hbefore _) Hdel'); reflexivity.
Qed.

(** X20: a listed pull-request object without the key "number", when the
    pulls listed before it are objects that have one, keeps
    [get_user_revisions] from returning: the entries gathered so far are
    lost.  It raises [KeyError], unless the reviews request of an
    earlier pull has raised an exception that is no [RequestException]
    first. *)
Theorem X20_pull_without_number_raises_KeyError (w : World) (repo : json)
  (rest : list json) (owner name : json) (before after : list json)
  (pull : json) :
  py_get repo "author" (JStr EmptyString) = Ok owner ->
  py_get repo "name" (JStr EmptyString) = Ok name ->
  answered_with (http_get w (pulls_url owner name) [("state", "open")])
    (before ++ pull :: after)%list ->
  forallb (fun p => is_object p &&
                    match lookup p "number" with Some _ => true | None => false end)
    before = true ->
  is_object pull = true ->
  lookup pull "number" = None ->
  (forall result,
     get_user_revisions pulls_url pulls_reviews_url w (repo :: rest)
       <> KOk result) /\
  ((forall p number,
      In p before -> lookup p "number" = Some number ->
      escapes (http_get w (pulls_reviews_url owner name number) []) = false) ->
   get_user_revisions pulls_url pulls_reviews_url w (repo :: rest) = KeyError).
Proof.
  intros Ho Hn Hans Hbefore Hpull Hnone.
  cbn [get_user_revisions]. unfold reviews_of_repo.
  rewrite Ho, Hn. cbn [lift kbind].
  rewrite get_all_open_pull_requests_unfold.
  rewrite (answered_with_fetch w _ _ _ Ok Hans).
  cbn [except_RequestException lift kbind py_iter].
  destruct (reviews_of_pulls_missing_number w repo owner name [("repo", name)]
              before after pull Ho Hn Hbefore Hpull Hnone) as [Hno Hkey].
  split.
  - intro result. apply kbind_not_KOk. intros a Ha. exfalso. exact (Hno a Ha).
  - intro Hdel. now rewrite (Hkey Hdel).
Qed.

End ReviewFacts.

(** ** The missed-deadlines handler *)

Lemma failed_issues_fetch_empty (strptime : string -> option datetime)
  (w : World) (issues_url pull_requests_url : string) :
  transport_failure (http_get w issues_url []) = true ->
  answer_ok pull_requests_ok (http_get w pull_requests_url [("state", "open")]) ->
  get_issues_without_pull_requests strptime w issues_url pull_requests_url
    = Ok [].
Proof.
  intros Hf Hpulls.
  destruct (pull_requests_answer_total w pull_requests_url Hpulls)
    as (prs & users & Hprs & Husers).
  unfold get_issues_without_pull_requests, get_all_open_and_assigned_issues.
  destruct (transport_failure_raises w issues_url []
              (fun issues => items <- py_iter issues ;;
                             filterM is_open_and_assigned items) Hf) as [e ->].
  cbn [except_RequestException bind annotate_loop].
  destruct (get_all_open_pull_requests w pull_requests_url) as [body | e'];
    [| discriminate].
  cbn [bind] in *. rewrite Hprs. cbn [bind]. rewrite Husers. reflexivity.
Qed.

Lemma string_append_nil_r (a : string) : a ++ EmptyString = a.
Proof. induction a as [| c a IH]; cbn; [reflexivity | now rewrite IH]. Qed.

Section HandlerFacts.

Variable strptime : string -> option datetime.
Variable issues_url : json -> json -> string.
Variable pulls_url : json -> json -> string.
Variable py_str : json -> string.

(** X21: the handler stops at the first repository whose correlation or
    rendering raises: the repositories before it have got their text, in
    order, and the repositories after it get none. *)
Theorem X21_first_failure_stops_the_handler (w : World)
  (before after : list json) (failing : json) (e : exn) :
  Forall (fun r => exists text, repository_message strptime issues_url pulls_url py_str w r = KOk text) before ->
  repository_message strptime issues_url pulls_url py_str w failing = KRaise e ->
  exists sent,
    send_deprecated_issue_assignees strptime issues_url pulls_url py_str w (before ++ failing :: after)%list = (sent, KRaise e) /\
    Forall2 (fun r text => repository_message strptime issues_url pulls_url py_str w r = KOk text) before sent.
Proof.
  intros Hbefore Hfail.
  induction Hbefore as [| r before [text Hr] _ (sent & IH & Hsent)].
  - exists []. cbn [app send_deprecated_issue_assignees]. rewrite Hfail.
    split; [reflexivity | constructor].
  - exists (text :: sent).
    change ((r :: before) ++ failing :: after)%list
      with (r :: (before ++ failing :: after))%list.
    cbn [send_deprecated_issue_assignees]. rewrite Hr, IH.
    split; [reflexivity | now constructor].
Qed.

(** X22: for a repository whose issues request fails in transport, while
    its pull-request request fails too or is answered with pull-request
    objects, the handler sends the header followed by "No missed
    deadlines.". *)
Theorem X22_failed_issues_fetch_reads_no_missed_deadlines (w : World)
  (repository author name : json) :
  py_get repository "author" (JStr EmptyString) = Ok author ->
  py_get repository "name" (JStr EmptyString) = Ok name ->
  transport_failure (http_get w (issues_url author name) []) = true ->
  answer_ok pull_requests_ok
    (http_get w (pulls_url author name) [("state", "open")]) ->
  repository_message strptime issues_url pulls_url py_str w repository =
    KOk ("<blockquote>"
         ++ (repository_header py_str author name ++ "No missed deadlines.")
         ++ "</blockquote>").
Proof.
  intros Ha Hn Hf Hpulls. unfold repository_message.
  rewrite Ha, Hn. cbn [lift kbind].
  rewrite (failed_issues_fetch_empty strptime w _ _ Hf Hpulls).
  cbn [lift kbind issue_blocks]. now rewrite string_append_nil_r.
Qed.

(** X23: the handler never sends more texts than there are
    repositories, and it has sent one for each exactly when it ends
    without raising. *)
Theorem X23_all_repositories_answered_iff_completed (w : World)
  (repositories : list json) :
  (List.length (fst (send_deprecated_issue_assignees strptime issues_url pulls_url py_str w repositories)) <= List.length repositories)%nat /\
  (snd (send_deprecated_issue_assignees strptime issues_url pulls_url py_str w repositories) = KOk tt <->
   List.length (fst (send_deprecated_issue_assignees strptime issues_url pulls_url py_str w repositories)) = List.length repositories).
Proof.
  induction repositories as [| r rest [IHle IHiff]].
  - cbn. split; [lia | tauto].
  - cbn [send_deprecated_issue_assignees].
    destruct (repository_message strptime issues_url pulls_url py_str w r) as [text | e |].
    + destruct (send_deprecated_issue_assignees strptime issues_url pulls_url py_str w rest) as [sent outcome]. cbn [fst snd List.length] in *.
      split; [lia |]. rewrite IHiff. split; lia.
    + cbn. split; [lia |]. split; intro H; discriminate.
    + cbn. split; [lia |]. split; intro H; discriminate.
Qed.

End HandlerFacts.

(** ** Link markup *)

Lemma string_length_append (a b : string) :
  String.length (a ++ b) = (String.length a + String.length b)%nat.
Proof. induction a as [| c a IH]; cbn; [reflexivity | now rewrite IH]. Qed.

Lemma string_append_inv_tail (a b s : string) : a ++ s = b ++ s -> a = b.
Proof.
  revert b. induction a as [| c a IH]; intros [| c' b] H; cbn in H.
  - reflexivity.
  - apply (f_equal String.length) in H. cbn in H.
    rewrite string_length_append in H. lia.
  - apply (f_equal String.length) in H. cbn in H.
    rewrite string_length_append in H. lia.
  - injection H as -> H. f_equal. now apply IH.
Qed.

Lemma split_at_first_quote (a b x y : string) :
  no_quote a = true -> no_quote b = true ->
  a ++ quote ++ x = b ++ quote ++ y -> a = b /\ x = y.
Proof.
  revert b. induction a as [| c a IH]; intros [| c' b] Ha Hb H; cbn in *.
  - injection H as H. auto.
  - injection H as Hc _. subst c'. rewrite Ascii.eqb_refl in Hb. discriminate.
  - injection H as Hc _. subst c. rewrite Ascii.eqb_refl in Ha. discriminate.
  - injection H as -> H. apply andb_true_iff in Ha, Hb.
    destruct (IH b (proj2 Ha) (proj2 Hb) H) as [-> ->]. auto.
Qed.

(** X24: the markup [attach_link_to_issue] builds determines the title
    and the link it was built from, as long as the links hold no double
    quote. *)
Theorem X24_link_markup_is_unambiguous (title1 link1 title2 link2 : string) :
  no_quote link1 = true -> no_quote link2 = true ->
  attach_link_to_issue title1 link1 = attach_link_to_issue title2 link2 ->
  title1 = title2 /\ link1 = link2.
Proof.
  intros H1 H2 H. unfold attach_link_to_issue in H.
  cbn [append] in H. repeat (injection H as H).
  apply (split_at_first_quote link1 link2 (">" ++ title1 ++ "</a>")
           (">" ++ title2 ++ "</a>") H1 H2) in H.
  destruct H as [-> H]. split; [| reflexivity].
  cbn [append] in H. injection H as H.
  now apply string_append_inv_tail in H.
Qed.

(** ** Instances of the further properties on the sample data *)

Lemma X1_mixed_world_instance :
  is_object (open_issue "Fix widget" "alice" events_endpoint) = true /\
  py_eq_str (field_of (open_issue "Fix widget" "alice" events_endpoint) "state") "open"
    = true /\
  truthy (field_of (open_issue "Fix widget" "alice" events_endpoint) "assignee") = true /\
  truthy (field_of (open_issue "Fix widget" "alice" events_endpoint) "draft") = false /\
  truthy (field_of (open_issue "Fix widget" "alice" events_endpoint) "pull_request")
    = false.
Proof.
  apply (X1_fetched_issues_are_open_and_assigned mixed_world issues_endpoint
           [open_issue "Fix widget" "alice" events_endpoint]).
  - vm_compute. reflexivity.
  - left. reflexivity.
Defined.

Lemma X2_mixed_world_instance :
  get_all_open_and_assigned_issues mixed_world issues_endpoint
    = Ok (filter open_and_assigned mixed_issues) /\
  get_all_available_issues mixed_world issues_endpoint
    = Ok (filter available mixed_issues).
Proof.
  apply (X2_issue_fetchers_filter_the_answer mixed_world issues_endpoint mixed_issues).
  - exists 200. split; reflexivity.
  - reflexivity.
Defined.

Lemma X3_broken_list_instance :
  get_all_open_and_assigned_issues broken_list_world issues_endpoint
    = Raise AttributeError /\
  get_all_available_issues broken_list_world issues_endpoint = Raise AttributeError.
Proof.
  apply (X3_non_object_item_raises broken_list_world issues_endpoint
           [open_issue "Fix widget" "alice" events_endpoint; JStr "oops"]).
  - exists 200. split; reflexivity.
  - reflexivity.
Defined.

Lemma X4_mixed_world_instance :
  is_object (JDict [("title", JStr "Free task"); ("state", JStr "open");
                    ("assignee", JNull)]) = true /\
  py_eq_str (field_of (JDict [("title", JStr "Free task"); ("state", JStr "open");
                              ("assignee", JNull)]) "state") "open" = true /\
  truthy (field_of (JDict [("title", JStr "Free task"); ("state", JStr "open");
                           ("assignee", JNull)]) "assignee") = false /\
  truthy (field_of (JDict [("title", JStr "Free task"); ("state", JStr "open");
                           ("assignee", JNull)]) "draft") = false /\
  truthy (field_of (JDict [("title", JStr "Free task"); ("state", JStr "open");
                           ("assignee", JNull)]) "pull_request") = false.
Proof.
  apply (X4_available_issues_are_open_and_free mixed_world issues_endpoint
           [JDict [("title", JStr "Free task"); ("state", JStr "open");
                   ("assignee", JNull)]]).
  - vm_compute. reflexivity.
  - left. reflexivity.
Defined.

Lemma X5_mixed_world_instance :
  exists assigned free,
    get_all_open_and_assigned_issues mixed_world issues_endpoint = Ok assigned /\
    get_all_available_issues mixed_world issues_endpoint = Ok free /\
    (forall x, In x assigned -> ~ In x free) /\
    (forall x, In x mixed_issues /\ open_issue_proper x = true <->
               In x assigned \/ In x free) /\
    (List.length assigned + List.length free)%nat
      = List.length (filter open_issue_proper mixed_issues).
Proof.
  apply (X5_assigned_and_available_partition mixed_world issues_endpoint mixed_issues).
  - exists 200. split; reflexivity.
  - reflexivity.
Defined.


Lemma X7_widget_world_instance :
  [("assignee", JStr "alice"); ("assigned_at", JStr "2024-03-12T09:00:00Z")] = [] \/
  exists login created_at,
    [("assignee", JStr "alice"); ("assigned_at", JStr "2024-03-12T09:00:00Z")]
      = [("assignee", login); ("assigned_at", created_at)].
Proof.
  apply (X7_assignment_record_is_empty_or_complete widget_world
           (open_issue "Fix widget" "alice" events_endpoint)).
  vm_compute. reflexivity.
Defined.

Lemma X8_reassignment_instance :
  reconstruct_assignment
    (JList ([assigned_event "bob" "2024-03-01T08:00:00Z"]
            ++ [assigned_event "alice" "2024-03-12T09:00:00Z";
                JDict [("event", JStr "mentioned")]])%list) =
    if existsb is_assigned_event
         [assigned_event "alice" "2024-03-12T09:00:00Z";
          JDict [("event", JStr "mentioned")]]
    then reconstruct_assignment
           (JList [assigned_event "alice" "2024-03-12T09:00:00Z";
                   JDict [("event", JStr "mentioned")]])
    else reconstruct_assignment
           (JList [assigned_event "bob" "2024-03-01T08:00:00Z"]).
Proof.
  apply (X8_later_events_decide
           [assigned_event "bob" "2024-03-01T08:00:00Z"]
           [assigned_event "alice" "2024-03-12T09:00:00Z";
            JDict [("event", JStr "mentioned")]]).
  reflexivity.
Defined.

Lemma X9_null_assignee_instance :
  reconstruct_assignment
    (JList [JDict [("event", JStr "assigned"); ("assignee", JNull)];
            assigned_event "alice" "2024-03-12T09:00:00Z"])
    = Raise AttributeError.
Proof.
  apply (X9_ill_shaped_event_raises
           [JDict [("event", JStr "assigned"); ("assignee", JNull)];
            assigned_event "alice" "2024-03-12T09:00:00Z"]).
  reflexivity.
Defined.

Lemma X10_outage_instance :
  get_issues_without_pull_requests strptime_iso outage_world issues_endpoint pulls_endpoint
    = Ok [].
Proof.
  apply (X10_failed_issues_fetch_gives_empty_result strptime_iso outage_world
           issues_endpoint pulls_endpoint).
  - reflexivity.
  - left. reflexivity.
Defined.

Lemma X11_outage_instance :
  annotate_issue strptime_iso outage_world 0
    (open_issue "Fix widget" "alice" events_endpoint)
  = Ok (annotated [("title", JStr "Fix widget"); ("state", JStr "open");
                   ("assignee", JDict [("login", JStr "alice")]);
                   ("events_url", JStr events_endpoint)] [] 0) /\
  forall issues_url pull_requests_url result,
    get_issues_without_pull_requests strptime_iso outage_world
      issues_url pull_requests_url = Ok result ->
    ~ In (annotated [("title", JStr "Fix widget"); ("state", JStr "open");
                     ("assignee", JDict [("login", JStr "alice")]);
                     ("events_url", JStr events_endpoint)] [] 0) result.
Proof.
  apply (X11_failed_events_fetch_hides_the_issue strptime_iso outage_world 0%nat
           [("title", JStr "Fix widget"); ("state", JStr "open");
            ("assignee", JDict [("login", JStr "alice")]);
            ("events_url", JStr events_endpoint)] events_endpoint).
  - reflexivity.
  - reflexivity.
Defined.

Lemma X12_widget_world_instance :
  py_eq_str (field_of widget_entry "state") "open" = true /\
  (exists a, lookup widget_entry "assignee" = Some (JDict a) /\ a <> []) /\
  truthy (field_of widget_entry "draft") = false /\
  truthy (field_of widget_entry "pull_request") = false /\
  1 <= issue_days widget_entry.
Proof.
  apply (X12_reported_entries_are_open_assigned_issues strptime_iso widget_world
           issues_endpoint pulls_endpoint [widget_entry]).
  - vm_compute. reflexivity.
  - left. reflexivity.
Defined.

Lemma X13_widget_world_instance : 1 <= issue_days widget_entry <= 30.
Proof.
  apply (X13_reported_days_between_1_and_30 strptime_iso strptime_iso_valid
           widget_world issues_endpoint pulls_endpoint [widget_entry]).
  - intro k. reflexivity.
  - vm_compute. reflexivity.
  - left. reflexivity.
Defined.

Lemma X14_across_february_instance :
  elapsed_days strptime_iso (at_time 2024 3 2 10 0 0) (JStr "2024-02-28T09:00:00Z")
    = Ok (whole_days_between (at_time 2024 3 2 10 0 0) (at_time 2024 2 28 9 0 0)).
Proof.
  apply (X14_elapsed_days_within_a_month strptime_iso strptime_iso_valid
           (at_time 2024 3 2 10 0 0) (at_time 2024 2 28 9 0 0)
           (JStr "2024-02-28T09:00:00Z")); vm_compute; reflexivity.
Defined.

Lemma X15_no_events_instance :
  get_time_before_deadline strptime_iso no_events_world
    (at_time 2024 3 15 12 0 0) overdue_issue
  = Ok (overdue_issue, "This issue is not assigned.").
Proof.
  apply (X15_no_assignment_no_deadline_report strptime_iso no_events_world
           (at_time 2024 3 15 12 0 0) overdue_issue events_endpoint).
  - reflexivity.
  - right. exists []. split; [exists 200; split; reflexivity |].
    split; reflexivity.
Defined.

Lemma X16_due_in_two_hours_instance :
  "2 hours 0 minutes remaining" = "This issue is not assigned." \/
  "2 hours 0 minutes remaining" = "No deadline set for this issue." \/
  (exists n, 1 <= n /\
             "2 hours 0 minutes remaining" = string_of_Z n ++ " days remaining") \/
  (exists h m, 0 <= h <= 23 /\ 0 <= m <= 59 /\
               "2 hours 0 minutes remaining" =
                 string_of_Z h ++ " hours " ++ string_of_Z m
                 ++ " minutes remaining") \/
  "2 hours 0 minutes remaining" = "Deadline has passed.".
Proof.
  apply (X16_deadline_answers strptime_iso strptime_iso_valid widget_world
           (at_time 2024 3 15 12 0 0) due_in_two_hours
           (JDict [("title", JStr "Fix widget"); ("events_url", JStr events_endpoint);
                   ("due_on", JStr "2024-03-15T14:00:00Z");
                   ("assigned_days", JInt 3)])).
  vm_compute. reflexivity.
Defined.

Lemma X17_due_in_two_hours_instance :
  (forall k, k <> "assigned_days" ->
     lookup (JDict [("title", JStr "Fix widget"); ("events_url", JStr events_endpoint);
                    ("due_on", JStr "2024-03-15T14:00:00Z");
                    ("assigned_days", JInt 3)]) k
     = lookup due_in_two_hours k) /\
  (JDict [("title", JStr "Fix widget"); ("events_url", JStr events_endpoint);
          ("due_on", JStr "2024-03-15T14:00:00Z"); ("assigned_days", JInt 3)]
   = due_in_two_hours \/
   exists days, -31 <= days <= 30 /\
     lookup (JDict [("title", JStr "Fix widget"); ("events_url", JStr events_endpoint);
                    ("due_on", JStr "2024-03-15T14:00:00Z");
                    ("assigned_days", JInt 3)]) "assigned_days"
     = Some (JInt days)).
Proof.
  apply (X17_only_assigned_days_is_written strptime_iso strptime_iso_valid
           widget_world (at_time 2024 3 15 12 0 0) due_in_two_hours _
           "2 hours 0 minutes remaining").
  - reflexivity.
  - vm_compute. reflexivity.
Defined.

Lemma X18_reviewed_world_instance :
  exists repo pull,
    In repo [widget_repo; gizmo_repo] /\
    listed_pull sample_pulls_url reviewed_world repo pull /\
    review_entry_of sample_reviews_url reviewed_world repo pull patch_review_entry.
Proof.
  apply (X18_review_entries_pair_pull_and_reviews sample_pulls_url
           sample_reviews_url reviewed_world [widget_repo; gizmo_repo]
           [patch_review_entry]).
  - vm_compute. reflexivity.
  - left. reflexivity.
Defined.

Lemma X19_gizmo_instance :
  get_user_revisions sample_pulls_url sample_reviews_url reviewed_world
    [gizmo_repo; widget_repo] =
  get_user_revisions sample_pulls_url sample_reviews_url reviewed_world
    [widget_repo].
Proof.
  apply (X19_failed_pull_listing_is_skipped sample_pulls_url sample_reviews_url
           reviewed_world gizmo_repo [widget_repo] (JStr "acme") (JStr "gizmo"));
    reflexivity.
Defined.

Lemma X20_numberless_instance :
  (forall result,
     get_user_revisions sample_pulls_url sample_reviews_url numberless_world
       [widget_repo; gizmo_repo] <> KOk result) /\
  get_user_revisions sample_pulls_url sample_reviews_url numberless_world
    [widget_repo; gizmo_repo] = KeyError.
Proof.
  destruct (X20_pull_without_number_raises_KeyError sample_pulls_url
              sample_reviews_url numberless_world widget_repo [gizmo_repo]
              (JStr "acme") (JStr "widget")
              [JDict [("title", JStr "Patch"); ("number", JInt 7)]] []
              (JDict [("title", JStr "Draft")])) as [Hno Hkey];
    try reflexivity.
  - exists 200. split; reflexivity.
  - split; [exact Hno |]. apply Hkey.
    intros p number [<- | []] Hn. injection Hn as <-. reflexivity.
Defined.

Lemma X21_gadget_instance :
  exists sent,
    send_deprecated_issue_assignees strptime_iso sample_issues_url sample_pulls_url
      sample_str reviewed_world ([widget_repo] ++ gadget_repo :: [gizmo_repo])%list
    = (sent, KRaise AttributeError) /\
    Forall2 (fun r text =>
               repository_message strptime_iso sample_issues_url sample_pulls_url
                 sample_str reviewed_world r = KOk text)
      [widget_repo] sent.
Proof.
  apply (X21_first_failure_stops_the_handler strptime_iso sample_issues_url
           sample_pulls_url sample_str reviewed_world [widget_repo] [gizmo_repo]
           gadget_repo AttributeError).
  - constructor; [| constructor]. eexists. vm_compute. reflexivity.
  - vm_compute. reflexivity.
Defined.

Lemma X22_gizmo_instance :
  repository_message strptime_iso sample_issues_url sample_pulls_url sample_str
    reviewed_world gizmo_repo =
    KOk ("<blockquote>"
         ++ (repository_header sample_str (JStr "acme") (JStr "gizmo")
             ++ "No missed deadlines.")
         ++ "</blockquote>").
Proof.
  apply (X22_failed_issues_fetch_reads_no_missed_deadlines strptime_iso
           sample_issues_url sample_pulls_url sample_str reviewed_world
           gizmo_repo (JStr "acme") (JStr "gizmo")); try reflexivity.
  left. reflexivity.
Defined.

Lemma X24_widget_link_instance :
  "Fix widget" = "Fix widget" /\ "http://t/issues/1" = "http://t/issues/1".
Proof.
  apply (X24_link_markup_is_unambiguous "Fix widget" "http://t/issues/1"
           "Fix widget" "http://t/issues/1"); reflexivity.
Defined.
